(** * AirTap Android SDK: session and sub-resource coordination layer

    A shallow embedding of the JavaScript sources
    ([sandbox.js], [stream/manager.js], [record/manager.js],
    [apps/manager.js], [files/manager.js], [api/client.js],
    [exceptions.js]) together with
    the properties of the design document that concern them.

    Conventions of the embedding:
    - an [async] method is a computation in the monad [M]: it threads the
      whole system state, and finishes with [Ok v] (the promise resolves)
      or [Throw e] (it rejects).  Mutations done before a [throw] stay;
    - values that come from outside the program (response bodies, shell
      output) are dynamically typed [JsVal]s; values the program makes
      itself (ids, flags, paths) and the arguments of its methods have
      the type their JSDoc gives them;
    - the services the code talks to are an arbitrary [Environment], a
      state machine that answers each request with a value or an
      exception and the time it took: [axios], [uuidv4], the timers, and
      the three members of the sandbox object that the managers use
      ([executeShellCommand], [apiClient], [deviceId]), which the class
      in [sandbox.js] does not define;
    - the clock is driven by the environment: a request takes the time
      its answer takes, a timer the time asked for or longer;
    - the local file system is part of the state: the regular files
      with their bytes and the directories, each under its path, and a
      path is the name of one place (no links, no second spelling of a
      path).  What becomes of a write to a file that could be opened, or
      of the making of a directory where one can be, is for the
      environment's disk to say;
    - strings are sequences of 8-bit characters. *)

From Stdlib Require Import ZArith String Ascii List Lia Strings.Byte DecimalString
  DecimalPos.
From stdpp Require Import base option list gmap strings.

Open Scope string_scope.
Open Scope Z_scope.

(** ** JavaScript values *)

#[local] Set Warnings "-register-all".

Inductive JsVal : Type :=
| VUndef
| VNull
| VBool (b : bool)
| VNum (n : Z)
| VStr (s : string)
| VBuf (bs : list byte)
| VArr (items : list JsVal)
| VObj (fields : list (string * JsVal)).

Definition truthy (v : JsVal) : bool :=
  match v with
  | VUndef | VNull => false
  | VBool b => b
  | VNum n => negb (n =? 0)
  | VStr s => negb (String.eqb s EmptyString)
  | VBuf _ | VArr _ | VObj _ => true
  end.

Definition Z_to_string (n : Z) : string := NilZero.string_of_int (Z.to_int n).

Definition bool_to_string (b : bool) : string := if b then "true" else "false".

Definition bytes_to_string (bs : list byte) : string :=
  string_of_list_ascii (map ascii_of_byte bs).

(** [`${v}`]: what a template literal makes of a value.  An array is
    its items joined by commas, [null] and [undefined] items left empty. *)
Fixpoint to_str (v : JsVal) : string :=
  match v with
  | VUndef => "undefined"
  | VNull => "null"
  | VBool b => bool_to_string b
  | VNum n => Z_to_string n
  | VStr s => s
  | VBuf bs => bytes_to_string bs
  | VArr items =>
      (fix join (l : list JsVal) : string :=
         match l with
         | [] => EmptyString
         | x :: l' =>
             let sx := match x with VUndef | VNull => EmptyString | _ => to_str x end in
             match l' with [] => sx | _ => sx +:+ "," +:+ join l' end
         end) items
  | VObj _ => "[object Object]"
  end.

Definition opt_str (o : option string) : JsVal :=
  match o with Some s => VStr s | None => VNull end.

Fixpoint assoc (k : string) (fs : list (string * JsVal)) : JsVal :=
  match fs with
  | [] => VUndef
  | (k', v) :: fs' => if String.eqb k k' then v else assoc k fs'
  end.

(** ** Errors: [exceptions.js] *)

Inductive ErrClass : Type :=
| AirTapError | ApiKeyError | ConnectionError | StreamError
| AppError | RecordError | FileError
| TypeError      (* raised by the language itself *)
| ForeignError.  (* raised by a collaborator: axios, the sandbox, fs *)

Global Instance ErrClass_eq_dec : EqDecision ErrClass.
Proof. solve_decision. Defined.

(** [response] and [request] are the two properties axios sets on the
    errors it throws; they are absent on every other error. *)
Record JsError : Type := mkError {
  name : ErrClass;
  message : string;
  response : JsVal;
  request : JsVal
}.

Definition error (c : ErrClass) (msg : string) : JsError :=
  mkError c msg VUndef VUndef.

(** [module.exports] of [exceptions.js]. *)
Definition exceptions : list (string * ErrClass) :=
  [ ("AirTapError", AirTapError); ("ApiKeyError", ApiKeyError);
    ("ConnectionError", ConnectionError); ("StreamError", StreamError);
    ("AppError", AppError); ("RecordError", RecordError);
    ("FileError", FileError) ].

(** [const { ident } = require('../exceptions')]: the class exported under
    that name, [None] ([undefined]) when the module exports no such name. *)
Fixpoint require (exports : list (string * ErrClass)) (ident : string)
  : option ErrClass :=
  match exports with
  | [] => None
  | (k, c) :: rest => if String.eqb ident k then Some c else require rest ident
  end.

Inductive Res (A : Type) : Type :=
| Ok (a : A)
| Throw (e : JsError).
Arguments Ok {A} a.
Arguments Throw {A} e.

(** [new ident(msg)] for a binding obtained by [require]: an instance of
    the class, or the [TypeError] of calling [new] on [undefined]. *)
Definition new_error (ident : string) (msg : string) : Res JsError :=
  match require exceptions ident with
  | Some c => Ok (error c msg)
  | None => Throw (error TypeError (ident +:+ " is not a constructor"))
  end.

(** Property read [o.k]. *)
Definition get_prop (o : JsVal) (k : string) : Res JsVal :=
  match o with
  | VObj fs => Ok (assoc k fs)
  | VUndef | VNull =>
      Throw (error TypeError ("Cannot read properties of " +:+ to_str o))
  | _ => Ok VUndef
  end.

(** ** Library functions the code calls *)

Definition dquote : string := String (ascii_of_byte x22) EmptyString.

Definition newline : string := String (ascii_of_byte x0a) EmptyString.

(** White space ([\s], and what [trim] strips) and line terminators among
    the characters below 256. *)
Definition is_space (c : ascii) : bool :=
  let n := N_of_ascii c in
  ((9 <=? n) && (n <=? 13) || (n =? 32) || (n =? 160))%N.

Definition is_line_terminator (c : ascii) : bool :=
  let n := N_of_ascii c in ((n =? 10) || (n =? 13))%N.

(** [s.includes(t)] *)
Fixpoint includes (s t : string) : bool :=
  String.prefix t s ||
  match s with
  | EmptyString => false
  | String _ s' => includes s' t
  end.

Fixpoint trim_start (s : string) : string :=
  match s with
  | String c s' => if is_space c then trim_start s' else s
  | EmptyString => EmptyString
  end.

Fixpoint trim_end (s : string) : string :=
  match s with
  | String c s' =>
      match trim_end s' with
      | EmptyString => if is_space c then EmptyString else String c EmptyString
      | t => String c t
      end
  | EmptyString => EmptyString
  end.

(** [s.trim()] *)
Definition trim (s : string) : string := trim_end (trim_start s).

(** *** The pattern [/^\s*([^\s]+)\s*$/m]

    A backtracking matcher, each piece of the pattern with the rest of
    the pattern as its continuation.  The quantifiers are greedy: the
    longest repetition is tried first, then the shorter ones. *)
Section Regex.
Context {R : Type}.

Fixpoint star_space (s : string) (k : string -> option R) : option R :=
  match s with
  | String c s' =>
      if is_space c
      then match star_space s' k with Some r => Some r | None => k s end
      else k s
  | EmptyString => k s
  end.

Fixpoint star_nonspace (s : string) (seen : string)
  (k : string -> string -> option R) : option R :=
  match s with
  | String c s' =>
      if is_space c then k seen s
      else match star_nonspace s' (seen +:+ String c EmptyString) k with
           | Some r => Some r
           | None => k seen s
           end
  | EmptyString => k seen s
  end.

Definition plus_nonspace (s : string) (k : string -> string -> option R)
  : option R :=
  match s with
  | String c s' =>
      if is_space c then None
      else star_nonspace s' (String c EmptyString) k
  | EmptyString => None
  end.

End Regex.

(** [$] under the [m] flag: the end of the input or of a line. *)
Definition at_line_end (s : string) : bool :=
  match s with
  | EmptyString => true
  | String c _ => is_line_terminator c
  end.

(** The pattern tried at one position; the result is group 1. *)
Definition match_here (s : string) : option string :=
  star_space s (fun s1 =>
  plus_nonspace s1 (fun group1 s2 =>
  star_space s2 (fun s3 =>
  if at_line_end s3 then Some group1 else None))).

(** The positions from left to right; [^] under the [m] flag holds at the
    start of the input and after a line terminator. *)
Fixpoint search (line_start : bool) (s : string) : option string :=
  match (if line_start then match_here s else None) with
  | Some g => Some g
  | None =>
      match s with
      | String c s' => search (is_line_terminator c) s'
      | EmptyString => None
      end
  end.

(** [output.match(/^\s*([^\s]+)\s*$/m)]: group 1 of the first match. *)
Definition match_single_token (output : string) : option string :=
  search true output.

(** *** Base64, as [Buffer] does it *)

Definition alphabet : string :=
  "ABCDEFGHIJKLMNOPQRSTUVWXYZabcdefghijklmnopqrstuvwxyz0123456789+/".

Definition b64char (n : N) : ascii :=
  match String.get (N.to_nat n) alphabet with
  | Some c => c
  | None => "="%char
  end.

(** The value of a character of the standard or of the URL-safe
    alphabet. *)
Definition unbase64 (c : ascii) : option N :=
  let n := N_of_ascii c in
  if ((65 <=? n) && (n <=? 90))%N then Some (n - 65)%N
  else if ((97 <=? n) && (n <=? 122))%N then Some (n - 71)%N
  else if ((48 <=? n) && (n <=? 57))%N then Some (n + 4)%N
  else if ((n =? 43) || (n =? 45))%N then Some 62%N
  else if ((n =? 47) || (n =? 95))%N then Some 63%N
  else None.

Definition byte_of_N (n : N) : byte :=
  match Byte.of_N (n mod 256) with
  | Some b => b
  | None => x00
  end.

(** [buf.toString('base64')] *)
Fixpoint base64_encode (bs : list byte) : string :=
  match bs with
  | [] => EmptyString
  | [a] =>
      let a := Byte.to_N a in
      String (b64char (a / 4)) (String (b64char (a mod 4 * 16)) "==")
  | [a; b] =>
      let a := Byte.to_N a in
      let b := Byte.to_N b in
      String (b64char (a / 4))
        (String (b64char (a mod 4 * 16 + b / 16))
           (String (b64char (b mod 16 * 4)) "="))
  | a :: b :: c :: rest =>
      let a := Byte.to_N a in
      let b := Byte.to_N b in
      let c := Byte.to_N c in
      String (b64char (a / 4))
        (String (b64char (a mod 4 * 16 + b / 16))
           (String (b64char (b mod 16 * 4 + c / 64))
              (String (b64char (c mod 64)) (base64_encode rest))))
  end%N.

(** The decoder is lenient: it reads up to the first [=], and skips every
    character that is in neither alphabet. *)
Fixpoint sextets (s : string) : list N :=
  match s with
  | EmptyString => []
  | String c s' =>
      if Ascii.eqb c "="%char then []
      else match unbase64 c with
           | Some v => v :: sextets s'
           | None => sextets s'
           end
  end.

Fixpoint bytes_of_sextets (l : list N) : list byte :=
  match l with
  | p :: q :: r :: t :: l' =>
      byte_of_N (p * 4 + q / 16) :: byte_of_N (q mod 16 * 16 + r / 4)
        :: byte_of_N (r mod 4 * 64 + t) :: bytes_of_sextets l'
  | [p; q; r] =>
      [byte_of_N (p * 4 + q / 16); byte_of_N (q mod 16 * 16 + r / 4)]
  | [p; q] => [byte_of_N (p * 4 + q / 16)]
  | _ => []
  end%N.

Definition base64_decode (s : string) : list byte :=
  bytes_of_sextets (sextets s).

Definition string_to_bytes (s : string) : list byte :=
  map byte_of_ascii (list_ascii_of_string s).

(** [Buffer.from(v, 'base64')], for the values a response body carries
    as content: a string is decoded, a buffer copied, anything else
    refused. *)
Definition Buffer_from_base64 (v : JsVal) : Res (list byte) :=
  match v with
  | VStr s => Ok (base64_decode s)
  | VBuf bs => Ok bs
  | _ => Throw (error TypeError "The first argument must be of type string or an instance of Buffer")
  end.

(** [Buffer.from(v)] *)
Definition Buffer_from (v : JsVal) : Res (list byte) :=
  match v with
  | VStr s => Ok (string_to_bytes s)
  | VBuf bs => Ok bs
  | _ => Throw (error TypeError "The first argument must be of type string or an instance of Buffer")
  end.

(** *** [path.dirname] (POSIX) *)

Definition is_slash (c : ascii) : bool := Ascii.eqb c "/"%char.

(** The scan from the last character down to the second one: the index of
    the first slash that has a character other than a slash after it. *)
Fixpoint dirname_end (backwards : list ascii) (i : nat) (matchedSlash : bool)
  : option nat :=
  match backwards with
  | [] => None
  | c :: rest =>
      if is_slash c
      then if matchedSlash then dirname_end rest (pred i) true else Some i
      else dirname_end rest (pred i) false
  end.

Definition path_dirname (p : string) : string :=
  match p with
  | EmptyString => "."
  | String c0 tl =>
      let hasRoot := is_slash c0 in
      match dirname_end (rev (list_ascii_of_string tl)) (String.length tl) true with
      | None => if hasRoot then "/" else "."
      | Some e =>
          if hasRoot && Nat.eqb e 1 then "//" else String.substring 0 e p
      end
  end.

(** The directories a path lies in, the nearest first: what
    [path.dirname] gives, over and over, until it gives nothing new. *)
Fixpoint ancestors_from (fuel : nat) (p : string) : list string :=
  match fuel with
  | O => []
  | S fuel' =>
      let d := path_dirname p in
      if String.eqb d p then [] else d :: ancestors_from fuel' d
  end.

Definition ancestors (p : string) : list string :=
  ancestors_from (S (String.length p)) p.

(** What a path must be like to name a regular file: not empty, without
    a NUL character, and not ending in a separator. *)
Fixpoint has_nul (p : string) : bool :=
  match p with
  | EmptyString => false
  | String c p' => Ascii.eqb c Ascii.zero || has_nul p'
  end.

Fixpoint ends_in_slash (p : string) : bool :=
  match p with
  | EmptyString => false
  | String c EmptyString => is_slash c
  | String _ p' => ends_in_slash p'
  end.

Definition file_path (p : string) : bool :=
  negb (has_nul p) && negb (String.eqb p EmptyString) && negb (ends_in_slash p).

(** *** Strings and arrays, as [listFiles] uses them *)

(** [s.split(sep)] for a separator of one character: the pieces between
    the separators, the empty ones included. *)
Fixpoint split_on (sep : ascii) (s : string) : list string :=
  match s with
  | EmptyString => [EmptyString]
  | String c s' =>
      if Ascii.eqb c sep then EmptyString :: split_on sep s'
      else match split_on sep s' with
           | piece :: pieces => String c piece :: pieces
           | [] => [String c EmptyString]
           end
  end.

Definition starts_with_space (s : string) : bool :=
  match s with
  | String c _ => is_space c
  | EmptyString => false
  end.

(** [s.split(/\s+/)]: the pieces between the runs of white space; a run
    at the start or at the end leaves an empty piece there. *)
Fixpoint split_spaces (s : string) : list string :=
  match s with
  | EmptyString => [EmptyString]
  | String c s' =>
      if is_space c then
        if starts_with_space s' then split_spaces s'
        else EmptyString :: split_spaces s'
      else match split_spaces s' with
           | piece :: pieces => String c piece :: pieces
           | [] => [String c EmptyString]
           end
  end.

(** [parts.join(' ')] *)
Fixpoint join_space (parts : list string) : string :=
  match parts with
  | [] => EmptyString
  | [p] => p
  | p :: rest => p +:+ " " +:+ join_space rest
  end.

(** [parts[i]]: [undefined] past the end. *)
Definition item (parts : list string) (i : nat) : JsVal :=
  match nth_error parts i with
  | Some p => VStr p
  | None => VUndef
  end.

Definition is_digit (c : ascii) : bool :=
  let n := N_of_ascii c in ((48 <=? n) && (n <=? 57))%N.

Fixpoint digits_prefix (s : string) : string :=
  match s with
  | String c s' => if is_digit c then String c (digits_prefix s') else EmptyString
  | EmptyString => EmptyString
  end.

(** What [parseInt] gives when it gives a number: a double.  The doubles
    that matter here are whole numbers, kept as the integer they are,
    and the two infinities.  (Minus zero is kept as zero.) *)
Inductive Number : Type :=
| Finite (n : Z)
| Infinite (negative : bool).

(** The double nearest to a natural number, as the conversion of a
    numeral to a Number value rounds it: exact below [2 ^ 53]; from
    there on the 53 leading bits are kept, rounded to the nearest, a
    tie to the even one; infinite from [2 ^ 1024] on. *)
Definition nearest_double (n : Z) : Number :=
  if n <? 2 ^ 53 then Finite n
  else
    let e := Z.log2 n - 52 in
    let q := n / 2 ^ e in
    let r := n mod 2 ^ e in
    let half := 2 ^ (e - 1) in
    let q' := if (r <? half) || ((r =? half) && Z.even q) then q else q + 1 in
    if 2 ^ 1024 <=? q' * 2 ^ e then Infinite false else Finite (q' * 2 ^ e).

Definition to_double (n : Z) : Number :=
  match nearest_double (Z.abs n) with
  | Finite m => Finite (Z.sgn n * m)
  | Infinite _ => Infinite (n <? 0)
  end.

(** [parseInt(v, 10)]: white space, a sign, then the decimal digits up to
    the first character that is none, as the double nearest to the
    number they denote; [None] is [NaN], for a text without digits
    there. *)
Definition parseInt (v : JsVal) : option Number :=
  let text := trim_start (to_str v) in
  let '(negative, body) :=
    match text with
    | String c rest =>
        if Ascii.eqb c "-"%char then (true, rest)
        else if Ascii.eqb c "+"%char then (false, rest)
        else (false, text)
    | EmptyString => (false, text)
    end in
  match digits_prefix body with
  | EmptyString => None
  | digits =>
      match NilZero.uint_of_string digits with
      | Some u => Some (to_double (if negative then - Z.of_uint u else Z.of_uint u))
      | None => None
      end
  end.

(** ** The outside world *)

Inductive Method : Type := GET | POST | PUT | DELETE.

Inductive Request : Type :=
| Axios (m : Method) (url : string) (data : JsVal) (config : JsVal)
| ApiClient (m : Method) (endpoint : string) (data : JsVal)
| ShellCommand (command : string).

Inductive Level : Type := Warn | Error.

(** What the program did, in order: the requests it made with the answer
    each got, the delays it waited for, the lines it logged. *)
Inductive Event : Type :=
| Call (r : Request) (answer : Res JsVal)
| Slept (ms : Z)
| Console (l : Level) (msg : string).

(** What becomes of a write to the local disk that the layout of the
    files and directories allows.  Of the bytes written to a file: they
    are all stored; or the file cannot be opened after all (no
    permission, a read-only disk, a name too long) and stays as it is;
    or the write
    breaks off after some of the bytes (a full disk), which are then all
    the file holds.  Of the directories to make for a path, the outermost
    first: they are all made, or none, or some of them. *)
Inductive DiskOutcome : Type :=
| Stored
| Refused (e : JsError)
| Broke (written : nat) (e : JsError).

(** Whatever answers the program: a request is answered by a value or an
    exception, after some time (in ms); a timer may fire late; the disk
    decides on each write. *)
Record Environment : Type := {
  Remote : Type;
  respond : Request -> Remote -> Res JsVal * N * Remote;
  uuid : Remote -> string * Remote;
  timer_lag : Remote -> N * Remote;
  disk : Remote -> DiskOutcome * Remote
}.

Record StreamManager : Type := mkStream {
  streamId : option string;
  streamUrl : JsVal;
  isStreaming : bool
}.

Record RecordManager : Type := mkRecord {
  recordingId : option string;
  isRecording : bool;
  recordingStartTime : option Z
}.

Record AndroidSandbox : Type := mkSandbox {
  api_key : string;
  resolution : Z * Z;
  dpi : Z;
  memory_mb : Z;
  _device_id : JsVal
}.

Section Program.

Context {E : Environment}.

(** The state the program runs in.  [deviceId] is the property of that
    name of the sandbox object handed to the managers. *)
Record Sys : Type := mkSys {
  remote : Remote E;
  now : Z;
  trace : list Event;
  files : gmap string (list byte);
  dirs : gset string;
  deviceId : JsVal;
  sandbox : AndroidSandbox;
  stream : StreamManager;
  record : RecordManager
}.

Definition M (A : Type) : Type := Sys -> Res A * Sys.

Definition ret {A} (a : A) : M A := fun s => (Ok a, s).

Definition throw {A} (e : JsError) : M A := fun s => (Throw e, s).

Definition bind {A B} (m : M A) (k : A -> M B) : M B :=
  fun s => match m s with
           | (Ok a, s') => k a s'
           | (Throw e, s') => (Throw e, s')
           end.

(** [try { m } catch (e) { h e }] *)
Definition try_catch {A} (m : M A) (h : JsError -> M A) : M A :=
  fun s => match m s with
           | (Ok a, s') => (Ok a, s')
           | (Throw e, s') => h e s'
           end.

Definition lift {A} (r : Res A) : M A := fun s => (r, s).

Definition gets {A} (f : Sys -> A) : M A := fun s => (Ok (f s), s).

Definition modify (f : Sys -> Sys) : M unit := fun s => (Ok tt, f s).

(** [throw new ident(msg)] *)
Definition throw_new {A} (ident msg : string) : M A :=
  match new_error ident msg with
  | Ok e => throw e
  | Throw e => throw e
  end.

(** Field updates. *)
Definition set_world (r : Remote E) (t : Z) (tr : list Event) (s : Sys) : Sys :=
  mkSys r t tr (files s) (dirs s) (deviceId s) (sandbox s) (stream s) (record s).

Definition set_local (f : gmap string (list byte)) (d : gset string) (s : Sys) : Sys :=
  mkSys (remote s) (now s) (trace s) f d (deviceId s) (sandbox s) (stream s) (record s).

Definition set_sandbox (x : AndroidSandbox) (s : Sys) : Sys :=
  mkSys (remote s) (now s) (trace s) (files s) (dirs s) (deviceId s) x (stream s) (record s).

Definition set_stream (x : StreamManager) (s : Sys) : Sys :=
  mkSys (remote s) (now s) (trace s) (files s) (dirs s) (deviceId s) (sandbox s) x (record s).

Definition set_record (x : RecordManager) (s : Sys) : Sys :=
  mkSys (remote s) (now s) (trace s) (files s) (dirs s) (deviceId s) (sandbox s) (stream s) x.

(** Effects.  A request is logged, answered by the environment, and takes
    the time the environment says. *)
Definition send (r : Request) : M JsVal :=
  fun s => let '(out, lat, rem) := respond E r (remote s) in
           (out, set_world rem (now s + Z.of_N lat) (trace s ++ [Call r out]) s).

Definition uuidv4 : M string :=
  fun s => let '(u, rem) := uuid E (remote s) in
           (Ok u, set_world rem (now s) (trace s) s).

Definition Date_now : M Z := gets now.

(** [await new Promise(resolve => setTimeout(resolve, ms))] *)
Definition sleep (ms : Z) : M unit :=
  fun s => let '(lag, rem) := timer_lag E (remote s) in
           (Ok tt, set_world rem (now s + ms + Z.of_N lag) (trace s ++ [Slept ms]) s).

Definition console (l : Level) (msg : string) : M unit :=
  modify (fun s => set_world (remote s) (now s) (trace s ++ [Console l msg]) s).

(** The two services of the sandbox object that the managers use.  They
    are requests to the environment like any other: what the sandbox
    object makes of them is not the managers' business. *)
Definition executeShellCommand (command : string) : M JsVal :=
  send (ShellCommand command).

Definition apiClient (m : Method) (endpoint : string) (data : JsVal) : M JsVal :=
  send (ApiClient m endpoint data).

(** The local file system ([fs]): regular files with their bytes, and
    directories. *)
Definition fs_existsSync (p : string) : M bool :=
  gets (fun s => bool_decide (is_Some (files s !! p)) || bool_decide (p ∈ dirs s)).

Definition fs_readFileSync (p : string) : M (list byte) :=
  fun s => match files s !! p with
           | Some bs => (Ok bs, s)
           | None =>
               if bool_decide (p ∈ dirs s)
               then (Throw (error ForeignError "EISDIR: illegal operation on a directory, read"), s)
               else (Throw (error ForeignError ("ENOENT: no such file or directory, open '" +:+ p +:+ "'")), s)
           end.

Definition is_file (s : Sys) (p : string) : bool :=
  bool_decide (is_Some (files s !! p)).

(** A regular file stands where the path needs a directory. *)
Definition not_a_directory (s : Sys) (p : string) : bool :=
  existsb (is_file s) (ancestors p).

(** What is wrong with a path whatever the disk holds: it has a NUL
    character in it (the message goes on to quote the path), or it is
    empty. *)
Definition bad_path (syscall p : string) : option JsError :=
  if has_nul p
  then Some (error TypeError
               "The argument 'path' must be a string, Uint8Array, or URL without null bytes.")
  else if String.eqb p EmptyString
  then Some (error ForeignError
               ("ENOENT: no such file or directory, " +:+ syscall +:+ " ''"))
  else None.

(** [fs.mkdirSync(p, { recursive: true })]: the directory and those it
    lies in, as far as they are missing, the outermost first.  Nothing
    is done for a directory that exists. *)
Definition fs_mkdirSync (p : string) : M unit :=
  fun s =>
    if bad_path "mkdir" p is Some e
    then (Throw e, s)
    else if not_a_directory s p
    then (Throw (error ForeignError ("ENOTDIR: not a directory, mkdir '" +:+ p +:+ "'")), s)
    else if is_file s p
    then (Throw (error ForeignError ("EEXIST: file already exists, mkdir '" +:+ p +:+ "'")), s)
    else if bool_decide (p ∈ dirs s)
    then (Ok tt, s)
    else
      let '(outcome, rem) := disk E (remote s) in
      let s' := set_world rem (now s) (trace s) s in
      match outcome with
      | Stored =>
          (Ok tt, set_local (files s) (list_to_set (p :: ancestors p) ∪ dirs s) s')
      | Refused e => (Throw e, s')
      | Broke made e =>
          (Throw e,
           set_local (files s)
             (list_to_set (take made (rev (p :: ancestors p))) ∪ dirs s) s')
      end.

(** [fs.writeFileSync(p, bs)]: the file is opened, which takes that the
    path leads through directories to a place in a directory that
    exists, where no directory stands, and that it does not end in a
    separator, as the path of a directory may; then it is emptied, and
    the bytes are written. *)
Definition fs_writeFileSync (p : string) (bs : list byte) : M unit :=
  fun s =>
    if bad_path "open" p is Some e
    then (Throw e, s)
    else if not_a_directory s p
    then (Throw (error ForeignError ("ENOTDIR: not a directory, open '" +:+ p +:+ "'")), s)
    else if bool_decide (p ∈ dirs s) || ends_in_slash p
    then (Throw (error ForeignError ("EISDIR: illegal operation on a directory, open '" +:+ p +:+ "'")), s)
    else if negb (bool_decide (path_dirname p ∈ dirs s))
    then (Throw (error ForeignError ("ENOENT: no such file or directory, open '" +:+ p +:+ "'")), s)
    else
      let '(outcome, rem) := disk E (remote s) in
      let s' := set_world rem (now s) (trace s) s in
      match outcome with
      | Stored => (Ok tt, set_local (<[ p := bs ]> (files s)) (dirs s) s')
      | Refused e => (Throw e, s')
      | Broke written e =>
          (Throw e, set_local (<[ p := take written bs ]> (files s)) (dirs s) s')
      end.

(** Methods of [String.prototype] called on a value that came from
    outside: a [TypeError] when the value has no such method. *)
Definition no_method {A} (v : JsVal) (method : string) : Res A :=
  match v with
  | VUndef | VNull =>
      Throw (error TypeError ("Cannot read properties of " +:+ to_str v
                              +:+ " (reading '" +:+ method +:+ "')"))
  | _ => Throw (error TypeError ("output." +:+ method +:+ " is not a function"))
  end.

(** [===] where one side is a primitive, as everywhere in this program:
    an object, array or buffer is never equal to it. *)
Definition strict_eq (v w : JsVal) : bool :=
  match v, w with
  | VUndef, VUndef | VNull, VNull => true
  | VBool a, VBool b => Bool.eqb a b
  | VNum a, VNum b => (a =? b)%Z
  | VStr a, VStr b => String.eqb a b
  | _, _ => false
  end.

Definition js_includes (v : JsVal) (t : string) : Res bool :=
  match v with
  | VStr s => Ok (includes s t)
  | VArr items => Ok (existsb (fun x => strict_eq x (VStr t)) items)
  | _ => no_method v "includes"
  end.

Definition js_trim (v : JsVal) : Res string :=
  match v with
  | VStr s => Ok (trim s)
  | _ => no_method v "trim"
  end.

Definition js_match_single_token (v : JsVal) : Res (option string) :=
  match v with
  | VStr s => Ok (match_single_token s)
  | _ => no_method v "match"
  end.

End Program.

Declare Scope js_scope.
Delimit Scope js_scope with js.
Notation "'let*' x := m 'in' k" := (bind m (fun x => k))
  (at level 10, x name, m at level 100, k at level 200) : js_scope.
Notation "m ;; k" := (bind m (fun _ => k))
  (at level 100, k at level 200, right associativity) : js_scope.
Open Scope js_scope.

(** ** [stream/manager.js] *)

Module Stream.
Section Stream.
Context {E : Environment}.

Definition stop : M (E := E) bool :=
  try_catch
    (let* st := gets stream in
     if negb (isStreaming st) then ret true
     else
       send (ApiClient DELETE ("/stream/" +:+ to_str (opt_str (streamId st))) VUndef) ;;
       modify (fun s => set_stream (mkStream (streamId (stream s)) (streamUrl (stream s)) false) s) ;;
       modify (fun s => set_stream (mkStream (streamId (stream s)) VNull (isStreaming (stream s))) s) ;;
       ret true)
    (fun error => throw_new "StreamError" ("Failed to stop stream: " +:+ message error)).

(** [start(options = { quality: 8, audio: true })] and the other
    parameters with a default: the default stands in for an argument
    that is left out ([undefined]). *)
Definition or_default (arg default : JsVal) : JsVal :=
  match arg with
  | VUndef => default
  | _ => arg
  end.

Definition default_options : JsVal :=
  VObj [("quality", VNum 8); ("audio", VBool true)].

Definition set_streamId (id : option string) (s : Sys (E := E)) : Sys :=
  set_stream (mkStream id (streamUrl (stream s)) (isStreaming (stream s))) s.

Definition set_streamUrl (url : JsVal) (s : Sys (E := E)) : Sys :=
  set_stream (mkStream (streamId (stream s)) url (isStreaming (stream s))) s.

Definition set_isStreaming (b : bool) (s : Sys (E := E)) : Sys :=
  set_stream (mkStream (streamId (stream s)) (streamUrl (stream s)) b) s.

Definition start (options : JsVal) : M (E := E) JsVal :=
  let options := or_default options default_options in
  try_catch
    (let* streaming := gets (fun s => isStreaming (stream s)) in
     if streaming then gets (fun s => streamUrl (stream s))
     else
       let* id := uuidv4 in
       modify (set_streamId (Some id)) ;;
       let* device := gets deviceId in
       let* current := gets (fun s => streamId (stream s)) in
       let* quality := lift (get_prop options "quality") in
       let* audio := lift (get_prop options "audio") in
       let* response :=
         apiClient POST "/stream"
           (VObj [("deviceId", device); ("streamId", opt_str current);
                  ("quality", quality); ("audio", audio)]) in
       let* url := lift (get_prop response "streamUrl") in
       modify (set_streamUrl url) ;;
       modify (set_isStreaming true) ;;
       gets (fun s => streamUrl (stream s)))
    (fun error => throw_new "StreamError" ("Failed to start stream: " +:+ message error)).

(** [!this.isStreaming || !this.streamId] *)
Definition no_stream (st : StreamManager) : bool :=
  negb (isStreaming st) || negb (truthy (opt_str (streamId st))).

Definition getStatus : M (E := E) JsVal :=
  try_catch
    (let* st := gets stream in
     if no_stream st then ret (VObj [("isStreaming", VBool false)])
     else
       let* status :=
         apiClient GET ("/stream/" +:+ to_str (opt_str (streamId st)) +:+ "/status")
           VUndef in
       let* active := lift (get_prop status "active") in
       let* viewers := lift (get_prop status "viewers") in
       let* startTime := lift (get_prop status "startTime") in
       let* quality := lift (get_prop status "quality") in
       ret (VObj [("isStreaming", active); ("viewers", viewers);
                  ("startTime", startTime); ("quality", quality)]))
    (fun error =>
       throw_new "StreamError" ("Failed to get stream status: " +:+ message error)).

Definition updateSettings (options : JsVal) : M (E := E) bool :=
  let options := or_default options (VObj []) in
  try_catch
    (let* st := gets stream in
     (if no_stream st
      then throw_new "StreamError" "No active stream to update"
      else ret tt) ;;
     apiClient PUT ("/stream/" +:+ to_str (opt_str (streamId st))) options ;;
     ret true)
    (fun error =>
       throw_new "StreamError"
         ("Failed to update stream settings: " +:+ message error)).

End Stream.
End Stream.

(** ** [files/manager.js] *)

Module Files.
Section Files.
Context {E : Environment}.

Definition pushFile (localPath remotePath : string) : M (E := E) bool :=
  try_catch
    (let* present := fs_existsSync localPath in
     (if negb present
      then throw_new "FileError" ("Local file " +:+ localPath +:+ " does not exist")
      else ret tt) ;;
     let* fileContent := fs_readFileSync localPath in
     let base64Content := base64_encode fileContent in
     let* device := gets deviceId in
     apiClient POST "/files/push"
       (VObj [("deviceId", device); ("path", VStr remotePath);
              ("content", VStr base64Content)]) ;;
     ret true)
    (fun error =>
       throw_new "FileError"
         ("Failed to push file " +:+ localPath +:+ " to " +:+ remotePath
          +:+ ": " +:+ message error)).

Definition pullFile (remotePath localPath : string) : M (E := E) bool :=
  try_catch
    (let* device := gets deviceId in
     let* response :=
       apiClient GET "/files/pull"
         (VObj [("deviceId", device); ("path", VStr remotePath)]) in
     let* content := lift (get_prop response "content") in
     let* buffer := lift (Buffer_from_base64 content) in
     let dir := path_dirname localPath in
     let* present := fs_existsSync dir in
     (if negb present then fs_mkdirSync dir else ret tt) ;;
     fs_writeFileSync localPath buffer ;;
     ret true)
    (fun error =>
       throw_new "FileError"
         ("Failed to pull file " +:+ remotePath +:+ " to " +:+ localPath
          +:+ ": " +:+ message error)).

Definition deleteFile (remotePath : string) : M (E := E) bool :=
  try_catch
    (executeShellCommand ("rm -f " +:+ remotePath) ;;
     ret true)
    (fun error =>
       throw_new "FileError"
         ("Failed to delete file " +:+ remotePath +:+ ": " +:+ message error)).

(** The command line of [fileExists]. *)
Definition test_command (remotePath : string) : string :=
  "[ -e " +:+ remotePath +:+ " ] && echo " +:+ dquote +:+ "exists"
  +:+ dquote +:+ " || echo " +:+ dquote +:+ "not exists" +:+ dquote.

Definition fileExists (remotePath : string) : M (E := E) bool :=
  try_catch
    (let* output := executeShellCommand (test_command remotePath) in
     let* trimmed := lift (js_trim output) in
     ret (String.eqb trimmed "exists"))
    (fun error =>
       throw_new "FileError"
         ("Failed to check if file " +:+ remotePath +:+ " exists: "
          +:+ message error)).

Definition createDirectory (remotePath : string) : M (E := E) bool :=
  try_catch
    (executeShellCommand ("mkdir -p " +:+ remotePath) ;;
     ret true)
    (fun error =>
       throw_new "FileError"
         ("Failed to create directory " +:+ remotePath +:+ ": " +:+ message error)).

(** An entry of [listFiles].  A field the line is too short for is
    [undefined]; a size that is no number is [NaN], here [None]. *)
Record FileEntry : Type := mkEntry {
  permissions : JsVal;
  owner : JsVal;
  group : JsVal;
  size : option Number;
  date : string;
  name : string
}.

(** The callback of [map] in [listFiles]. *)
Definition parse_line (line : string) : FileEntry :=
  let parts := split_spaces line in
  mkEntry (item parts 0) (item parts 2) (item parts 3)
    (parseInt (item parts 4))
    (to_str (item parts 5) +:+ " " +:+ to_str (item parts 6) +:+ " "
     +:+ to_str (item parts 7))
    (join_space (skipn 8 parts)).

(** [output.split('\n').filter(line => line.trim() !== '')] *)
Definition nonblank_lines (output : string) : list string :=
  List.filter (fun line => negb (String.eqb (trim line) EmptyString))
    (split_on (ascii_of_byte x0a) output).

Definition js_nonblank_lines (v : JsVal) : Res (list string) :=
  match v with
  | VStr output => Ok (nonblank_lines output)
  | _ => no_method v "split"
  end.

Definition listFiles (remotePath : string) : M (E := E) (list FileEntry) :=
  try_catch
    (let* output := executeShellCommand ("ls -la " +:+ remotePath) in
     let* lines := lift (js_nonblank_lines output) in
     ret (map parse_line (skipn 1 lines)))
    (fun error =>
       throw_new "FileError"
         ("Failed to list files in " +:+ remotePath +:+ ": " +:+ message error)).

End Files.
End Files.

(** ** [record/manager.js] *)

Module Recording.
Section Recording.
Context {E : Environment}.

Record Options : Type := mkOptions {
  width : Z;
  height : Z;
  bitRate : Z;
  audio : bool;
  timeLimit : Z
}.

Definition default_options : Options := mkOptions 1280 720 8 true 180.

Definition set_recordingId (id : option string) (s : Sys (E := E)) : Sys :=
  set_record (mkRecord id (isRecording (record s)) (recordingStartTime (record s))) s.

Definition set_isRecording (b : bool) (s : Sys (E := E)) : Sys :=
  set_record (mkRecord (recordingId (record s)) b (recordingStartTime (record s))) s.

Definition set_recordingStartTime (t : option Z) (s : Sys (E := E)) : Sys :=
  set_record (mkRecord (recordingId (record s)) (isRecording (record s)) t) s.

(** [`/sdcard/recording_${id}.mp4`] *)
Definition recording_path (id : option string) : string :=
  "/sdcard/recording_" +:+ to_str (opt_str id) +:+ ".mp4".

(** The command line [start] builds out of its options and the id. *)
Definition screenrecord (options : Options) (audioOption : string)
  (id : option string) : string :=
  "screenrecord --size " +:+ Z_to_string (width options) +:+ "x"
  +:+ Z_to_string (height options) +:+ " --bit-rate "
  +:+ Z_to_string (bitRate options) +:+ "M " +:+ audioOption
  +:+ " --time-limit " +:+ Z_to_string (timeLimit options) +:+ " "
  +:+ recording_path id.

Definition start (options : Options) : M (E := E) (option string) :=
  try_catch
    (let* recording := gets (fun s => isRecording (record s)) in
     if recording then gets (fun s => recordingId (record s))
     else
       let* id := uuidv4 in
       modify (set_recordingId (Some id)) ;;
       let audioOption :=
         if audio options then "--audio-source=mic" else "--audio-source=none" in
       let* current := gets (fun s => recordingId (record s)) in
       executeShellCommand (screenrecord options audioOption current) ;;
       modify (set_isRecording true) ;;
       let* t := Date_now in
       modify (set_recordingStartTime (Some t)) ;;
       gets (fun s => recordingId (record s)))
    (fun error =>
       throw_new "RecordingError"
         ("Failed to start recording: " +:+ message error)).

Definition stop : M (E := E) string :=
  try_catch
    (let* recording := gets (fun s => isRecording (record s)) in
     (if negb recording
      then throw_new "RecordingError" "No active recording to stop"
      else ret tt) ;;
     executeShellCommand "pkill -INT screenrecord" ;;
     sleep 2000 ;;
     modify (set_isRecording false) ;;
     let* id := gets (fun s => recordingId (record s)) in
     let recordingPath := recording_path id in
     let* present := Files.fileExists recordingPath in
     (if negb present
      then throw_new "RecordingError" "Recording file not found"
      else ret tt) ;;
     ret recordingPath)
    (fun error =>
       throw_new "RecordingError"
         ("Failed to stop recording: " +:+ message error)).

Definition falsy_id (id : option string) : bool :=
  negb (truthy (opt_str id)).

Definition saveRecording (localPath : string) : M (E := E) bool :=
  try_catch
    (let* recording := gets (fun s => isRecording (record s)) in
     (if recording
      then throw_new "RecordingError" "Cannot save while recording is in progress"
      else ret tt) ;;
     let* id := gets (fun s => recordingId (record s)) in
     (if falsy_id id
      then throw_new "RecordingError" "No recording available to save"
      else ret tt) ;;
     let recordingPath := recording_path id in
     Files.pullFile recordingPath localPath ;;
     ret true)
    (fun error =>
       throw_new "RecordingError"
         ("Failed to save recording to " +:+ localPath +:+ ": "
          +:+ message error)).

(** [deleteRecording(recordingId = this.recordingId)]: [None] is the call
    without an argument, which takes the tracked id. *)
Definition deleteRecording (arg : option string) : M (E := E) bool :=
  let* tracked := gets (fun s => recordingId (record s)) in
  let recordingId' := match arg with Some id => Some id | None => tracked end in
  try_catch
    ((if falsy_id recordingId'
      then throw_new "RecordingError" "No recording ID provided"
      else ret tt) ;;
     let* recording := gets (fun s => isRecording (record s)) in
     let* current := gets (fun s => recordingId (record s)) in
     (if recording && bool_decide (recordingId' = current)
      then throw_new "RecordingError" "Cannot delete active recording"
      else ret tt) ;;
     let recordingPath := recording_path recordingId' in
     Files.deleteFile recordingPath ;;
     let* current := gets (fun s => recordingId (record s)) in
     (if bool_decide (recordingId' = current)
      then modify (set_recordingId None)
      else ret tt) ;;
     ret true)
    (fun error =>
       throw_new "RecordingError"
         ("Failed to delete recording: " +:+ message error)).

(** [getStatus()]: synchronous; it reads the clock and nothing else. *)
Definition getStatus : M (E := E) JsVal :=
  let* r := gets record in
  if negb (isRecording r) && falsy_id (recordingId r)
  then ret (VObj [("isRecording", VBool false); ("recordingId", VNull)])
  else
    let status :=
      [("isRecording", VBool (isRecording r));
       ("recordingId", opt_str (recordingId r))] in
    match (if isRecording r then recordingStartTime r else None) with
    | Some started =>
        let* t := Date_now in
        ret (VObj (status ++ [("duration", VNum ((t - started) / 1000))]))
    | None => ret (VObj status)
    end.

End Recording.
End Recording.

(** ** [apps/manager.js] *)

Module Apps.
Section Apps.
Context {E : Environment}.

Definition isInstalled (packageName : string) : M (E := E) bool :=
  try_catch
    (let* output := executeShellCommand ("pm list packages " +:+ packageName) in
     lift (js_includes output ("package:" +:+ packageName)))
    (fun error =>
       throw_new "AppError"
         ("Failed to check if app " +:+ packageName +:+ " is installed: "
          +:+ message error)).

Definition launch (packageName : string) : M (E := E) bool :=
  try_catch
    (let* installed := isInstalled packageName in
     (if negb installed
      then throw_new "AppError" ("App " +:+ packageName +:+ " is not installed")
      else ret tt) ;;
     let* output :=
       executeShellCommand ("cmd package resolve-activity --brief " +:+ packageName) in
     let* found := lift (js_match_single_token output) in
     match found with
     | None =>
         throw_new "AppError" ("Could not find main activity for " +:+ packageName)
     | Some activity =>
         if String.eqb activity EmptyString
         then throw_new "AppError" ("Could not find main activity for " +:+ packageName)
         else
           executeShellCommand ("am start -n " +:+ activity) ;;
           ret true
     end)
    (fun error =>
       throw_new "AppError"
         ("Failed to launch app " +:+ packageName +:+ ": " +:+ message error)).

Definition install (packageName : string) : M (E := E) bool :=
  try_catch
    (executeShellCommand ("pm install-existing " +:+ packageName) ;;
     let* installed := isInstalled packageName in
     (if negb installed then
        executeShellCommand
          ("am start -a android.intent.action.VIEW -d market://details?id="
           +:+ packageName) ;;
        sleep 15000
      else ret tt) ;;
     isInstalled packageName)
    (fun error =>
       throw_new "AppError"
         ("Failed to install app " +:+ packageName +:+ ": " +:+ message error)).

Definition uninstall (packageName : string) : M (E := E) bool :=
  try_catch
    (let* installed := isInstalled packageName in
     if negb installed then ret true
     else
       executeShellCommand ("pm uninstall " +:+ packageName) ;;
       let* still := isInstalled packageName in
       ret (negb still))
    (fun error =>
       throw_new "AppError"
         ("Failed to uninstall app " +:+ packageName +:+ ": " +:+ message error)).

Definition forceStop (packageName : string) : M (E := E) bool :=
  try_catch
    (executeShellCommand ("am force-stop " +:+ packageName) ;;
     ret true)
    (fun error =>
       throw_new "AppError"
         ("Failed to force stop app " +:+ packageName +:+ ": " +:+ message error)).

Definition clearData (packageName : string) : M (E := E) bool :=
  try_catch
    (executeShellCommand ("pm clear " +:+ packageName) ;;
     ret true)
    (fun error =>
       throw_new "AppError"
         ("Failed to clear data for app " +:+ packageName +:+ ": " +:+ message error)).

End Apps.
End Apps.

(** ** [sandbox.js] *)

Module Sandbox.
Section Sandbox.
Context {E : Environment}.

(** The state after the constructor. *)
Definition construct (key : string) (res : Z * Z) (d mem : Z) : AndroidSandbox :=
  mkSandbox key res d mem VNull.

Definition set_device_id (v : JsVal) (s : Sys (E := E)) : Sys :=
  set_sandbox
    (mkSandbox (api_key (sandbox s)) (resolution (sandbox s)) (dpi (sandbox s))
       (memory_mb (sandbox s)) v) s.

Definition device_url (s : Sys (E := E)) (suffix : string) : string :=
  "https://api.airtap.ai/v1/devices/" +:+ to_str (_device_id (sandbox s)) +:+ suffix.

Definition authorization (s : Sys (E := E)) : string * JsVal :=
  ("Authorization", VStr ("Bearer " +:+ api_key (sandbox s))).

Definition json_headers (s : Sys (E := E)) : JsVal :=
  VObj [authorization s; ("Content-Type", VStr "application/json")].

Definition accept_headers (s : Sys (E := E)) : JsVal :=
  VObj [authorization s; ("Accept", VStr "application/json")].

Definition config (headers : JsVal) (timeout : Z) : JsVal :=
  VObj [("headers", headers); ("timeout", VNum timeout)].

(** [e.response.data && e.response.data.error] and the like: the message
    made of the status, or of the [error] field of the body if it has
    one. *)
Definition failure_message (resp : JsVal) : M (E := E) string :=
  let* status := lift (get_prop resp "status") in
  let* data := lift (get_prop resp "data") in
  let* detail :=
    (if truthy data then lift (get_prop data "error") else ret data) in
  if truthy detail
  then ret ("Failed to initialize device: " +:+ to_str detail)
  else ret ("Failed to initialize device: " +:+ to_str status).

Definition provision_payload (s : Sys (E := E)) (session_id : string) : JsVal :=
  VObj [("resolution",
         VArr [VNum (fst (resolution (sandbox s))); VNum (snd (resolution (sandbox s)))]);
        ("dpi", VNum (dpi (sandbox s)));
        ("memory_mb", VNum (memory_mb (sandbox s)));
        ("session_id", VStr session_id);
        ("android_version", VStr "13");
        ("device_model", VStr "Pixel 4")].

Definition provision_request (s : Sys (E := E)) (session_id : string) : Request :=
  Axios POST "https://api.airtap.ai/v1/devices" (provision_payload s session_id)
    (config (VObj [authorization s; ("Content-Type", VStr "application/json");
                   ("X-Client-Version", VStr "1.0.0")]) 60000).

(** The [try] block of [_initializeDevice]. *)
Definition provision (req : Request) : M (E := E) JsVal :=
  let* response := send req in
  let* status := lift (get_prop response "status") in
  if strict_eq status (VNum 201) then
    let* result := lift (get_prop response "data") in
    let* device_id := lift (get_prop result "device_id") in
    (if negb (truthy device_id)
     then throw_new "ConnectionError" "Missing device_id in API response"
     else ret tt) ;;
    modify (set_device_id device_id) ;;
    ret device_id
  else
    let* error_msg := failure_message response in
    throw_new "ConnectionError" error_msg.

(** Its [catch] block. *)
Definition provision_failed (e : JsError) : M (E := E) JsVal :=
  if truthy (response e) then
    let* error_msg := failure_message (response e) in
    throw_new "ConnectionError" error_msg
  else if truthy (request e) then
    throw_new "ConnectionError"
      "Connection error when initializing device: No response received"
  else
    throw_new "ConnectionError"
      ("Connection error when initializing device: " +:+ message e).

Definition _initializeDevice : M (E := E) JsVal :=
  let* session_id := uuidv4 in
  let* req := gets (fun s => provision_request s session_id) in
  try_catch (provision req) provision_failed.

(** The shape all eight input methods share: post, warn on a status other
    than 200, log what was thrown. *)
Definition post_input (suffix : string) (payload : JsVal) (timeout : Z)
  (operation doing : string) : M (E := E) unit :=
  let* api_url := gets (fun s => device_url s suffix) in
  let* headers := gets json_headers in
  try_catch
    (let* response := send (Axios POST api_url payload (config headers timeout)) in
     let* status := lift (get_prop response "status") in
     if negb (strict_eq status (VNum 200))
     then console Warn ("Warning: " +:+ operation
                        +:+ " operation returned status code " +:+ to_str status)
     else ret tt)
    (fun e => console Error ("Error " +:+ doing +:+ ": " +:+ message e)).

Definition tap (x y : Z) : M (E := E) unit :=
  post_input "/input/tap" (VObj [("x", VNum x); ("y", VNum y)]) 10000
    "Tap" "performing tap".

Definition doubleTap (x y : Z) : M (E := E) unit :=
  post_input "/input/double_tap" (VObj [("x", VNum x); ("y", VNum y)]) 10000
    "Double tap" "performing double tap".

Definition swipe (start end_ : Z * Z) (duration_ms : Z) : M (E := E) unit :=
  post_input "/input/swipe"
    (VObj [("start_x", VNum (fst start)); ("start_y", VNum (snd start));
           ("end_x", VNum (fst end_)); ("end_y", VNum (snd end_));
           ("duration_ms", VNum duration_ms)]) 10000
    "Swipe" "performing swipe".

Definition longPress (x y duration_ms : Z) : M (E := E) unit :=
  post_input "/input/long_press"
    (VObj [("x", VNum x); ("y", VNum y); ("duration_ms", VNum duration_ms)]) 10000
    "Long press" "performing long press".

Definition pinchOut (center : Z * Z) (distance : Z) : M (E := E) unit :=
  post_input "/input/pinch"
    (VObj [("center_x", VNum (fst center)); ("center_y", VNum (snd center));
           ("distance", VNum distance); ("direction", VStr "out")]) 10000
    "Pinch out" "performing pinch out".

Definition typeText (text : string) : M (E := E) unit :=
  post_input "/input/text" (VObj [("text", VStr text)]) 15000
    "Type text" "typing text".

Definition pressKey (key : string) : M (E := E) unit :=
  post_input "/input/key" (VObj [("key", VStr key)]) 10000
    "Press key" "pressing key".

Definition pressCombo (keys : list string) : M (E := E) unit :=
  post_input "/input/combo" (VObj [("keys", VArr (map VStr keys))]) 10000
    "Press combo" "pressing key combination".

(** [screenshot]: a buffer, or [None] for [undefined] when a 200 response
    carries neither [image_data] nor [image_url]. *)
Definition screenshot : M (E := E) (option (list byte)) :=
  let* api_url := gets (fun s => device_url s "/screenshot") in
  let* headers := gets accept_headers in
  try_catch
    (let* response := send (Axios GET api_url VUndef (config headers 30000)) in
     let* status := lift (get_prop response "status") in
     if strict_eq status (VNum 200) then
       let* result := lift (get_prop response "data") in
       let* image_data := lift (get_prop result "image_data") in
       if truthy image_data then
         let* buffer := lift (Buffer_from_base64 image_data) in
         ret (Some buffer)
       else
         let* image_url := lift (get_prop result "image_url") in
         if truthy image_url then
           let* imageResponse :=
             send (Axios GET (to_str image_url) VUndef
                     (VObj [("responseType", VStr "arraybuffer");
                            ("timeout", VNum 30000)])) in
           let* imageStatus := lift (get_prop imageResponse "status") in
           if strict_eq imageStatus (VNum 200) then
             let* body := lift (get_prop imageResponse "data") in
             let* buffer := lift (Buffer_from body) in
             ret (Some buffer)
           else
             console Warn ("Warning: Failed to download screenshot from URL: "
                           +:+ to_str imageStatus) ;;
             ret (Some [])
         else ret None
     else
       console Warn ("Warning: Screenshot operation returned status code "
                     +:+ to_str status) ;;
       ret (Some []))
    (fun e =>
       console Error ("Error taking screenshot: " +:+ message e) ;;
       ret (Some [])).

(** [result.output || ""] *)
Definition or_empty (v : JsVal) : JsVal :=
  if truthy v then v else VStr EmptyString.

Definition shell (command : string) : M (E := E) JsVal :=
  let* api_url := gets (fun s => device_url s "/shell") in
  let* headers := gets json_headers in
  try_catch
    (let* response :=
       send (Axios POST api_url (VObj [("command", VStr command)])
               (config headers 30000)) in
     let* status := lift (get_prop response "status") in
     if strict_eq status (VNum 200) then
       let* result := lift (get_prop response "data") in
       let* output := lift (get_prop result "output") in
       ret (or_empty output)
     else
       console Warn ("Warning: Shell command operation returned status code "
                     +:+ to_str status) ;;
       ret (VStr EmptyString))
    (fun e =>
       console Error ("Error executing shell command: " +:+ message e) ;;
       ret (VStr EmptyString)).

Definition wait (duration_ms : Z) : M (E := E) unit := sleep duration_ms.

(** One round of the loop of [waitForApp] up to the delay: [true] when the
    method returns [true] from inside the [try]. *)
Definition poll (api_url : string) (headers : JsVal) (package_name : string)
  : M (E := E) bool :=
  try_catch
    (let* response := send (Axios GET api_url VUndef (config headers 10000)) in
     let* status := lift (get_prop response "status") in
     if strict_eq status (VNum 200) then
       let* result := lift (get_prop response "data") in
       let* reported := lift (get_prop result "package_name") in
       let current_app := or_empty reported in
       ret (strict_eq current_app (VStr package_name))
     else
       console Warn ("Warning: Current app check returned status code "
                     +:+ to_str status) ;;
       ret false)
    (fun e =>
       console Error ("Error checking current app: " +:+ message e) ;;
       ret false).

(** The [while] loop, run for at most [fuel] rounds; [None] when they do
    not suffice. *)
Fixpoint waitForApp_loop (fuel : nat) (api_url : string) (headers : JsVal)
  (package_name : string) (end_time : Z) : M (E := E) (option bool) :=
  match fuel with
  | O => ret None
  | S fuel' =>
      let* t := Date_now in
      if t <? end_time then
        let* matched := poll api_url headers package_name in
        if matched then ret (Some true)
        else
          wait 500 ;;
          waitForApp_loop fuel' api_url headers package_name end_time
      else ret (Some false)
  end.

Definition waitForApp (fuel : nat) (package_name : string) (timeout_ms : Z)
  : M (E := E) (option bool) :=
  let* api_url := gets (fun s => device_url s "/current_app") in
  let* headers := gets accept_headers in
  let* t0 := Date_now in
  let end_time := t0 + timeout_ms in
  waitForApp_loop fuel api_url headers package_name end_time.

(** The methods of the class [StreamManager]. *)
Definition StreamManager_methods : list string :=
  ["start"; "stop"; "getStatus"; "updateSettings"].

(** [this.stream.enableWebrtc()] in the constructor: a call of a method
    the class does not have. *)
Definition enableWebrtc : Res unit :=
  if existsb (String.eqb "enableWebrtc") StreamManager_methods
  then Ok tt
  else Throw (error TypeError "this.stream.enableWebrtc is not a function").

Record ConstructorOptions : Type := mkConstructorOptions {
  opt_resolution : Z * Z;
  opt_dpi : Z;
  opt_webrtc : bool;
  opt_memory_mb : Z;
  opt_api_key : option string
}.

Definition default_constructor_options : ConstructorOptions :=
  mkConstructorOptions (1280, 720) 160 false 2048 None.

(** [api_key || process.env.AIRTAP_API_KEY] *)
Definition key_or_env (api_key env_key : option string) : option string :=
  if truthy (opt_str api_key) then api_key else env_key.

(** The constructor, given the value of [AIRTAP_API_KEY] in the process
    environment: the new sandbox with its two stateful managers. *)
Definition new_AndroidSandbox (env_key : option string) (o : ConstructorOptions)
  : Res (AndroidSandbox * StreamManager * RecordManager) :=
  let key := key_or_env (opt_api_key o) env_key in
  if negb (truthy (opt_str key)) then
    match new_error "ApiKeyError"
            "No API key provided. Set AIRTAP_API_KEY environment variable or pass api_key parameter."
    with
    | Ok e => Throw e
    | Throw e => Throw e
    end
  else
    let stream0 := mkStream None VNull false in
    let record0 := mkRecord None false None in
    match (if opt_webrtc o then enableWebrtc else Ok tt) with
    | Throw e => Throw e
    | Ok _ =>
        Ok (mkSandbox (to_str (opt_str key)) (opt_resolution o) (opt_dpi o)
              (opt_memory_mb o) VNull,
            stream0, record0)
    end.

(** [AndroidSandbox.create(options)] *)
Definition create (env_key : option string) (o : ConstructorOptions)
  : M (E := E) unit :=
  match new_AndroidSandbox env_key o with
  | Throw e => throw e
  | Ok (sb, st, rc) =>
      modify (fun s => set_record rc (set_stream st (set_sandbox sb s))) ;;
      _initializeDevice ;;
      ret tt
  end.

Definition close : M (E := E) unit :=
  let* api_url := gets (fun s => device_url s "/release") in
  let* headers := gets json_headers in
  try_catch
    (let* response := send (Axios POST api_url (VObj []) (config headers 30000)) in
     let* status := lift (get_prop response "status") in
     if negb (strict_eq status (VNum 200)) && negb (strict_eq status (VNum 204))
     then console Warn ("Warning: Device release operation returned status code "
                        +:+ to_str status)
     else ret tt)
    (fun e => console Error ("Error releasing device: " +:+ message e)) ;;
  modify (set_device_id VNull).

End Sandbox.
End Sandbox.

(** ** [api/client.js] *)

Module Api.
Section Api.
Context {E : Environment}.

Record ApiClient : Type := mkClient {
  apiKey : string;
  baseUrl : string
}.

(** [new ApiClient(apiKey, baseUrl = 'https://api.airtap.dev/v1')] *)
Definition new_ApiClient (key : string) (url : option string) : ApiClient :=
  mkClient key (match url with Some u => u | None => "https://api.airtap.dev/v1" end).

(** The defaults of [this.client], the instance made by [axios.create];
    they are part of the configuration of each of its requests. *)
Definition defaults (c : ApiClient) : list (string * JsVal) :=
  [("baseURL", VStr (baseUrl c));
   ("headers", VObj [("Authorization", VStr ("Bearer " +:+ apiKey c));
                     ("Content-Type", VStr "application/json")])].

(** [data = {}], [params = {}] *)
Definition or_object (arg : JsVal) : JsVal :=
  match arg with
  | VUndef => VObj []
  | _ => arg
  end.

Definition get (c : ApiClient) (endpoint : string) (params : JsVal)
  : M (E := E) JsVal :=
  let params := or_object params in
  try_catch
    (let* response :=
       send (Axios GET endpoint VUndef (VObj (defaults c ++ [("params", params)]))) in
     lift (get_prop response "data"))
    (fun error => throw_new "ApiError" ("GET request failed: " +:+ message error)).

Definition post (c : ApiClient) (endpoint : string) (data : JsVal)
  : M (E := E) JsVal :=
  let data := or_object data in
  try_catch
    (let* response := send (Axios POST endpoint data (VObj (defaults c))) in
     lift (get_prop response "data"))
    (fun error => throw_new "ApiError" ("POST request failed: " +:+ message error)).

Definition put (c : ApiClient) (endpoint : string) (data : JsVal)
  : M (E := E) JsVal :=
  let data := or_object data in
  try_catch
    (let* response := send (Axios PUT endpoint data (VObj (defaults c))) in
     lift (get_prop response "data"))
    (fun error => throw_new "ApiError" ("PUT request failed: " +:+ message error)).

Definition delete (c : ApiClient) (endpoint : string) : M (E := E) JsVal :=
  try_catch
    (let* response := send (Axios DELETE endpoint VUndef (VObj (defaults c))) in
     lift (get_prop response "data"))
    (fun error => throw_new "ApiError" ("DELETE request failed: " +:+ message error)).

End Api.
End Api.

(** ** Environments to run the program in *)

(** A scripted environment: the answers are given in advance, one per
    request, each with the time it takes; when they run out the network
    is down.  Timers fire on time. *)
Definition network_down : JsError :=
  mkError ForeignError "Network Error" VUndef (VObj []).

Definition scripted : Environment :=
  {| Remote := list (Res JsVal * N);
     respond := fun _ r =>
       match r with
       | [] => (Throw network_down, 0%N, [])
       | (answer, took) :: r' => (answer, took, r')
       end;
     uuid := fun r => ("1b9d6bcd-bbfd-4b2d-9b5d-ab8dfbbd4bed", r);
     timer_lag := fun r => (0%N, r);
     disk := fun r => (Stored, r) |}.

(** The same with a local disk that is full: what is written to it breaks
    off after two bytes, or after one directory. *)
Definition no_space : JsError :=
  error ForeignError "ENOSPC: no space left on device, write".

Definition full_disk : Environment :=
  {| Remote := Remote scripted;
     respond := respond scripted;
     uuid := uuid scripted;
     timer_lag := timer_lag scripted;
     disk := fun r => (Broke 2 no_space, r) |}.

(** The state right after the constructors have run. *)
Definition fresh {E : Environment} (r : Remote E) : Sys (E := E) :=
  mkSys r 0 [] ∅ ∅ VUndef
    (Sandbox.construct "key" (1280, 720) 160 2048)
    (mkStream None VNull false)
    (mkRecord None false None).

Definition http (status : Z) (data : JsVal) : JsVal :=
  VObj [("status", VNum status); ("data", data)].

(** [v.k] where reading it cannot throw, [undefined] where it would. *)
Definition field (v : JsVal) (k : string) : JsVal :=
  match get_prop v k with
  | Ok w => w
  | Throw _ => VUndef
  end.



(** ** Notions the properties are stated with *)

(** The answers the requests of a trace got, in order. *)
Fixpoint answers (evs : list Event) : list (Res JsVal) :=
  match evs with
  | [] => []
  | Call _ a :: evs' => a :: answers evs'
  | _ :: evs' => answers evs'
  end.

(** The requests of a trace, in order. *)
Fixpoint requests (evs : list Event) : list Request :=
  match evs with
  | [] => []
  | Call r _ :: evs' => r :: requests evs'
  | _ :: evs' => requests evs'
  end.

(** The device id a provisioning answer carries, [undefined] if none. *)
Definition answered_device_id (answer : Res JsVal) : JsVal :=
  match answer with
  | Ok resp => field (field resp "data") "device_id"
  | Throw _ => VUndef
  end.

(** The answer creates a device: status 201 and a device id. *)
Definition created (answer : Res JsVal) : bool :=
  match answer with
  | Ok resp =>
      strict_eq (field resp "status") (VNum 201) &&
      truthy (answered_device_id answer)
  | Throw _ => false
  end.

(** A request failed: it threw, or its response has a status other than
    200. *)
Definition failed (answer : Res JsVal) : bool :=
  match answer with
  | Throw _ => true
  | Ok resp => negb (strict_eq (field resp "status") (VNum 200))
  end.

(** What a poll of the foreground app reports: the [current_app] the code
    reads out of a 200 response, nothing otherwise. *)
Definition current_app (answer : Res JsVal) : option JsVal :=
  match answer with
  | Throw _ => None
  | Ok resp =>
      if strict_eq (field resp "status") (VNum 200) then
        match get_prop (field resp "data") "package_name" with
        | Ok reported => Some (Sandbox.or_empty reported)
        | Throw _ => None
        end
      else None
  end.

Definition reports (package_name : string) (answer : Res JsVal) : bool :=
  match current_app answer with
  | Some app => strict_eq app (VStr package_name)
  | None => false
  end.

(** The requests of a trace are [ms] apart: there is one delay of [ms]
    between each request and the next, and none elsewhere. *)
Fixpoint cadence_from (ms : Z) (call_next : bool) (evs : list Event) : bool :=
  match evs with
  | [] => true
  | Call _ _ :: evs' => call_next && cadence_from ms false evs'
  | Slept d :: evs' => negb call_next && (d =? ms) && cadence_from ms true evs'
  | Console _ _ :: evs' => cadence_from ms call_next evs'
  end.

Definition cadence (ms : Z) (evs : list Event) : bool := cadence_from ms true evs.

Definition is_console (ev : Event) : bool :=
  match ev with Console _ _ => true | _ => false end.

(** The state after the events of a trace have happened again from [s]
    on: each request sent, each timer set and each line printed, with
    the answers, the latencies and the clock of the environment. *)
Fixpoint replay {E : Environment} (s : Sys (E := E)) (evs : list Event) : Sys (E := E) :=
  match evs with
  | [] => s
  | Call r _ :: evs' => replay (snd (send r s)) evs'
  | Slept ms :: evs' => replay (snd (sleep ms s)) evs'
  | Console l msg :: evs' => replay (snd (console l msg s)) evs'
  end.

(** Every request of the trace is sent while the clock is before the
    deadline, the clock being that of the replay from [s]. *)
Fixpoint sent_before {E : Environment} (deadline : Z) (s : Sys (E := E))
  (evs : list Event) : bool :=
  match evs with
  | [] => true
  | Call r _ :: evs' => (now s <? deadline) && sent_before deadline (snd (send r s)) evs'
  | Slept ms :: evs' => sent_before deadline (snd (sleep ms s)) evs'
  | Console l msg :: evs' => sent_before deadline (snd (console l msg s)) evs'
  end.

(** The rounds of [waitForApp]: a trace is a sequence of rounds, each a
    poll, then console output if any, then a delay of 500 ms; only a
    poll that reports the package has nothing after it, and the trace
    ends there.  [pending] says that a poll which did not report the
    package still waits for its delay. *)
Fixpoint rounds_from (package_name : string) (pending : bool) (evs : list Event) : bool :=
  match evs with
  | [] => negb pending
  | Call _ a :: evs' =>
      negb pending &&
      (if reports package_name a
       then match evs' with [] => true | _ :: _ => false end
       else rounds_from package_name true evs')
  | Slept d :: evs' => pending && (d =? 500) && rounds_from package_name false evs'
  | Console _ _ :: evs' => pending && rounds_from package_name true evs'
  end.

Definition rounds (package_name : string) (evs : list Event) : bool :=
  rounds_from package_name false evs.



(** The two messages of [launch]. *)
Definition not_installed_message (pkg : string) : string :=
  "Failed to launch app " +:+ pkg +:+ ": App " +:+ pkg +:+ " is not installed".

Definition no_activity_message (pkg : string) : string :=
  "Failed to launch app " +:+ pkg +:+ ": Could not find main activity for " +:+ pkg.

(** What [record/manager.js] raises where it means to raise a
    [RecordingError]. *)
Definition not_a_constructor : JsError :=
  error TypeError "RecordingError is not a constructor".

(** A best-effort operation: it never raises; and when one of its
    requests failed, it returns its default and the last thing it did was
    to log a line on the console. *)
Definition best_effort {E : Environment} {A : Type} (m : M (E := E) A)
  (default : A) : Prop :=
  forall s : Sys (E := E),
    exists v evs s',
      m s = (Ok v, s') /\
      trace s' = (trace s ++ evs)%list /\
      (existsb failed (answers evs) = true ->
       v = default /\
       exists evs0 l msg, evs = (evs0 ++ [Console l msg])%list).

(** The two requests of a file transfer. *)
Definition push_request {E : Environment} (s : Sys (E := E))
  (remotePath : string) (bs : list byte) : Request :=
  ApiClient POST "/files/push"
    (VObj [("deviceId", deviceId s); ("path", VStr remotePath);
           ("content", VStr (base64_encode bs))]).


(** The word a text starts with, and what follows it. *)
Fixpoint span_word (s : string) : string * string :=
  match s with
  | String c s' =>
      if is_space c then (EmptyString, s)
      else let (w, r) := span_word s' in (String c w, r)
  | EmptyString => (EmptyString, EmptyString)
  end.

(** Nothing but white space up to the end of the line. *)
Fixpoint line_ends (s : string) : bool :=
  match s with
  | EmptyString => true
  | String c s' => is_line_terminator c || (is_space c && line_ends s')
  end.

(** The only word between a position and the end of a line: white space,
    the word, white space, the end of the line. *)
Definition sole_word_at (s : string) : option string :=
  match span_word (trim_start s) with
  | (EmptyString, _) => None
  | (w, rest) => if line_ends rest then Some w else None
  end.

(** The words of a text: its maximal runs of characters other than white
    space. *)
Fixpoint words_from (s : string) (word : string) : list string :=
  match s with
  | EmptyString =>
      match word with EmptyString => [] | _ => [word] end
  | String c s' =>
      if is_space c
      then match word with
           | EmptyString => words_from s' EmptyString
           | _ => word :: words_from s' EmptyString
           end
      else words_from s' (word +:+ String c EmptyString)
  end.

(** The design document's "exact token": [t] is one of the words of the
    output. *)
Definition has_exact_token (output t : string) : bool :=
  existsb (String.eqb t) (words_from output EmptyString).

(** The request [start] of the stream manager makes for the stream [id]. *)
Definition start_request {E : Environment} (s : Sys (E := E)) (id : string)
  (options : JsVal) : Request :=
  let options := Stream.or_default options Stream.default_options in
  ApiClient POST "/stream"
    (VObj [("deviceId", deviceId s); ("streamId", VStr id);
           ("quality", field options "quality");
           ("audio", field options "audio")]).

(** The state of the stream manager once [start] has drawn its id. *)
Definition drawn {E : Environment} (s : Sys (E := E)) : Sys (E := E) :=
  Stream.set_streamId (Some (fst (uuid E (remote s))))
    (set_world (snd (uuid E (remote s))) (now s) (trace s) s).

(** [null] or [undefined]: the values a property read throws on. *)
Definition nullish (v : JsVal) : bool :=
  match v with
  | VUndef | VNull => true
  | _ => false
  end.

(** The command [start] of the record manager runs for the recording
    [id]. *)
Definition start_command (options : Recording.Options) (id : string) : Request :=
  ShellCommand
    (Recording.screenrecord options
       (if Recording.audio options then "--audio-source=mic" else "--audio-source=none")
       (Some id)).

(** The state of the record manager once [start] has drawn its id. *)
Definition tracked {E : Environment} (s : Sys (E := E)) : Sys (E := E) :=
  Recording.set_recordingId (Some (fst (uuid E (remote s))))
    (set_world (snd (uuid E (remote s))) (now s) (trace s) s).

(** The shell commands of the app manager. *)
Definition list_packages (pkg : string) : Request :=
  ShellCommand ("pm list packages " +:+ pkg).

Definition install_existing (pkg : string) : Request :=
  ShellCommand ("pm install-existing " +:+ pkg).

Definition open_store (pkg : string) : Request :=
  ShellCommand
    ("am start -a android.intent.action.VIEW -d market://details?id=" +:+ pkg).

Definition pm_uninstall (pkg : string) : Request :=
  ShellCommand ("pm uninstall " +:+ pkg).

(** What the app manager reads out of the answer to [list_packages]:
    whether it mentions the package. *)
Definition listed (pkg : string) (answer : Res JsVal) : option bool :=
  match answer with
  | Ok out =>
      match js_includes out ("package:" +:+ pkg) with
      | Ok b => Some b
      | Throw _ => None
      end
  | Throw _ => None
  end.

(** The lines of a text: the pieces between its line terminators. *)
Fixpoint lines (s : string) : list string :=
  match s with
  | EmptyString => [EmptyString]
  | String c s' =>
      if is_line_terminator c then EmptyString :: lines s'
      else match lines s' with
           | l :: ls => String c l :: ls
           | [] => [String c EmptyString]
           end
  end.

(** The word of the first line that consists of one word, with or
    without white space around it. *)
Fixpoint first_sole_word (ls : list string) : option string :=
  match ls with
  | [] => None
  | l :: ls' =>
      match sole_word_at l with
      | Some w => Some w
      | None => first_sole_word ls'
      end
  end.

(** An operation that runs one shell command and reports success
    whenever the command returns, without a look at what it printed; a
    command that fails is reported as an error of the given class, with
    the message made of the cause. *)
Definition runs_blindly {E : Environment} (m : M (E := E) bool)
  (command : string) (class : ErrClass) (failure : string -> string) : Prop :=
  forall s : Sys (E := E),
    m s =
    (match fst (send (ShellCommand command) s) with
     | Ok _ => Ok true
     | Throw e => Throw (error class (failure (message e)))
     end,
     snd (send (ShellCommand command) s)).

Fixpoint ends_with_space (s : string) : bool :=
  match s with
  | EmptyString => false
  | String c EmptyString => is_space c
  | String _ s' => ends_with_space s'
  end.

(** The words of a text. *)
Definition words (s : string) : list string := words_from s EmptyString.

Fixpoint has_char (c : ascii) (s : string) : bool :=
  match s with
  | EmptyString => false
  | String c' s' => Ascii.eqb c' c || has_char c s'
  end.

(** A line of a listing: it is not blank and has no newline in it. *)
Definition is_row (line : string) : bool :=
  negb (String.eqb (trim line) EmptyString)
  && negb (has_char (ascii_of_byte x0a) line).

(** The text made of lines, each ended by a newline. *)
Fixpoint unlines (ls : list string) : string :=
  match ls with
  | [] => EmptyString
  | l :: ls' => l +:+ newline +:+ unlines ls'
  end.

Definition starts_with_digit (s : string) : bool :=
  match s with
  | String c _ => is_digit c
  | EmptyString => false
  end.

(** The request of [close], and the answers it takes for a release. *)
Definition release_request {E : Environment} (s : Sys (E := E)) : Request :=
  Axios POST (Sandbox.device_url s "/release") (VObj [])
    (Sandbox.config (Sandbox.json_headers s) 30000).

Definition released (answer : Res JsVal) : bool :=
  match answer with
  | Ok resp =>
      strict_eq (field resp "status") (VNum 200)
      || strict_eq (field resp "status") (VNum 204)
  | Throw _ => false
  end.

(** The state after the constructor has run with success: the new
    sandbox and its managers in place of the old ones. *)
Definition constructed {E : Environment}
  (objects : AndroidSandbox * StreamManager * RecordManager) (s : Sys (E := E))
  : Sys (E := E) :=
  let '(sb, st, rc) := objects in
  set_record rc (set_stream st (set_sandbox sb s)).

Definition screenshot_request {E : Environment} (s : Sys (E := E)) : Request :=
  Axios GET (Sandbox.device_url s "/screenshot") VUndef
    (Sandbox.config (Sandbox.accept_headers s) 30000).

(** What [api/client.js] raises where it means to raise an [ApiError]. *)
Definition no_ApiError : JsError :=
  error TypeError "ApiError is not a constructor".

(** A method of the client that makes the request [req]: it returns the
    [data] of the response; when the request fails, or resolves with
    [null] or [undefined], it raises, and what it raises is
    [no_ApiError]. *)
Definition through_client {E : Environment} (m : M (E := E) JsVal)
  (req : Request) : Prop :=
  forall s : Sys (E := E),
    m s =
    (match fst (send req s) with
     | Ok resp => if nullish resp then Throw no_ApiError else Ok (field resp "data")
     | Throw _ => Throw no_ApiError
     end,
     snd (send req s)).

Fixpoint space_free (s : string) : bool :=
  match s with
  | EmptyString => true
  | String c s' => negb (is_space c) && space_free s'
  end.

(** * Properties *)

Open Scope list_scope.

Ltac unfold_monad :=
  unfold try_catch, bind, ret, throw, lift, gets, modify, throw_new,
    apiClient, executeShellCommand in *.

(** ** The monad and the primitives *)

Section Primitives.
Context {E : Environment}.
Implicit Types s : Sys (E := E).

Lemma try_catch_throws {A : Type} (m : M (E := E) A) (h : JsError -> M A)
  s s' (e : JsError) :
  try_catch m h s = (Throw e, s') ->
  exists e0 s0, m s = (Throw e0, s0) /\ h e0 s0 = (Throw e, s').
Proof.
  unfold try_catch. destruct (m s) as [[a|e0] s0]; [discriminate | eauto].
Qed.

Lemma throw_new_RecordingError {A : Type} (msg : string) s :
  throw_new (A := A) "RecordingError" msg s = (Throw not_a_constructor, s).
Proof. reflexivity. Qed.

(** A request changes the world (the remote side, the clock, the trace)
    and nothing of the program's own objects. *)
Lemma send_state (r : Request) s :
  exists rem took,
    snd (send r s) =
    set_world rem (now s + Z.of_N took) (trace s ++ [Call r (fst (send r s))]) s.
Proof.
  unfold send. destruct (respond E r (remote s)) as [[a took] rem].
  exists rem, took. reflexivity.
Qed.

Lemma send_trace (r : Request) s :
  trace (snd (send r s)) = trace s ++ [Call r (fst (send r s))].
Proof. destruct (send_state r s) as [rem [took ->]]. reflexivity. Qed.

Lemma send_now (r : Request) s : now s <= now (snd (send r s)).
Proof. destruct (send_state r s) as [rem [took ->]]. cbn. lia. Qed.

Lemma send_record (r : Request) s : record (snd (send r s)) = record s.
Proof. destruct (send_state r s) as [rem [took ->]]. reflexivity. Qed.

Lemma send_stream (r : Request) s : stream (snd (send r s)) = stream s.
Proof. destruct (send_state r s) as [rem [took ->]]. reflexivity. Qed.

Lemma send_sandbox (r : Request) s : sandbox (snd (send r s)) = sandbox s.
Proof. destruct (send_state r s) as [rem [took ->]]. reflexivity. Qed.

Lemma send_deviceId (r : Request) s : deviceId (snd (send r s)) = deviceId s.
Proof. destruct (send_state r s) as [rem [took ->]]. reflexivity. Qed.

Lemma send_files (r : Request) s : files (snd (send r s)) = files s.
Proof. destruct (send_state r s) as [rem [took ->]]. reflexivity. Qed.

Lemma send_dirs (r : Request) s : dirs (snd (send r s)) = dirs s.
Proof. destruct (send_state r s) as [rem [took ->]]. reflexivity. Qed.

Lemma sleep_state (ms : Z) s :
  exists rem lag,
    sleep ms s = (Ok tt, set_world rem (now s + ms + Z.of_N lag) (trace s ++ [Slept ms]) s).
Proof.
  unfold sleep. destruct (timer_lag E (remote s)) as [lag rem].
  exists rem, lag. reflexivity.
Qed.

Lemma truthy_get_prop (v : JsVal) (k : string) :
  truthy v = true -> get_prop v k = Ok (field v k).
Proof. destruct v; simpl; intros; try discriminate; reflexivity. Qed.

Lemma get_prop_throws (v : JsVal) (k : string) (e : JsError) :
  get_prop v k = Throw e -> field v k = VUndef /\ name e = TypeError.
Proof.
  unfold field. destruct v; simpl; intros H; try discriminate;
    injection H as <-; split; reflexivity.
Qed.

Lemma get_prop_field (v w : JsVal) (k : string) :
  get_prop v k = Ok w -> field v k = w.
Proof. unfold field. now intros ->. Qed.

End Primitives.

(** ** The library functions on known inputs *)

Example base64_encode_rfc4648 :
  map (fun s => base64_encode (string_to_bytes s))
    ["f"; "fo"; "foo"; "foob"; "fooba"; "foobar"]
  = ["Zg=="; "Zm8="; "Zm9v"; "Zm9vYg=="; "Zm9vYmE="; "Zm9vYmFy"].
Proof. reflexivity. Qed.

Example base64_decode_lenient :
  map (fun s => bytes_to_string (base64_decode s))
    ["Zm9vYmFy"; "Zm9vYg=="; "Zm9vYg"; "Zm9v Ym Fy"; "Zm9v=YmFy"; "_-8="]
  = ["foobar"; "foob"; "foob"; "foobar"; "foo";
     bytes_to_string (base64_decode "/+8=")].
Proof. reflexivity. Qed.

Example match_single_token_examples :
  match_single_token ("com.spotify.music/.MainActivity" +:+ newline)
    = Some "com.spotify.music/.MainActivity" /\
  match_single_token
    ("priority=0 preferredOrder=0 match=0x108000" +:+ newline
     +:+ "  com.spotify.music/.MainActivity  " +:+ newline)
    = Some "com.spotify.music/.MainActivity" /\
  match_single_token "No activity found" = None /\
  match_single_token ("a b" +:+ newline +:+ "c d") = None /\
  match_single_token EmptyString = None /\
  match_single_token (newline +:+ newline +:+ " x") = Some "x".
Proof. repeat split; reflexivity. Qed.

Example path_dirname_examples :
  map path_dirname ["/a/b/c.txt"; "c.txt"; "/c.txt"; "a/b/"; "out/c.txt"; "/"]
  = ["/a/b"; "."; "/"; "a"; "out"; "/"].
Proof. reflexivity. Qed.

Example trim_example :
  trim ("  exists " +:+ newline) = "exists" /\
  trim ("not exists" +:+ newline) = "not exists".
Proof. split; reflexivity. Qed.

(** ** The stream *)

(** C1, as the code has it: [stop] on an idle stream returns [true] and
    does nothing else, no request included.  On a running stream it asks
    for the teardown of the stream by its id; if that request succeeds it
    clears the url and the streaming flag (the id stays) and returns
    [true]; if the request fails it raises a [StreamError] and leaves id,
    url and flag as they were. *)
Theorem stream_stop_spec (E : Environment) (s : Sys (E := E)) :
  let req :=
    ApiClient DELETE ("/stream/" +:+ to_str (opt_str (streamId (stream s)))) VUndef in
  if isStreaming (stream s) then
    match send req s with
    | (Ok _, s1) =>
        Stream.stop s =
        (Ok true, set_stream (mkStream (streamId (stream s)) VNull false) s1)
    | (Throw e, s1) =>
        Stream.stop s =
        (Throw (error StreamError ("Failed to stop stream: " +:+ message e)), s1) /\
        stream s1 = stream s
    end
  else Stream.stop s = (Ok true, s).
Proof.
  intros req. unfold Stream.stop. unfold_monad.
  destruct (isStreaming (stream s)) eqn:Hs; cbn [negb]; [|reflexivity].
  fold req. pose proof (send_stream req s) as Hst.
  destruct (send req s) as [[v|e] s1]; cbn [snd] in Hst.
  - cbn. rewrite Hst. reflexivity.
  - split; [reflexivity | exact Hst].
Qed.

(** A stream that is running when the network is down. *)
Example stream_stop_offline :
  let s := set_stream (mkStream (Some "s-1") (VStr "wss://stream/s-1") true)
             (fresh (E := scripted) []) in
  fst (Stream.stop s) =
    Throw (error StreamError "Failed to stop stream: Network Error") /\
  stream (snd (Stream.stop s)) =
    mkStream (Some "s-1") (VStr "wss://stream/s-1") true.
Proof. split; reflexivity. Qed.

(** C1 as stated fails: when the teardown request fails, [stop] raises and
    the stream is still marked as streaming, with its id and url; and when
    it succeeds, the id is not cleared. *)
Lemma stream_stop_does_not_always_clear :
  let running := mkStream (Some "s-1") (VStr "wss://stream/s-1") true in
  let offline := set_stream running (fresh (E := scripted) []) in
  let online := set_stream running (fresh (E := scripted) [(Ok (VObj []), 40%N)]) in
  stream (snd (Stream.stop offline)) <> mkStream None VNull false /\
  isStreaming (stream (snd (Stream.stop offline))) = true /\
  (exists e, fst (Stream.stop offline) = Throw e) /\
  fst (Stream.stop online) = Ok true /\
  streamId (stream (snd (Stream.stop online))) = Some "s-1".
Proof.
  cbv zeta. repeat split; try reflexivity.
  - vm_compute. discriminate.
  - eexists. reflexivity.
Qed.

(** ** Provisioning *)

Section Provisioning.
Context {E : Environment}.
Implicit Types s : Sys (E := E).

Lemma failure_message_state (resp : JsVal) s s' (r : Res string) :
  Sandbox.failure_message resp s = (r, s') -> s' = s.
Proof.
  unfold Sandbox.failure_message. unfold_monad.
  destruct (get_prop resp "status"); [|now intros [= _ <-]].
  destruct (get_prop resp "data") as [data|]; [|now intros [= _ <-]].
  destruct (truthy data).
  - destruct (get_prop data "error") as [detail|]; [|now intros [= _ <-]].
    destruct (truthy detail); now intros [= _ <-].
  - destruct (truthy data); now intros [= _ <-].
Qed.

Lemma failure_message_total (resp : JsVal) s :
  truthy resp = true ->
  exists msg, Sandbox.failure_message resp s = (Ok msg, s).
Proof.
  intros H. unfold Sandbox.failure_message. unfold_monad.
  rewrite !(truthy_get_prop resp) by assumption.
  destruct (truthy (field resp "data")) eqn:Hd.
  - rewrite truthy_get_prop by assumption.
    destruct (truthy (field (field resp "data") "error")); eexists; reflexivity.
  - rewrite Hd. eexists; reflexivity.
Qed.

(** Whatever reaches the [catch] block leaves it as a [ConnectionError]. *)
Lemma provision_failed_spec (e : JsError) s :
  exists msg, Sandbox.provision_failed e s = (Throw (error ConnectionError msg), s).
Proof.
  unfold Sandbox.provision_failed.
  destruct (truthy (response e)) eqn:Ht.
  - destruct (failure_message_total (response e) s Ht) as [msg Hm].
    unfold bind. rewrite Hm. eexists. reflexivity.
  - destruct (truthy (request e)); eexists; reflexivity.
Qed.

(** The [try] block stores and returns the device id of an answer that
    creates a device; on any other answer it throws, the stored id
    untouched. *)
Lemma provision_spec (req : Request) s :
  let '(answer, s1) := send req s in
  if created answer
  then Sandbox.provision req s =
       (Ok (answered_device_id answer),
        Sandbox.set_device_id (answered_device_id answer) s1)
  else exists e, Sandbox.provision req s = (Throw e, s1).
Proof.
  unfold Sandbox.provision, created, answered_device_id. unfold_monad.
  destruct (send req s) as [[resp|e] s1]; [|eexists; reflexivity].
  destruct (get_prop resp "status") as [status|e1] eqn:Hst.
  - rewrite (get_prop_field _ _ _ Hst).
    destruct (strict_eq status (VNum 201)) eqn:H201; cbn [andb].
    + destruct (get_prop resp "data") as [data|e2] eqn:Hd.
      * rewrite (get_prop_field _ _ _ Hd).
        destruct (get_prop data "device_id") as [dv|e3] eqn:Hdv.
        -- rewrite (get_prop_field _ _ _ Hdv).
           destruct (truthy dv); cbn; [reflexivity | eexists; reflexivity].
        -- destruct (get_prop_throws _ _ _ Hdv) as [-> _]. cbn.
           eexists; reflexivity.
      * destruct (get_prop_throws _ _ _ Hd) as [-> _]. cbn.
        eexists; reflexivity.
    + destruct (Sandbox.failure_message resp s1) as [[msg|e2] s2] eqn:Hm;
        apply failure_message_state in Hm; subst s2; eexists; reflexivity.
  - destruct (get_prop_throws _ _ _ Hst) as [-> _]. cbn.
    eexists; reflexivity.
Qed.

End Provisioning.

(** C3: session creation asks for a device and goes by the answer.  An
    answer with status 201 and a device id makes the session active: the
    id is stored and returned.  Every other outcome raises a
    [ConnectionError] and leaves the stored device id as it was (unset,
    for a new session): a 201 response without a device id, a response
    with another status, and every failure of the transport (an error
    carrying a response, one carrying only the request, one carrying
    neither). *)
Theorem initializeDevice_spec (E : Environment) (s : Sys (E := E)) :
  let '(session_id, rem0) := uuid E (remote s) in
  let req := Sandbox.provision_request s session_id in
  let '(answer, s1) := send req (set_world rem0 (now s) (trace s) s) in
  if created answer
  then Sandbox._initializeDevice s =
       (Ok (answered_device_id answer),
        Sandbox.set_device_id (answered_device_id answer) s1)
  else exists msg,
      Sandbox._initializeDevice s = (Throw (error ConnectionError msg), s1) /\
      _device_id (sandbox s1) = _device_id (sandbox s).
Proof.
  unfold Sandbox._initializeDevice, uuidv4, gets, bind, try_catch.
  destruct (uuid E (remote s)) as [session_id rem0].
  cbv zeta.
  change (Sandbox.provision_request (set_world rem0 (now s) (trace s) s) session_id)
    with (Sandbox.provision_request s session_id).
  set (req := Sandbox.provision_request s session_id).
  set (s0 := set_world rem0 (now s) (trace s) s).
  pose proof (provision_spec req s0) as P.
  pose proof (send_sandbox req s0) as Hsb.
  destruct (send req s0) as [answer s1]. cbn [snd] in Hsb.
  destruct (created answer).
  - rewrite P. reflexivity.
  - destruct P as [e ->].
    destruct (provision_failed_spec e s1) as [msg ->].
    exists msg. split; [reflexivity | now rewrite Hsb].
Qed.

(** A 201 response whose body has no [device_id], on a new session. *)
Example initializeDevice_missing_id :
  let s := fresh (E := scripted) [(Ok (http 201 (VObj [("region", VStr "eu")])), 120%N)] in
  fst (Sandbox._initializeDevice s) =
    Throw (error ConnectionError
             "Connection error when initializing device: Missing device_id in API response") /\
  _device_id (sandbox (snd (Sandbox._initializeDevice s))) = VNull.
Proof. split; reflexivity. Qed.

(** ** The pattern of [launch] *)

Lemma line_terminator_is_space (c : ascii) :
  is_line_terminator c = true -> is_space c = true.
Proof.
  unfold is_line_terminator, is_space. intros H.
  apply orb_prop in H as [H|H]; apply N.eqb_eq in H; rewrite H; reflexivity.
Qed.

Lemma not_space_not_line_terminator (c : ascii) :
  is_space c = false -> is_line_terminator c = false.
Proof.
  intros H. destruct (is_line_terminator c) eqn:Ht; [|reflexivity].
  apply line_terminator_is_space in Ht. congruence.
Qed.

Lemma append_assoc (a b c : string) : (a +:+ b) +:+ c = a +:+ (b +:+ c).
Proof.
  induction a as [|x a IH]; [reflexivity|].
  change (String x ((a +:+ b) +:+ c) = String x (a +:+ (b +:+ c))).
  now f_equal.
Qed.

Lemma append_empty_r (a : string) : a +:+ EmptyString = a.
Proof.
  induction a as [|x a IH]; [reflexivity|].
  change (String x (a +:+ EmptyString) = String x a). now f_equal.
Qed.

(** [\s*$]: some white space, then the end of the line. *)
Lemma star_space_line_end {R : Type} (r : R) (s : string) :
  star_space s (fun s3 => if at_line_end s3 then Some r else None)
  = if line_ends s then Some r else None.
Proof.
  induction s as [|c s IH]; [reflexivity|].
  cbn [star_space line_ends at_line_end].
  destruct (is_space c) eqn:Hs.
  - rewrite IH. destruct (line_ends s); cbn.
    + now rewrite orb_true_r.
    + now rewrite orb_false_r.
  - now rewrite (not_space_not_line_terminator c Hs).
Qed.

(** [\s*] before something that cannot start with white space takes all
    the white space there is. *)
Lemma star_space_trim {R : Type} (k : string -> option R) (s : string) :
  (forall c r, is_space c = true -> k (String c r) = None) ->
  star_space s k = k (trim_start s).
Proof.
  intros Hk. induction s as [|c s IH]; [reflexivity|].
  cbn [star_space trim_start]. destruct (is_space c) eqn:Hs; [|reflexivity].
  rewrite IH. destruct (k (trim_start s)) eqn:Hr; [reflexivity|].
  now apply Hk.
Qed.

(** [[^\s]*] before something that cannot start inside a word takes the
    whole word. *)
Lemma star_nonspace_span {R : Type} (k : string -> string -> option R) (s : string) :
  (forall seen c r, is_space c = false -> k seen (String c r) = None) ->
  forall seen,
    star_nonspace s seen k = k (seen +:+ fst (span_word s)) (snd (span_word s)).
Proof.
  intros Hk. induction s as [|c s IH]; intros seen.
  - cbn. now rewrite append_empty_r.
  - cbn [star_nonspace span_word]. destruct (is_space c) eqn:Hs.
    + cbn. now rewrite append_empty_r.
    + rewrite IH. destruct (span_word s) as [w r]. cbn [fst snd].
      rewrite append_assoc.
      change (String c EmptyString +:+ w) with (String c w).
      destruct (k (seen +:+ String c w) r) eqn:Hr; [reflexivity|].
      now apply Hk.
Qed.

(** The pattern at one position, without the backtracking: after the
    white space comes a word, and after the word nothing but white space
    up to the end of the line; group 1 is the word. *)
Lemma match_here_spec (s : string) : match_here s = sole_word_at s.
Proof.
  unfold match_here, sole_word_at.
  rewrite star_space_trim.
  2:{ intros c r Hs. cbn. now rewrite Hs. }
  destruct (trim_start s) as [|c s']; [reflexivity|].
  cbn [plus_nonspace span_word]. destruct (is_space c) eqn:Hs; [reflexivity|].
  rewrite star_nonspace_span.
  2:{ intros seen c' r Hs'. cbn. rewrite Hs'. cbn.
      now rewrite (not_space_not_line_terminator c' Hs'). }
  destruct (span_word s') as [w r]. cbn [fst snd].
  change (String c EmptyString +:+ w) with (String c w).
  apply star_space_line_end.
Qed.

(** ** Apps *)

Lemma prefix_spec (t s : string) :
  String.prefix t s = true <-> exists post, s = t +:+ post.
Proof.
  revert s. induction t as [|c t IH]; intros s.
  - split; [intros _; exists s; reflexivity | intros _; destruct s; reflexivity].
  - destruct s as [|c' s]; simpl.
    + split; [discriminate | intros [post H]; discriminate].
    + destruct (Ascii.ascii_dec c c') as [->|Hne].
      * rewrite IH. split; intros [post H]; exists post.
        -- now rewrite H.
        -- now injection H.
      * split; [discriminate | intros [post H]; injection H; congruence].
Qed.

Lemma includes_spec (s t : string) :
  includes s t = true <-> exists pre post, s = pre +:+ t +:+ post.
Proof.
  induction s as [|c s IH]; cbn [includes].
  - rewrite orb_false_r, prefix_spec. split.
    + intros [post H]. exists EmptyString, post. exact H.
    + intros [pre [post H]]. destruct pre; [now exists post | discriminate].
  - rewrite orb_true_iff, prefix_spec, IH. split.
    + intros [[post H] | [pre [post H]]].
      * exists EmptyString, post. exact H.
      * exists (String c pre), post. simpl. now rewrite H.
    + intros [pre [post H]]. destruct pre as [|c' pre].
      * left. now exists post.
      * right. exists pre, post. simpl in H. now injection H.
Qed.

Lemma append_inv_head (a b c : string) : a +:+ b = a +:+ c -> b = c.
Proof. induction a; simpl; [auto | intros [= H]; auto]. Qed.

(** What [isInstalled] leaves behind: the one shell command it ran. *)
Lemma isInstalled_state (E : Environment) (pkg : string) (s : Sys (E := E)) :
  snd (Apps.isInstalled pkg s) =
  snd (send (ShellCommand ("pm list packages " +:+ pkg)) s).
Proof.
  unfold Apps.isInstalled. unfold_monad.
  destruct (send _ s) as [[out|e] s1]; cbn [snd]; [|reflexivity].
  destruct (js_includes out _); reflexivity.
Qed.

(** C5, as the code has it: [isInstalled] runs [pm list packages <pkg>]
    and answers whether the output contains [package:<pkg>] anywhere, as
    a substring; what follows it in the output plays no role.  That is
    a defect of the code: the method is documented to say whether the
    package is installed, and a longer package name that starts with
    [<pkg>] makes it say so when it is not. *)
Theorem isInstalled_spec (E : Environment) (s : Sys (E := E)) (pkg out : string) :
  fst (send (ShellCommand ("pm list packages " +:+ pkg)) s) = Ok (VStr out) ->
  exists b,
    fst (Apps.isInstalled pkg s) = Ok b /\
    (b = true <-> exists pre post, out = pre +:+ ("package:" +:+ pkg) +:+ post).
Proof.
  intros H. unfold Apps.isInstalled. unfold_monad.
  destruct (send _ s) as [a s1]. cbn [fst] in H. subst a.
  cbn [js_includes fst]. eexists; split; [reflexivity|].
  apply includes_spec.
Qed.

Lemma isInstalled_spec_witness :
  exists b,
    fst (Apps.isInstalled "com.spotify.music"
           (fresh (E := scripted) [(Ok (VStr "package:com.spotify.music"), 35%N)]))
    = Ok b /\
    (b = true <->
     exists pre post,
       "package:com.spotify.music" = pre +:+ ("package:" +:+ "com.spotify.music") +:+ post).
Proof.
  apply (isInstalled_spec scripted
           (fresh (E := scripted) [(Ok (VStr "package:com.spotify.music"), 35%N)])
           "com.spotify.music" "package:com.spotify.music").
  reflexivity.
Defined.

(** The defect at work: the output lists only [com.foo.extra], it has no
    token [package:com.foo], and [isInstalled "com.foo"] answers [true]
    for a package that is not installed. *)
Lemma isInstalled_longer_package_name :
  has_exact_token "package:com.foo.extra" "package:com.foo" = false /\
  fst (Apps.isInstalled "com.foo"
         (fresh (E := scripted) [(Ok (VStr "package:com.foo.extra"), 35%N)]))
  = Ok true.
Proof. split; reflexivity. Qed.

(** C6: when the install check says no, [launch] raises an [AppError]
    having run the shell command of the install check and no other; when
    it says yes and no line of the output of the activity query consists
    of a single word, [launch] raises an [AppError] with another
    message, having run the query and started nothing. *)
Theorem launch_spec (E : Environment) (s : Sys (E := E)) (pkg : string) :
  (forall s1,
      Apps.isInstalled pkg s = (Ok false, s1) ->
      Apps.launch pkg s = (Throw (error AppError (not_installed_message pkg)), s1) /\
      exists a,
        trace s1 = trace s ++ [Call (ShellCommand ("pm list packages " +:+ pkg)) a]) /\
  (forall s1 out,
      Apps.isInstalled pkg s = (Ok true, s1) ->
      let query := ShellCommand ("cmd package resolve-activity --brief " +:+ pkg) in
      fst (send query s1) = Ok (VStr out) ->
      match_single_token out = None ->
      Apps.launch pkg s =
        (Throw (error AppError (no_activity_message pkg)), snd (send query s1)) /\
      trace (snd (send query s1)) = trace s1 ++ [Call query (Ok (VStr out))]) /\
  no_activity_message pkg <> not_installed_message pkg.
Proof.
  split; [|split].
  - intros s1 H. split.
    + unfold Apps.launch, try_catch, bind. rewrite H. reflexivity.
    + pose proof (isInstalled_state E pkg s) as Hs. rewrite H in Hs.
      cbn [snd] in Hs. subst s1. eexists. apply send_trace.
  - intros s1 out H query Hr Hm. split.
    + unfold Apps.launch, try_catch, bind. rewrite H. cbn [negb ret].
      unfold executeShellCommand. fold query.
      destruct (send query s1) as [a s2]. cbn [fst snd] in *. subst a.
      cbn [js_match_single_token lift]. rewrite Hm. reflexivity.
    + rewrite send_trace, Hr. reflexivity.
  - unfold no_activity_message, not_installed_message. intros H.
    apply append_inv_head in H. apply append_inv_head in H. discriminate H.
Qed.

Lemma launch_spec_witness :
  let absent := fresh (E := scripted) [(Ok (VStr EmptyString), 35%N)] in
  let present :=
    fresh (E := scripted)
      [(Ok (VStr "package:com.spotify.music"), 35%N);
       (Ok (VStr "No activity found"), 20%N)] in
  (exists s1,
      Apps.launch "com.spotify.music" absent
      = (Throw (error AppError (not_installed_message "com.spotify.music")), s1) /\
      exists a,
        trace s1 =
        trace absent ++
        [Call (ShellCommand ("pm list packages " +:+ "com.spotify.music")) a]) /\
  (exists s2,
      Apps.launch "com.spotify.music" present
      = (Throw (error AppError (no_activity_message "com.spotify.music")), s2)).
Proof.
  cbv zeta. split.
  - eexists.
    apply (proj1 (launch_spec scripted
                    (fresh (E := scripted) [(Ok (VStr EmptyString), 35%N)])
                    "com.spotify.music")).
    reflexivity.
  - eexists.
    apply (proj1 (proj2 (launch_spec scripted
                    (fresh (E := scripted)
                       [(Ok (VStr "package:com.spotify.music"), 35%N);
                        (Ok (VStr "No activity found"), 20%N)])
                    "com.spotify.music")) _ "No activity found"
                eq_refl eq_refl eq_refl).
Defined.

(** ** Paths *)







Lemma path_dirname_roots :
  path_dirname "." = "." /\ path_dirname "/" = "/".
Proof. split; reflexivity. Qed.







(** ** Files on the device *)

Section DeviceFiles.
Context {E : Environment}.
Implicit Types s : Sys (E := E).

(** [fileExists] runs its test command and nothing else, and says
    whether the trimmed output is the word [exists]. *)
Lemma fileExists_spec (path : string) s :
  let '(answer, s1) := send (ShellCommand (Files.test_command path)) s in
  exists r,
    Files.fileExists path s = (r, s1) /\
    forall out, answer = Ok (VStr out) -> r = Ok (String.eqb (trim out) "exists").
Proof.
  unfold Files.fileExists. unfold_monad.
  destruct (send _ s) as [[out|e] s1].
  - destruct out; cbn; eexists; (split; [reflexivity|]); intros ? [=].
    now subst.
  - eexists. split; [reflexivity|]. intros ? [=].
Qed.

(** [deleteFile] runs [rm -f] on the path and nothing else. *)
Lemma deleteFile_state (path : string) s :
  snd (Files.deleteFile path s) = snd (send (ShellCommand ("rm -f " +:+ path)) s).
Proof.
  unfold Files.deleteFile. unfold_monad.
  destruct (send _ s) as [[out|e] s1]; reflexivity.
Qed.


Lemma set_same s :
  set_local (files s) (dirs s) (set_world (remote s) (now s) (trace s) s) = s.
Proof. now destruct s. Qed.



Lemma mkdirSync_state (p : string) s :
  exists rem D,
    snd (fs_mkdirSync p s)
    = set_local (files s) D (set_world rem (now s) (trace s) s) /\
    dirs s ⊆ D /\
    (forall u, fst (fs_mkdirSync p s) = Ok u -> p ∈ D).
Proof.
  unfold fs_mkdirSync.
  destruct (bad_path "mkdir" p) as [e |].
  { exists (remote s), (dirs s). rewrite set_same.
    split; [reflexivity | split; [set_solver | discriminate]]. }
  destruct (not_a_directory s p); [| destruct (is_file s p)]; cbn [fst snd].
  - exists (remote s), (dirs s). rewrite set_same.
    split; [reflexivity | split; [set_solver | discriminate]].
  - exists (remote s), (dirs s). rewrite set_same.
    split; [reflexivity | split; [set_solver | discriminate]].
  - destruct (bool_decide (p ∈ dirs s)) eqn:Hthere; cbn [fst snd].
    + apply bool_decide_eq_true in Hthere.
      exists (remote s), (dirs s). rewrite set_same.
      split; [reflexivity | split; [set_solver | auto]].
    + destruct (disk E (remote s)) as [[| e | made e] rem]; cbn [fst snd].
      * eexists rem, _. split; [reflexivity |]. split; [set_solver |].
        intros _ _. apply elem_of_union_l, elem_of_list_to_set. now left.
      * exists rem, (dirs s). split; [reflexivity |].
        split; [set_solver | discriminate].
      * eexists rem, _. split; [reflexivity |].
        split; [set_solver | discriminate].
Qed.


(** A write changes no directory and says nothing to the console or to
    the network.  When it succeeds the file holds the bytes; when it
    fails, the files are as before unless the write broke off, and then
    the file holds the bytes written so far. *)
Lemma writeFileSync_state (p : string) (bs : list byte) s :
  exists rem F,
    snd (fs_writeFileSync p bs s)
    = set_local F (dirs s) (set_world rem (now s) (trace s) s) /\
    match fst (fs_writeFileSync p bs s) with
    | Ok _ =>
        F = <[ p := bs ]> (files s) /\
        not_a_directory s p = false /\ (p ∉ dirs s) /\
        (path_dirname p ∈ dirs s) /\
        fst (disk E (remote s)) = Stored /\
        file_path p = true
    | Throw e =>
        F = files s \/
        exists written,
          fst (disk E (remote s)) = Broke written e /\
          F = <[ p := take written bs ]> (files s)
    end.
Proof.
  unfold fs_writeFileSync.
  destruct (bad_path "open" p) as [e |] eqn:Hfit.
  { exists (remote s), (files s). rewrite set_same. cbn. auto. }
  destruct (not_a_directory s p) eqn:Hblocked.
  { exists (remote s), (files s). rewrite set_same. cbn. auto. }
  destruct (bool_decide (p ∈ dirs s)) eqn:Hdir; cbn [orb].
  { exists (remote s), (files s). rewrite set_same. cbn. auto. }
  destruct (ends_in_slash p) eqn:Hslash.
  { exists (remote s), (files s). rewrite set_same. cbn. auto. }
  destruct (bool_decide (path_dirname p ∈ dirs s)) eqn:Hparent; cbn [negb].
  2:{ exists (remote s), (files s). rewrite set_same. cbn. auto. }
  apply bool_decide_eq_false in Hdir. apply bool_decide_eq_true in Hparent.
  assert (Hname : file_path p = true).
  { unfold file_path, bad_path in *. rewrite Hslash.
    destruct (has_nul p); [discriminate |].
    destruct (String.eqb p EmptyString); [discriminate | reflexivity]. }
  destruct (disk E (remote s)) as [[| e | written e] rem]; cbn [fst snd].
  - exists rem, (<[ p := bs ]> (files s)). repeat split; auto.
  - exists rem, (files s). split; [| auto]. reflexivity.
  - exists rem, (<[ p := take written bs ]> (files s)). split; [reflexivity |].
    right. eauto.
Qed.


(** [pullFile] makes one request, for the content at the remote path. *)
Lemma pullFile_trace (remotePath localPath : string) s :
  let req := ApiClient GET "/files/pull"
               (VObj [("deviceId", deviceId s); ("path", VStr remotePath)]) in
  trace (snd (Files.pullFile remotePath localPath s)) =
  trace s ++ [Call req (fst (send req s))].
Proof.
  intros req. rewrite <- send_trace.
  unfold Files.pullFile, fs_existsSync.
  unfold_monad. fold req.
  destruct (send req s) as [[resp|e] s1]; cbn [snd fst]; [|reflexivity].
  destruct (get_prop resp "content") as [content|]; [|reflexivity].
  destruct (Buffer_from_base64 content) as [buffer|]; [|reflexivity].
  cbv zeta.
  assert (Hwrite : forall s2,
            trace s2 = trace s1 ->
            trace (snd (let (r, s') := fs_writeFileSync localPath buffer s2 in
                        match r with
                        | Ok _ => (Ok true, s')
                        | Throw e0 => (Throw e0, s')
                        end)) = trace s1).
  { intros s2 Hs2.
    destruct (writeFileSync_state localPath buffer s2) as (rem & F & Hstate & _).
    destruct (fs_writeFileSync localPath buffer s2) as [[u | e0] s3];
      cbn [snd] in *; subst s3; exact Hs2. }
  destruct (negb _).
  - destruct (mkdirSync_state (path_dirname localPath) s1) as (rem & D & Hstate & _).
    destruct (fs_mkdirSync (path_dirname localPath) s1) as [[u | e0] s2];
      cbn [snd] in Hstate; subst s2.
    + specialize (Hwrite (set_local (files s1) D
                            (set_world rem (now s1) (trace s1) s1)) eq_refl).
      destruct (fs_writeFileSync _ _ _) as [[u' | e0] s3]; exact Hwrite.
    + reflexivity.
  - specialize (Hwrite s1 eq_refl).
    destruct (fs_writeFileSync _ _ _) as [[u' | e0] s3]; exact Hwrite.
Qed.

End DeviceFiles.

(** ** Recordings *)

(** [record/manager.js] takes [RecordingError] from [exceptions.js], which
    exports no such name: the class it exports is [RecordError]. *)
Lemma RecordingError_undefined :
  require exceptions "RecordingError" = None /\
  require exceptions "RecordError" = Some RecordError.
Proof. split; reflexivity. Qed.

Section Recordings.
Context {E : Environment}.
Implicit Types s : Sys (E := E).

(** So whatever the manager means to raise, what it raises is the
    [TypeError] of [new undefined(...)]. *)
Lemma recording_stop_raises s s' (e : JsError) :
  Recording.stop s = (Throw e, s') -> e = not_a_constructor.
Proof.
  unfold Recording.stop. intros H.
  apply try_catch_throws in H as [e0 [s0 [_ H]]].
  rewrite throw_new_RecordingError in H. now injection H as <- _.
Qed.

Lemma deleteRecording_raises (arg : option string) s s' (e : JsError) :
  Recording.deleteRecording arg s = (Throw e, s') -> e = not_a_constructor.
Proof.
  unfold Recording.deleteRecording, bind, gets. intros H.
  apply try_catch_throws in H as [e0 [s0 [_ H]]].
  rewrite throw_new_RecordingError in H. now injection H as <- _.
Qed.

(** [stop] without a recording in progress raises at once. *)
Lemma recording_stop_idle s :
  isRecording (record s) = false ->
  Recording.stop s = (Throw not_a_constructor, s).
Proof.
  intros H. unfold Recording.stop, try_catch, bind, gets. cbv beta.
  rewrite H. reflexivity.
Qed.

(** [start] while no recording is in progress: the new id is tracked
    before the command runs, so a command that fails leaves the new id
    behind, with the flag down. *)
Lemma start_failed s (options : Recording.Options) (id : string)
  (rem0 : Remote E) (e : JsError) :
  isRecording (record s) = false ->
  uuid E (remote s) = (id, rem0) ->
  let command :=
    ShellCommand
      (Recording.screenrecord options
         (if Recording.audio options then "--audio-source=mic" else "--audio-source=none")
         (Some id)) in
  let s0 := Recording.set_recordingId (Some id) (set_world rem0 (now s) (trace s) s) in
  fst (send command s0) = Throw e ->
  Recording.start options s = (Throw not_a_constructor, snd (send command s0)).
Proof.
  intros Hrec Hu command s0 Hs.
  unfold Recording.start, try_catch, bind, gets, uuidv4, modify, executeShellCommand.
  cbv beta. rewrite Hrec, Hu. cbn [recordingId record Recording.set_recordingId set_record].
  fold command. fold s0.
  destruct (send command s0) as [a s1]. cbn [fst] in Hs. subst a. reflexivity.
Qed.

End Recordings.

(** C2, as the code runs: [stop] without a recording in progress raises
    at once.  With one in progress it sends the interrupt, waits 2000 ms,
    lowers the flag and then checks that the file exists; when the check
    does not say so, [stop] raises with the flag already down.  But what
    [stop] raises, here as everywhere, is not a [RecordingError]: it is
    the [TypeError] of [new RecordingError(...)], since [exceptions.js]
    exports no class of that name. *)
Theorem recording_stop_raises_TypeError (E : Environment) (s : Sys (E := E)) :
  require exceptions "RecordingError" = None /\
  name not_a_constructor = TypeError /\
  (forall e s', Recording.stop s = (Throw e, s') -> e = not_a_constructor) /\
  (isRecording (record s) = false ->
   Recording.stop s = (Throw not_a_constructor, s)) /\
  (isRecording (record s) = true ->
   match send (ShellCommand "pkill -INT screenrecord") s with
   | (Throw _, s1) => Recording.stop s = (Throw not_a_constructor, s1)
   | (Ok _, s1) =>
       let s2 := Recording.set_isRecording false (snd (sleep 2000 s1)) in
       let path := Recording.recording_path (recordingId (record s)) in
       match Files.fileExists path s2 with
       | (Ok true, s3) => Recording.stop s = (Ok path, s3)
       | (_, s3) =>
           Recording.stop s = (Throw not_a_constructor, s3) /\
           isRecording (record s3) = false
       end
   end).
Proof.
  split; [reflexivity|]. split; [reflexivity|].
  split; [intros e s'; apply recording_stop_raises|].
  split; [apply recording_stop_idle|].
  intros Hrec.
  unfold Recording.stop, try_catch, bind, gets, executeShellCommand, modify.
  cbv beta. rewrite Hrec. cbn [negb ret].
  pose proof (send_record (ShellCommand "pkill -INT screenrecord") s) as Hr1.
  destruct (send (ShellCommand "pkill -INT screenrecord") s) as [[out|e] s1];
    cbn [snd] in Hr1; [|reflexivity].
  destruct (sleep_state 2000 s1) as [rem [lag Hsl]]. rewrite Hsl. cbn [snd].
  set (s2 := Recording.set_isRecording false _).
  assert (Hid : recordingId (record s2) = recordingId (record s))
    by (unfold s2; cbn; now rewrite Hr1).
  rewrite Hid. cbv zeta.
  pose proof (fileExists_spec
                (Recording.recording_path (recordingId (record s))) s2) as Hf.
  pose proof (send_record
                (ShellCommand (Files.test_command
                   (Recording.recording_path (recordingId (record s))))) s2) as Hr3.
  destruct (send _ s2) as [a s3]. cbn [snd] in Hr3.
  destruct Hf as [r [-> _]].
  destruct r as [[|]|e]; cbn; [reflexivity | split | split]; try reflexivity;
    rewrite Hr3; reflexivity.
Qed.

Lemma recording_stop_raises_TypeError_witness :
  let idle := fresh (E := scripted) [] in
  let recording :=
    set_record (mkRecord (Some "r-1") true (Some 0))
      (fresh (E := scripted)
         [(Ok (VStr EmptyString), 30%N); (Ok (VStr "not exists"), 25%N)]) in
  Recording.stop idle = (Throw not_a_constructor, idle) /\
  fst (Recording.stop recording) = Throw not_a_constructor /\
  isRecording (record (snd (Recording.stop recording))) = false /\
  trace (snd (Recording.stop recording)) =
    [Call (ShellCommand "pkill -INT screenrecord") (Ok (VStr EmptyString));
     Slept 2000;
     Call (ShellCommand (Files.test_command "/sdcard/recording_r-1.mp4"))
       (Ok (VStr "not exists"))].
Proof.
  cbv zeta. split.
  - apply (proj1 (proj2 (proj2 (proj2
             (recording_stop_raises_TypeError scripted (fresh (E := scripted) [])))))).
    reflexivity.
  - repeat split; reflexivity.
Defined.

(** C4, as the code runs: deleting the recording in progress, named by
    its id or by default, raises before anything is asked of the device
    and leaves the state as it is.  But what is raised is not a
    [RecordingError]: it is the [TypeError] of [new RecordingError(...)],
    since [exceptions.js] exports no class of that name. *)
Theorem deleteRecording_active_raises_TypeError (E : Environment)
  (s : Sys (E := E)) (id : string) (arg : option string) :
  isRecording (record s) = true ->
  recordingId (record s) = Some id ->
  arg = None \/ arg = Some id ->
  Recording.deleteRecording arg s = (Throw not_a_constructor, s) /\
  name not_a_constructor = TypeError /\
  require exceptions "RecordingError" = None.
Proof.
  intros Hrec Hid Harg. split; [|split; reflexivity].
  unfold Recording.deleteRecording, try_catch, bind, gets. cbv beta.
  rewrite Hid.
  assert (Hsame : match arg with Some id' => Some id' | None => Some id end = Some id)
    by (destruct Harg as [-> | ->]; reflexivity).
  rewrite Hsame.
  destruct (Recording.falsy_id (Some id)); cbn [ret]; [reflexivity|].
  rewrite Hid, Hrec. rewrite bool_decide_eq_true_2 by reflexivity.
  reflexivity.
Qed.

Lemma deleteRecording_active_raises_TypeError_witness :
  let recording :=
    set_record (mkRecord (Some "r-1") true (Some 0)) (fresh (E := scripted) []) in
  Recording.deleteRecording None recording = (Throw not_a_constructor, recording) /\
  Recording.deleteRecording (Some "r-1") recording = (Throw not_a_constructor, recording) /\
  trace recording = [].
Proof.
  cbv zeta. split; [|split].
  - apply (deleteRecording_active_raises_TypeError scripted
             (set_record (mkRecord (Some "r-1") true (Some 0)) (fresh (E := scripted) []))
             "r-1" None eq_refl eq_refl).
    left. reflexivity.
  - apply (deleteRecording_active_raises_TypeError scripted
             (set_record (mkRecord (Some "r-1") true (Some 0)) (fresh (E := scripted) []))
             "r-1" (Some "r-1") eq_refl eq_refl).
    right. reflexivity.
  - reflexivity.
Defined.

(** C10: [start], with no recording in progress, tracks the new id and
    then runs the recording command.  If the command fails, [start]
    raises, no recording is in progress, and the tracked id is the new
    one, whatever was tracked before: a [saveRecording] that follows asks
    for the file of the new id, and a [deleteRecording] without argument
    removes the file of the new id. *)
Theorem start_failure_overwrites_tracked_id (E : Environment) (s : Sys (E := E))
  (options : Recording.Options) (id : string) (rem0 : Remote E) (e : JsError) :
  isRecording (record s) = false ->
  uuid E (remote s) = (id, rem0) ->
  id <> EmptyString ->
  let command :=
    ShellCommand
      (Recording.screenrecord options
         (if Recording.audio options then "--audio-source=mic" else "--audio-source=none")
         (Some id)) in
  let s0 := Recording.set_recordingId (Some id) (set_world rem0 (now s) (trace s) s) in
  fst (send command s0) = Throw e ->
  exists err s1,
    Recording.start options s = (Throw err, s1) /\
    s1 = snd (send command s0) /\
    isRecording (record s1) = false /\
    recordingId (record s1) = Some id /\
    (forall localPath, exists a,
        trace (snd (Recording.saveRecording localPath s1)) =
        trace s1 ++
        [Call (ApiClient GET "/files/pull"
                 (VObj [("deviceId", deviceId s1);
                        ("path", VStr (Recording.recording_path (Some id)))])) a]) /\
    (exists a,
        trace (snd (Recording.deleteRecording None s1)) =
        trace s1 ++
        [Call (ShellCommand ("rm -f " +:+ Recording.recording_path (Some id))) a]).
Proof.
  intros Hrec Hu Hne command s0 Hs.
  exists not_a_constructor, (snd (send command s0)).
  split; [now apply (start_failed s options id rem0 e)|].
  split; [reflexivity|].
  set (s1 := snd (send command s0)).
  assert (Hr1 : record s1 = mkRecord (Some id) false (recordingStartTime (record s))).
  { unfold s1. rewrite send_record. unfold s0. cbn. now rewrite Hrec. }
  assert (Hf : Recording.falsy_id (Some id) = false).
  { unfold Recording.falsy_id. cbn. destruct (String.eqb_spec id EmptyString);
      [contradiction | reflexivity]. }
  split; [now rewrite Hr1|]. split; [now rewrite Hr1|]. split.
  - intros localPath.
    unfold Recording.saveRecording, try_catch, bind, gets. cbv beta.
    repeat (rewrite ?Hr1, ?Hf; cbn [isRecording recordingId ret andb]).
    pose proof (pullFile_trace (Recording.recording_path (Some id)) localPath s1) as Ht.
    cbv zeta in Ht.
    destruct (Files.pullFile _ localPath s1) as [[b|e1] s2]; cbn [snd] in *;
      eexists; exact Ht.
  - unfold Recording.deleteRecording, try_catch, bind, gets. cbv beta.
    repeat (rewrite ?Hr1, ?Hf; cbn [isRecording recordingId ret andb]).
    pose proof (deleteFile_state (Recording.recording_path (Some id)) s1) as Hd.
    pose proof (send_trace (ShellCommand ("rm -f " +:+ Recording.recording_path (Some id))) s1) as Ht.
    rewrite <- Hd in Ht.
    destruct (Files.deleteFile _ s1) as [[b|e1] s2]; cbn [snd] in *.
    + destruct (bool_decide _); cbn; eexists; exact Ht.
    + eexists; exact Ht.
Qed.

Lemma start_failure_overwrites_tracked_id_witness :
  let s := set_record (mkRecord (Some "r-0") false (Some 0)) (fresh (E := scripted) []) in
  exists err s1,
    Recording.start Recording.default_options s = (Throw err, s1) /\
    isRecording (record s1) = false /\
    recordingId (record s1) = Some "1b9d6bcd-bbfd-4b2d-9b5d-ab8dfbbd4bed".
Proof.
  cbv zeta.
  destruct (start_failure_overwrites_tracked_id scripted
              (set_record (mkRecord (Some "r-0") false (Some 0)) (fresh (E := scripted) []))
              Recording.default_options "1b9d6bcd-bbfd-4b2d-9b5d-ab8dfbbd4bed" []
              network_down eq_refl eq_refl ltac:(discriminate) eq_refl)
    as [err [s1 [H1 [_ [H2 [H3 _]]]]]].
  exists err, s1. repeat split; assumption.
Defined.

(** ** Base64 *)

Lemma list_ind3 {A : Type} (P : list A -> Prop) :
  P [] -> (forall a, P [a]) -> (forall a b, P [a; b]) ->
  (forall a b c l, P l -> P (a :: b :: c :: l)) -> forall l, P l.
Proof.
  intros H0 H1 H2 H3. fix IH 1.
  intros [|a [|b [|c l]]]; [exact H0 | apply H1 | apply H2 | apply H3, IH].
Qed.

Ltac euclid := zify; Z.to_euclidean_division_equations; lia.

(** Each of the 64 characters of the alphabet decodes to its index, and
    none of them is the padding character. *)
Lemma b64char_table :
  forallb (fun n => match unbase64 (b64char n) with
                    | Some m => N.eqb m n && negb (Ascii.eqb (b64char n) "=")
                    | None => false
                    end)
          (map N.of_nat (seq 0 64)) = true.
Proof. vm_compute. reflexivity. Qed.

Lemma unbase64_b64char (n : N) :
  (n < 64)%N -> unbase64 (b64char n) = Some n /\ Ascii.eqb (b64char n) "=" = false.
Proof.
  intros Hn.
  pose proof b64char_table as T.
  rewrite forallb_forall in T.
  assert (Hin : In n (map N.of_nat (seq 0 64))).
  { apply in_map_iff. exists (N.to_nat n). split; [apply N2Nat.id|].
    apply in_seq. lia. }
  specialize (T n Hin).
  destruct (unbase64 (b64char n)) as [m|]; [|discriminate].
  apply andb_prop in T as [T1 T2].
  apply N.eqb_eq in T1. subst m.
  split; [reflexivity|]. now destruct (Ascii.eqb (b64char n) "=").
Qed.

Lemma sextets_b64char (n : N) (s : string) :
  (n < 64)%N -> sextets (String (b64char n) s) = n :: sextets s.
Proof.
  intros Hn. destruct (unbase64_b64char n Hn) as [H1 H2].
  cbn [sextets]. rewrite H2, H1. reflexivity.
Qed.

Lemma byte_of_to_N (x : byte) : byte_of_N (Byte.to_N x) = x.
Proof.
  unfold byte_of_N. pose proof (Byte.to_N_bounded x).
  rewrite N.mod_small by lia. now rewrite Byte.of_to_N.
Qed.

Lemma first_byte (a b : N) :
  (a <= 255 -> b <= 255 -> a / 4 * 4 + (a mod 4 * 16 + b / 16) / 16 = a)%N.
Proof. intros. euclid. Qed.

Lemma second_byte (a b c : N) :
  (a <= 255 -> b <= 255 -> c <= 255 ->
   (a mod 4 * 16 + b / 16) mod 16 * 16 + (b mod 16 * 4 + c / 64) / 4 = b)%N.
Proof. intros. euclid. Qed.

Lemma third_byte (b c : N) :
  (b <= 255 -> c <= 255 -> (b mod 16 * 4 + c / 64) mod 4 * 64 + c mod 64 = c)%N.
Proof. intros. euclid. Qed.

(** Decoding what was encoded gives the bytes back. *)
Lemma base64_roundtrip (bs : list byte) : base64_decode (base64_encode bs) = bs.
Proof.
  unfold base64_decode.
  induction bs as [|a|a b|a b c rest IH] using list_ind3.
  - reflexivity.
  - pose proof (Byte.to_N_bounded a).
    cbn [base64_encode].
    rewrite !sextets_b64char by euclid. simpl.
    replace (Byte.to_N a / 4 * 4 + Byte.to_N a mod 4 * 16 / 16)%N
      with (Byte.to_N a) by euclid.
    now rewrite byte_of_to_N.
  - pose proof (Byte.to_N_bounded a). pose proof (Byte.to_N_bounded b).
    cbn [base64_encode].
    rewrite !sextets_b64char by euclid. simpl.
    rewrite first_byte by lia.
    replace ((Byte.to_N a mod 4 * 16 + Byte.to_N b / 16) mod 16 * 16
             + Byte.to_N b mod 16 * 4 / 4)%N
      with (Byte.to_N b) by euclid.
    now rewrite !byte_of_to_N.
  - pose proof (Byte.to_N_bounded a). pose proof (Byte.to_N_bounded b).
    pose proof (Byte.to_N_bounded c).
    cbn [base64_encode].
    rewrite !sextets_b64char by euclid.
    cbn [bytes_of_sextets].
    rewrite IH, first_byte, second_byte, third_byte by lia.
    now rewrite !byte_of_to_N.
Qed.

(** ** File transfer *)

Section Transfer.
Context {E : Environment}.
Implicit Types s : Sys (E := E).

(** [pushFile] of a file that is there: one request, with the file's
    bytes in base64. *)
Lemma pushFile_present (localPath remotePath : string) (bs : list byte) s :
  files s !! localPath = Some bs ->
  Files.pushFile localPath remotePath s =
  match send (push_request s remotePath bs) s with
  | (Ok _, s1) => (Ok true, s1)
  | (Throw e, s1) =>
      (Throw (error FileError
                ("Failed to push file " +:+ localPath +:+ " to " +:+ remotePath
                 +:+ ": " +:+ message e)), s1)
  end.
Proof.
  intros Hf.
  unfold Files.pushFile, fs_existsSync, fs_readFileSync. unfold_monad. cbv beta.
  rewrite bool_decide_eq_true_2 by eauto. cbn [orb negb]. rewrite Hf.
  fold (push_request s remotePath bs).
  destruct (send _ s) as [[v|e] s1]; reflexivity.
Qed.

Lemma pushFile_absent (localPath remotePath : string) s :
  files s !! localPath = None ->
  localPath ∉ dirs s ->
  Files.pushFile localPath remotePath s =
  (Throw (error FileError
            ("Failed to push file " +:+ localPath +:+ " to " +:+ remotePath
             +:+ ": Local file " +:+ localPath +:+ " does not exist")), s).
Proof.
  intros Hf Hd.
  unfold Files.pushFile, fs_existsSync. unfold_monad. cbv beta.
  rewrite Hf. rewrite bool_decide_eq_false_2 by (intros [? ?]; discriminate).
  rewrite bool_decide_eq_false_2 by assumption. reflexivity.
Qed.




End Transfer.



(** ** Waiting for an app *)

Lemma answers_app (evs evs' : list Event) :
  answers (evs ++ evs') = answers evs ++ answers evs'.
Proof.
  induction evs as [|[r a|ms|l msg] evs IH]; cbn; [reflexivity | | |];
    now rewrite IH.
Qed.

Lemma requests_app (evs evs' : list Event) :
  requests (evs ++ evs') = requests evs ++ requests evs'.
Proof.
  induction evs as [|[r a|ms|l msg] evs IH]; cbn; [reflexivity | | |];
    now rewrite IH.
Qed.

Lemma answers_console (logs : list Event) :
  forallb is_console logs = true -> answers logs = [].
Proof.
  induction logs as [|[r a|ms|l msg] logs IH]; cbn; try discriminate; auto.
Qed.

Lemma requests_console (logs : list Event) :
  forallb is_console logs = true -> requests logs = [].
Proof.
  induction logs as [|[r a|ms|l msg] logs IH]; cbn; try discriminate; auto.
Qed.

Lemma cadence_console (ms : Z) (b : bool) (logs evs : list Event) :
  forallb is_console logs = true ->
  cadence_from ms b (logs ++ evs) = cadence_from ms b evs.
Proof.
  induction logs as [|[r a|d|l msg] logs IH]; cbn; try discriminate; auto.
Qed.

Section Waiting.
Context {E : Environment}.
Implicit Types s : Sys (E := E).

Lemma replay_app s (evs1 evs2 : list Event) :
  replay s (evs1 ++ evs2) = replay (replay s evs1) evs2.
Proof.
  revert s. induction evs1 as [|[r a|ms|l msg] evs1 IH]; intros s; cbn; auto.
Qed.

Lemma sent_before_console (deadline : Z) (logs evs : list Event) s :
  forallb is_console logs = true ->
  sent_before deadline s (logs ++ evs) = sent_before deadline (replay s logs) evs.
Proof.
  revert s. induction logs as [|[r a|ms|l msg] logs IH]; intros s H; cbn in *;
    try discriminate; auto.
Qed.

Lemma rounds_console (pkg : string) (logs evs : list Event) :
  forallb is_console logs = true ->
  rounds_from pkg true (logs ++ evs) = rounds_from pkg true evs.
Proof.
  induction logs as [|[r a|ms|l msg] logs IH]; intros H; cbn in *;
    try discriminate; auto.
Qed.

(** One poll: the request, then at most console output; it never throws,
    and says whether the answer reports the package. *)
Lemma poll_spec (api_url : string) (headers : JsVal) (pkg : string) s :
  let req := Axios GET api_url VUndef (Sandbox.config headers 10000) in
  exists logs s',
    Sandbox.poll api_url headers pkg s = (Ok (reports pkg (fst (send req s))), s') /\
    trace s' = trace s ++ Call req (fst (send req s)) :: logs /\
    forallb is_console logs = true /\
    (reports pkg (fst (send req s)) = true -> logs = []) /\
    now s <= now s' /\
    s' = replay (snd (send req s)) logs.
Proof.
  intros req. unfold Sandbox.poll, reports, current_app, console. unfold_monad.
  fold req.
  pose proof (send_trace req s) as Ht. pose proof (send_now req s) as Hn.
  destruct (send req s) as [[resp|e] s1]; cbn [fst snd] in *.
  - unfold field.
    destruct (get_prop resp "status") as [status|e1] eqn:Hst.
    + destruct (strict_eq status (VNum 200)) eqn:H200.
      * destruct resp; try discriminate Hst; cbn [get_prop] in *;
          try (injection Hst as <-; discriminate H200).
        destruct (get_prop (assoc "data" fields) "package_name") as [reported|e2].
        -- exists [], s1. rewrite Ht. repeat split; auto.
        -- eexists [_], _. cbn. rewrite Ht. rewrite <- app_assoc.
           repeat split; auto; first [discriminate | now rewrite app_assoc].
      * eexists [_], _. cbn. rewrite Ht. rewrite <- app_assoc.
        repeat split; auto; first [discriminate | now rewrite app_assoc].
    + destruct (get_prop_throws _ _ _ Hst) as [Hu _]. unfold field in Hu.
      rewrite Hst in Hu. cbn.
      eexists [_], _. cbn. rewrite Ht. rewrite <- app_assoc.
      repeat split; auto; first [discriminate | now rewrite app_assoc].
  - eexists [_], _. cbn. rewrite Ht. rewrite <- app_assoc.
    repeat split; auto; first [discriminate | now rewrite app_assoc].
Qed.

(** The loop, given one round more than the time left has room for. *)
Lemma waitForApp_loop_spec (api_url : string) (headers : JsVal) (pkg : string)
  (end_time : Z) (fuel : nat) :
  forall s,
    end_time - now s <= 500 * Z.of_nat fuel ->
    exists b evs s',
      Sandbox.waitForApp_loop (S fuel) api_url headers pkg end_time s
      = (Ok (Some b), s') /\
      trace s' = trace s ++ evs /\
      Forall (eq (Axios GET api_url VUndef (Sandbox.config headers 10000)))
        (requests evs) /\
      cadence 500 evs = true /\
      (now s < end_time ->
       (1 <= length (answers evs))%nat /\
       500 * Z.of_nat (length (answers evs)) < end_time - now s + 500) /\
      (end_time <= now s -> evs = []) /\
      b = existsb (reports pkg) (answers evs) /\
      (b = true ->
       exists evs0 r a,
         evs = evs0 ++ [Call r a] /\ reports pkg a = true /\
         existsb (reports pkg) (answers evs0) = false) /\
      s' = replay s evs /\
      rounds pkg evs = true /\
      sent_before end_time s evs = true /\
      (b = false -> end_time <= now s').
Proof.
  set (req := Axios GET api_url VUndef (Sandbox.config headers 10000)).
  induction fuel as [|fuel IH]; intros s Hfuel;
    cbn [Sandbox.waitForApp_loop]; unfold bind at 1, Date_now, gets; cbv beta;
    destruct (now s <? end_time) eqn:Hlt;
    try (apply Z.ltb_lt in Hlt); try (apply Z.ltb_ge in Hlt).
  - lia.
  - exists false, [], s. rewrite app_nil_r.
    repeat split; auto; try lia; discriminate.
  - destruct (poll_spec api_url headers pkg s) as [logs [s1 [Hp [Ht [Hc [Hl [Hn Hs1]]]]]]].
    fold req in Hp, Ht, Hl, Hs1. unfold bind at 1. rewrite Hp.
    set (a := fst (send req s)) in *.
    destruct (reports pkg a) eqn:Hrep.
    + rewrite (Hl eq_refl) in Ht, Hs1. cbn in Hs1.
      exists true, [Call req a], s1. unfold rounds. cbn. rewrite Hrep.
      apply Z.ltb_lt in Hlt. rewrite Hlt. apply Z.ltb_lt in Hlt.
      repeat split; auto; try lia; try discriminate.
      intros _. exists [], req, a. repeat split; auto.
    + unfold Sandbox.wait, bind at 1.
      destruct (sleep_state 500 s1) as [rem [lag Hs]]. rewrite Hs.
      set (s2 := set_world rem (now s1 + 500 + Z.of_N lag) (trace s1 ++ [Slept 500]) s1).
      assert (Hs2 : snd (sleep 500 s1) = s2) by now rewrite Hs.
      destruct (IH s2)
        as [b [evs [s' [Hrun [Htr [Hreq [Hcad [Hcnt [Hz [Hb [Hlast
            [Hrep' [Hrounds [Hsent Hlate]]]]]]]]]]]]]].
      { unfold s2. cbn. lia. }
      exists b, (Call req a :: logs ++ Slept 500 :: evs), s'.
      assert (Hans : answers (Call req a :: logs ++ Slept 500 :: evs) = a :: answers evs).
      { cbn. rewrite answers_app, (answers_console logs Hc). reflexivity. }
      rewrite Hans.
      split; [exact Hrun|]. split.
      { rewrite Htr. unfold s2. cbn. rewrite Ht.
        rewrite <- !app_assoc. reflexivity. }
      split.
      { cbn. rewrite requests_app, (requests_console logs Hc). cbn.
        constructor; [reflexivity | exact Hreq]. }
      split.
      { unfold cadence. cbn. rewrite cadence_console by assumption.
        cbn. exact Hcad. }
      split.
      { intros _. cbn [length]. split; [lia|].
        destruct (Z_lt_le_dec (now s2) end_time) as [Hlt2|Hge2].
        - destruct (Hcnt Hlt2) as [_ Hc2]. unfold s2 in Hc2. cbn in Hc2. lia.
        - rewrite (Hz Hge2). cbn. lia. }
      split; [lia|]. split.
      { cbn. rewrite Hrep. exact Hb. }
      split.
      { intros Hbt. destruct (Hlast Hbt) as [evs0 [r [a' [He [Hr' Hnone]]]]].
        exists (Call req a :: logs ++ Slept 500 :: evs0), r, a'.
        split; [|split].
        * rewrite He. cbn. rewrite <- app_assoc. reflexivity.
        * exact Hr'.
        * cbn. rewrite answers_app, (answers_console logs Hc). cbn.
          rewrite Hrep. exact Hnone. }
      split.
      { cbn [replay]. rewrite replay_app, <- Hs1. cbn [replay].
        rewrite Hs2. exact Hrep'. }
      split.
      { unfold rounds in *. cbn [rounds_from negb andb]. fold a. rewrite Hrep.
        rewrite rounds_console by assumption. cbn [rounds_from andb].
        rewrite Z.eqb_refl. exact Hrounds. }
      split; [|exact Hlate].
      cbn [sent_before]. apply Z.ltb_lt in Hlt. rewrite Hlt. cbn [andb].
      rewrite sent_before_console by assumption. rewrite <- Hs1.
      cbn [sent_before]. rewrite Hs2. exact Hsent.
  - exists false, [], s. rewrite app_nil_r.
    repeat split; auto; try lia; discriminate.
Qed.

End Waiting.

(** C7: [waitForApp(pkg, 1000)], given at least three rounds, returns a
    boolean and never raises.  Its trace is a sequence of rounds: a poll
    of the foreground app, sent while the clock is before the deadline
    of 1000 ms after the call; if the poll reports [pkg], nothing more,
    and the result is [true]; if it does not, a delay of 500 ms, and
    then the next round.  So it polls once, twice or three times (here:
    at most twice), it returns [true] right after the first poll that
    reports [pkg], and it returns [false] only when no poll did and the
    clock has reached the deadline.  The final state is the one the
    environment gives for these events. *)
Theorem waitForApp_1000 (E : Environment) (s : Sys (E := E)) (pkg : string)
  (fuel : nat) :
  (3 <= fuel)%nat ->
  exists b evs s',
    Sandbox.waitForApp fuel pkg 1000 s = (Ok (Some b), s') /\
    trace s' = trace s ++ evs /\
    Forall (eq (Axios GET (Sandbox.device_url s "/current_app") VUndef
                  (Sandbox.config (Sandbox.accept_headers s) 10000)))
      (requests evs) /\
    (1 <= length (answers evs) <= 3)%nat /\
    cadence 500 evs = true /\
    b = existsb (reports pkg) (answers evs) /\
    (b = true ->
     exists evs0 r a,
       evs = evs0 ++ [Call r a] /\ reports pkg a = true /\
       existsb (reports pkg) (answers evs0) = false) /\
    rounds pkg evs = true /\
    sent_before (now s + 1000) s evs = true /\
    s' = replay s evs /\
    (b = false -> now s + 1000 <= now s') /\
    (length (answers evs) <= 2)%nat.
Proof.
  intros Hfuel. destruct fuel as [|fuel]; [lia|].
  unfold Sandbox.waitForApp, bind, gets, Date_now. cbv beta.
  destruct (waitForApp_loop_spec (Sandbox.device_url s "/current_app")
              (Sandbox.accept_headers s) pkg (now s + 1000) fuel s)
    as [b [evs [s' [Hrun [Htr [Hreq [Hcad [Hcnt [_ [Hb [Hlast
         [Hreplay [Hrounds [Hsent Hlate]]]]]]]]]]]]]]; [lia|].
  exists b, evs, s'. destruct Hcnt as [H1 H2]; [lia|].
  repeat split; auto; lia.
Qed.

Lemma waitForApp_1000_witness :
  let elsewhere := Ok (http 200 (VObj [("package_name", VStr "com.android.launcher")])) in
  let there := Ok (http 200 (VObj [("package_name", VStr "pkg.x")])) in
  let s := fresh (E := scripted) [(elsewhere, 80%N); (there, 80%N); (elsewhere, 80%N)] in
  exists b evs s',
    Sandbox.waitForApp 3 "pkg.x" 1000 s = (Ok (Some b), s') /\
    trace s' = trace s ++ evs /\
    (1 <= length (answers evs) <= 3)%nat /\
    cadence 500 evs = true /\
    b = existsb (reports "pkg.x") (answers evs) /\
    rounds "pkg.x" evs = true /\
    sent_before (now s + 1000) s evs = true /\
    s' = replay s evs.
Proof.
  cbv zeta.
  destruct (waitForApp_1000 scripted
              (fresh (E := scripted)
                 [(Ok (http 200 (VObj [("package_name", VStr "com.android.launcher")])), 80%N);
                  (Ok (http 200 (VObj [("package_name", VStr "pkg.x")])), 80%N);
                  (Ok (http 200 (VObj [("package_name", VStr "com.android.launcher")])), 80%N)])
              "pkg.x" 3 ltac:(lia))
    as [b [evs [s' [H1 [H2 [_ [H3 [H4 [H5 [_ [H6 [H7 [H8 _]]]]]]]]]]]]].
  exists b, evs, s'. repeat split; auto; lia.
Defined.

(** A poll that does not report the package is not the end: with the
    launcher in front at the first poll and the package at the second,
    the result is [true], after a delay of 500 ms between the two. *)
Example waitForApp_1000_second_poll :
  let elsewhere := Ok (http 200 (VObj [("package_name", VStr "com.android.launcher")])) in
  let there := Ok (http 200 (VObj [("package_name", VStr "pkg.x")])) in
  let s := fresh (E := scripted) [(elsewhere, 80%N); (there, 80%N)] in
  let req := Axios GET (Sandbox.device_url s "/current_app") VUndef
               (Sandbox.config (Sandbox.accept_headers s) 10000) in
  fst (Sandbox.waitForApp 3 "pkg.x" 1000 s) = Ok (Some true) /\
  trace (snd (Sandbox.waitForApp 3 "pkg.x" 1000 s))
  = [Call req elsewhere; Slept 500; Call req there] /\
  now (snd (Sandbox.waitForApp 3 "pkg.x" 1000 s)) = now s + 660.
Proof. vm_compute. repeat split; reflexivity. Qed.

(** The same run, evaluated: two polls, the third answer is never asked
    for. *)
Example waitForApp_1000_run :
  let elsewhere := Ok (http 200 (VObj [("package_name", VStr "com.android.launcher")])) in
  let s := fresh (E := scripted) [(elsewhere, 80%N); (elsewhere, 80%N); (elsewhere, 80%N)] in
  fst (Sandbox.waitForApp 3 "pkg.x" 1000 s) = Ok (Some false) /\
  length (answers (trace (snd (Sandbox.waitForApp 3 "pkg.x" 1000 s)))) = 2%nat /\
  now (snd (Sandbox.waitForApp 3 "pkg.x" 1000 s)) = 1160.
Proof. cbv zeta. repeat split; reflexivity. Qed.

(** ** Best-effort operations *)

Section BestEffort.
Context {E : Environment}.
Implicit Types s : Sys (E := E).

Lemma post_input_best_effort (suffix : string) (payload : JsVal) (timeout : Z)
  (operation doing : string) :
  best_effort (E := E) (Sandbox.post_input suffix payload timeout operation doing) tt.
Proof.
  intros s. unfold Sandbox.post_input, console. unfold_monad. cbv beta.
  set (req := Axios POST _ payload _).
  pose proof (send_trace req s) as Ht.
  destruct (send req s) as [[resp|e] s1] eqn:Hs; cbn [fst snd] in *.
  - destruct (get_prop resp "status") as [status|e1] eqn:Hst.
    + destruct (strict_eq status (VNum 200)) eqn:H200; cbn [negb].
      * exists tt, [Call req (Ok resp)], s1. split; [reflexivity|].
        split; [exact Ht|]. cbn. unfold field. rewrite Hst, H200. discriminate.
      * eexists tt, [Call req (Ok resp); Console Warn _], _.
        split; [reflexivity|]. cbn. rewrite Ht, <- app_assoc.
        split; [reflexivity|]. intros _. split; [reflexivity|].
        eexists [_], _, _. reflexivity.
    + eexists tt, [Call req (Ok resp); Console Error _], _.
      split; [reflexivity|]. cbn. rewrite Ht, <- app_assoc.
      split; [reflexivity|]. intros _. split; [reflexivity|].
      eexists [_], _, _. reflexivity.
  - eexists tt, [Call req (Throw e); Console Error _], _.
    split; [reflexivity|]. cbn. rewrite Ht, <- app_assoc.
    split; [reflexivity|]. intros _. split; [reflexivity|].
    eexists [_], _, _. reflexivity.
Qed.

Lemma shell_best_effort (command : string) :
  best_effort (E := E) (Sandbox.shell command) (VStr EmptyString).
Proof.
  intros s. unfold Sandbox.shell, console. unfold_monad. cbv beta.
  set (req := Axios POST _ _ _).
  pose proof (send_trace req s) as Ht.
  destruct (send req s) as [[resp|e] s1] eqn:Hs; cbn [fst snd] in *.
  - destruct (get_prop resp "status") as [status|e1] eqn:Hst.
    + destruct (strict_eq status (VNum 200)) eqn:H200.
      * destruct (get_prop resp "data") as [result|e2].
        -- destruct (get_prop result "output") as [output|e3].
           ++ eexists _, [Call req (Ok resp)], s1. split; [reflexivity|].
              split; [exact Ht|]. cbn. unfold field. rewrite Hst, H200. discriminate.
           ++ eexists _, [Call req (Ok resp); Console Error _], _.
              split; [reflexivity|]. cbn. rewrite Ht, <- app_assoc.
              split; [reflexivity|]. unfold field. rewrite Hst, H200. discriminate.
        -- eexists _, [Call req (Ok resp); Console Error _], _.
           split; [reflexivity|]. cbn. rewrite Ht, <- app_assoc.
           split; [reflexivity|]. unfold field. rewrite Hst, H200. discriminate.
      * eexists _, [Call req (Ok resp); Console Warn _], _.
        split; [reflexivity|]. cbn. rewrite Ht, <- app_assoc.
        split; [reflexivity|]. intros _. split; [reflexivity|].
        eexists [_], _, _. reflexivity.
    + eexists _, [Call req (Ok resp); Console Error _], _.
      split; [reflexivity|]. cbn. rewrite Ht, <- app_assoc.
      split; [reflexivity|]. intros _. split; [reflexivity|].
      eexists [_], _, _. reflexivity.
  - eexists _, [Call req (Throw e); Console Error _], _.
    split; [reflexivity|]. cbn. rewrite Ht, <- app_assoc.
    split; [reflexivity|]. intros _. split; [reflexivity|].
    eexists [_], _, _. reflexivity.
Qed.

Lemma screenshot_best_effort :
  best_effort (E := E) Sandbox.screenshot (Some []).
Proof.
  intros s. unfold Sandbox.screenshot, console. unfold_monad. cbv beta.
  set (req := Axios GET _ VUndef _).
  pose proof (send_trace req s) as Ht.
  destruct (send req s) as [[resp|e] s1] eqn:Hs; cbn [fst snd] in *.
  2:{ eexists _, [Call req (Throw e); Console Error _], _.
      split; [reflexivity|]. cbn. rewrite Ht, <- app_assoc.
      split; [reflexivity|]. intros _. split; [reflexivity|].
      eexists [_], _, _. reflexivity. }
  destruct (get_prop resp "status") as [status|e1] eqn:Hst.
  2:{ eexists _, [Call req (Ok resp); Console Error _], _.
      split; [reflexivity|]. cbn. rewrite Ht, <- app_assoc.
      split; [reflexivity|]. intros _. split; [reflexivity|].
      eexists [_], _, _. reflexivity. }
  destruct (strict_eq status (VNum 200)) eqn:H200.
  2:{ eexists _, [Call req (Ok resp); Console Warn _], _.
      split; [reflexivity|]. cbn. rewrite Ht, <- app_assoc.
      split; [reflexivity|]. intros _. split; [reflexivity|].
      eexists [_], _, _. reflexivity. }
  assert (Hok : failed (Ok resp) = false).
  { cbn. unfold field. now rewrite Hst, H200. }
  destruct (get_prop resp "data") as [result|e2].
  2:{ eexists _, [Call req (Ok resp); Console Error _], _.
      split; [reflexivity|]. cbn - [failed]. rewrite Ht, <- app_assoc.
      split; [reflexivity|]. rewrite Hok. discriminate. }
  destruct (get_prop result "image_data") as [image_data|e3].
  2:{ eexists _, [Call req (Ok resp); Console Error _], _.
      split; [reflexivity|]. cbn - [failed]. rewrite Ht, <- app_assoc.
      split; [reflexivity|]. rewrite Hok. discriminate. }
  destruct (truthy image_data).
  { destruct (Buffer_from_base64 image_data) as [buffer|e4].
    - eexists _, [Call req (Ok resp)], s1.
      split; [reflexivity|]. split; [exact Ht|].
      cbn - [failed]. rewrite Hok. discriminate.
    - eexists _, [Call req (Ok resp); Console Error _], _.
      split; [reflexivity|]. cbn - [failed]. rewrite Ht, <- app_assoc.
      split; [reflexivity|]. rewrite Hok. discriminate. }
  destruct (get_prop result "image_url") as [image_url|e5].
  2:{ eexists _, [Call req (Ok resp); Console Error _], _.
      split; [reflexivity|]. cbn - [failed]. rewrite Ht, <- app_assoc.
      split; [reflexivity|]. rewrite Hok. discriminate. }
  destruct (truthy image_url).
  2:{ eexists _, [Call req (Ok resp)], s1.
      split; [reflexivity|]. split; [exact Ht|].
      cbn - [failed]. rewrite Hok. discriminate. }
  set (req2 := Axios GET (to_str image_url) VUndef _).
  pose proof (send_trace req2 s1) as Ht2.
  destruct (send req2 s1) as [[imageResponse|e6] s2] eqn:Hs2; cbn [fst snd] in *.
  2:{ eexists _, [Call req (Ok resp); Call req2 (Throw e6); Console Error _], _.
      split; [reflexivity|]. cbn - [failed]. rewrite Ht2, Ht, <- !app_assoc.
      split; [reflexivity|]. intros _. split; [reflexivity|].
      eexists [_; _], _, _. reflexivity. }
  destruct (get_prop imageResponse "status") as [imageStatus|e7] eqn:Hst2.
  2:{ eexists _, [Call req (Ok resp); Call req2 (Ok imageResponse); Console Error _], _.
      split; [reflexivity|]. cbn - [failed]. rewrite Ht2, Ht, <- !app_assoc.
      split; [reflexivity|]. intros _. split; [reflexivity|].
      eexists [_; _], _, _. reflexivity. }
  destruct (strict_eq imageStatus (VNum 200)) eqn:H200'.
  2:{ eexists _, [Call req (Ok resp); Call req2 (Ok imageResponse); Console Warn _], _.
      split; [reflexivity|]. cbn - [failed]. rewrite Ht2, Ht, <- !app_assoc.
      split; [reflexivity|]. intros _. split; [reflexivity|].
      eexists [_; _], _, _. reflexivity. }
  assert (Hok2 : failed (Ok imageResponse) = false).
  { cbn. unfold field. now rewrite Hst2, H200'. }
  destruct (get_prop imageResponse "data") as [body|e8].
  2:{ eexists _, [Call req (Ok resp); Call req2 (Ok imageResponse); Console Error _], _.
      split; [reflexivity|]. cbn - [failed]. rewrite Ht2, Ht, <- !app_assoc.
      split; [reflexivity|]. rewrite Hok, Hok2. discriminate. }
  destruct (Buffer_from body) as [buffer|e9].
  - eexists _, [Call req (Ok resp); Call req2 (Ok imageResponse)], _.
    split; [reflexivity|]. cbn - [failed]. rewrite Ht2, Ht, <- !app_assoc.
    split; [reflexivity|]. rewrite Hok, Hok2. discriminate.
  - eexists _, [Call req (Ok resp); Call req2 (Ok imageResponse); Console Error _], _.
    split; [reflexivity|]. cbn - [failed]. rewrite Ht2, Ht, <- !app_assoc.
    split; [reflexivity|]. rewrite Hok, Hok2. discriminate.
Qed.

End BestEffort.

(** C8: the eight input methods, [screenshot] and [shell] never raise.
    When a request of theirs fails (it throws, or the response has a
    status other than 200) they log a line on the console and return
    their default: nothing for the input methods, the empty buffer for
    [screenshot], the empty string for [shell]. *)
Theorem best_effort_operations (E : Environment) :
  (forall x y, best_effort (E := E) (Sandbox.tap x y) tt) /\
  (forall x y, best_effort (E := E) (Sandbox.doubleTap x y) tt) /\
  (forall start end_ duration_ms,
      best_effort (E := E) (Sandbox.swipe start end_ duration_ms) tt) /\
  (forall x y duration_ms, best_effort (E := E) (Sandbox.longPress x y duration_ms) tt) /\
  (forall center distance, best_effort (E := E) (Sandbox.pinchOut center distance) tt) /\
  (forall text, best_effort (E := E) (Sandbox.typeText text) tt) /\
  (forall key, best_effort (E := E) (Sandbox.pressKey key) tt) /\
  (forall keys, best_effort (E := E) (Sandbox.pressCombo keys) tt) /\
  best_effort (E := E) Sandbox.screenshot (Some []) /\
  (forall command, best_effort (E := E) (Sandbox.shell command) (VStr EmptyString)).
Proof.
  repeat split; intros;
    try apply post_input_best_effort;
    try apply screenshot_best_effort;
    try apply shell_best_effort.
Qed.

(** The network is down: each of them logs and returns its default. *)
Example best_effort_offline :
  let s := fresh (E := scripted) [] in
  fst (Sandbox.tap 540 1800 s) = Ok tt /\
  fst (Sandbox.screenshot s) = Ok (Some []) /\
  fst (Sandbox.shell "ls" s) = Ok (VStr EmptyString) /\
  answers (trace (snd (Sandbox.shell "ls" s))) = [Throw network_down] /\
  last (trace (snd (Sandbox.shell "ls" s))) =
    Some (Console Error "Error executing shell command: Network Error").
Proof. cbv zeta. repeat split; reflexivity. Qed.

(** ** The stream: [start], [getStatus], [updateSettings] *)

Section Streaming.
Context {E : Environment}.
Implicit Types s : Sys (E := E).

Lemma uuidv4_state s :
  uuidv4 s =
  (Ok (fst (uuid E (remote s))),
   set_world (snd (uuid E (remote s))) (now s) (trace s) s).
Proof. unfold uuidv4. destruct (uuid E (remote s)); reflexivity. Qed.

Lemma stream_error (msg : string) {A : Type} s :
  throw_new (A := A) "StreamError" msg s = (Throw (error StreamError msg), s).
Proof. reflexivity. Qed.

(** [start] on an idle manager, step by step. *)
Lemma start_idle s (options : JsVal) :
  isStreaming (stream s) = false ->
  let opts := Stream.or_default options Stream.default_options in
  Stream.start options s =
  match get_prop opts "quality" with
  | Throw e =>
      (Throw (error StreamError ("Failed to start stream: " +:+ message e)), drawn s)
  | Ok _ =>
      match send (start_request s (fst (uuid E (remote s))) options) (drawn s) with
      | (Ok resp, s1) =>
          match get_prop resp "streamUrl" with
          | Ok url =>
              (Ok url, Stream.set_isStreaming true (Stream.set_streamUrl url s1))
          | Throw e =>
              (Throw (error StreamError ("Failed to start stream: " +:+ message e)), s1)
          end
      | (Throw e, s1) =>
          (Throw (error StreamError ("Failed to start stream: " +:+ message e)), s1)
      end
  end.
Proof.
  intros Hidle opts. unfold Stream.start, start_request. fold opts.
  unfold try_catch at 1. unfold bind at 1. unfold gets at 1. cbv beta.
  rewrite Hidle. unfold bind at 1. rewrite uuidv4_state.
  unfold bind at 1, modify at 1. fold (drawn s).
  unfold bind at 1, gets at 1. unfold bind at 1, gets at 1.
  unfold bind at 1, lift at 1.
  assert (Hq : forall k, get_prop opts k =
                 match get_prop opts "quality" with
                 | Ok _ => Ok (field opts k) | Throw e => Throw e end).
  { intros k. unfold field. destruct opts; reflexivity. }
  rewrite (Hq "audio").
  destruct (get_prop opts "quality") as [q | e] eqn:Hquality; [| reflexivity].
  rewrite (get_prop_field _ _ _ Hquality).
  unfold bind at 1, lift at 1. unfold bind at 1, apiClient.
  replace (deviceId (drawn s)) with (deviceId s) by reflexivity.
  replace (opt_str (streamId (stream (drawn s))))
    with (VStr (fst (uuid E (remote s)))) by reflexivity.
  destruct (send _ (drawn s)) as [[resp | e] s1]; [| reflexivity].
  unfold bind at 1, lift at 1.
  destruct (get_prop resp "streamUrl") as [url | e]; reflexivity.
Qed.

Lemma start_streaming s (options : JsVal) :
  isStreaming (stream s) = true ->
  Stream.start options s = (Ok (streamUrl (stream s)), s).
Proof.
  intros Hon. unfold Stream.start, try_catch, bind, gets. now rewrite Hon.
Qed.

End Streaming.

(** X1: [start] is idempotent once it has succeeded: a further call,
    with whatever options, returns the same url, makes no request and
    changes nothing. *)
Theorem stream_start_twice (E : Environment) (s s1 : Sys (E := E))
  (options options' url : JsVal) :
  Stream.start options s = (Ok url, s1) ->
  Stream.start options' s1 = (Ok url, s1).
Proof.
  destruct (isStreaming (stream s)) eqn:Hon.
  - rewrite (start_streaming s options Hon). intros [= <- <-].
    now apply start_streaming.
  - rewrite (start_idle s options Hon).
    destruct (get_prop _ "quality") as [q | e]; [| discriminate].
    destruct (send _ (drawn s)) as [[resp | e] s0]; [| discriminate].
    destruct (get_prop resp "streamUrl") as [u | e]; [| discriminate].
    intros [= <- <-]. now rewrite start_streaming.
Qed.

Lemma stream_start_twice_witness :
  let s := fresh (E := scripted) [(Ok (VObj [("streamUrl", VStr "wss://x")]), 5%N)] in
  Stream.start VUndef (snd (Stream.start VUndef s))
  = (Ok (VStr "wss://x"), snd (Stream.start VUndef s)).
Proof.
  intros s.
  apply (stream_start_twice scripted s (snd (Stream.start VUndef s)) VUndef VUndef).
  reflexivity.
Defined.

(** X2: when [start] raises, the manager was idle and what it raises is
    a [StreamError] that quotes the cause.  The manager is still idle
    and its url is the one it had, but the id it tracks has been
    replaced by the one drawn for the stream that did not start. *)
Theorem stream_start_raises (E : Environment) (s s1 : Sys (E := E))
  (options : JsVal) (e : JsError) :
  Stream.start options s = (Throw e, s1) ->
  isStreaming (stream s) = false /\
  (exists cause, e = error StreamError ("Failed to start stream: " +:+ cause)) /\
  stream s1 =
    mkStream (Some (fst (uuid E (remote s)))) (streamUrl (stream s)) false.
Proof.
  destruct (isStreaming (stream s)) eqn:Hon.
  - rewrite (start_streaming s options Hon). discriminate.
  - rewrite (start_idle s options Hon).
    assert (Hdrawn : stream (drawn s) =
              mkStream (Some (fst (uuid E (remote s)))) (streamUrl (stream s)) false).
    { unfold drawn, Stream.set_streamId. cbn. now rewrite Hon. }
    destruct (get_prop _ "quality") as [q | e0].
    + pose proof (send_stream (start_request s (fst (uuid E (remote s))) options)
                    (drawn s)) as Hsend.
      destruct (send _ (drawn s)) as [[resp | e0] s0]; cbn [snd] in Hsend.
      * destruct (get_prop resp "streamUrl") as [u | e0]; [discriminate |].
        intros [= <- <-]. rewrite Hsend. eauto.
      * intros [= <- <-]. rewrite Hsend. eauto.
    + intros [= <- <-]. eauto.
Qed.

Lemma stream_start_raises_witness :
  let s := fresh (E := scripted) [] in
  Stream.start VUndef s
  = (Throw (error StreamError "Failed to start stream: Network Error"),
     snd (Stream.start VUndef s)) /\
  stream (snd (Stream.start VUndef s))
  = mkStream (Some "1b9d6bcd-bbfd-4b2d-9b5d-ab8dfbbd4bed") VNull false.
Proof.
  intros s. split; [reflexivity |].
  exact (proj2 (proj2 (stream_start_raises scripted s (snd (Stream.start VUndef s))
                         VUndef _ eq_refl))).
Defined.

(** X3: a successful [start] on an idle manager has made one request:
    the POST of the device id, of the id it has just drawn, and of the
    quality and audio options (8 and [true] when the options are left
    out).  The url it returns and stores is whatever the answer has
    under [streamUrl], [undefined] if it has no such field; the manager
    is streaming in either case. *)
Theorem stream_start_request (E : Environment) (s s1 : Sys (E := E))
  (options url : JsVal) :
  isStreaming (stream s) = false ->
  Stream.start options s = (Ok url, s1) ->
  let id := fst (uuid E (remote s)) in
  exists resp,
    trace s1 = trace s ++ [Call (start_request s id options) (Ok resp)] /\
    url = field resp "streamUrl" /\
    stream s1 = mkStream (Some id) url true.
Proof.
  intros Hon. rewrite (start_idle s options Hon).
  destruct (get_prop _ "quality") as [q | e]; [| discriminate].
  pose proof (send_stream (start_request s (fst (uuid E (remote s))) options)
                (drawn s)) as Hstream.
  pose proof (send_trace (start_request s (fst (uuid E (remote s))) options)
                (drawn s)) as Htrace.
  destruct (send _ (drawn s)) as [[resp | e] s0]; [| discriminate].
  cbn [fst snd] in Hstream, Htrace.
  destruct (get_prop resp "streamUrl") as [u | e] eqn:Hurl; [| discriminate].
  intros [= <- <-] id. exists resp. split; [| split].
  - cbn. exact Htrace.
  - symmetry. now apply get_prop_field.
  - cbn. now rewrite Hstream.
Qed.

Lemma stream_start_request_witness :
  let s := fresh (E := scripted) [(Ok (VObj []), 5%N)] in
  isStreaming (stream s) = false /\
  fst (Stream.start VUndef s) = Ok VUndef /\
  start_request s "1b9d6bcd-bbfd-4b2d-9b5d-ab8dfbbd4bed" VUndef
  = ApiClient POST "/stream"
      (VObj [("deviceId", VUndef);
             ("streamId", VStr "1b9d6bcd-bbfd-4b2d-9b5d-ab8dfbbd4bed");
             ("quality", VNum 8); ("audio", VBool true)]) /\
  exists resp,
    trace (snd (Stream.start VUndef s))
    = trace s ++ [Call (start_request s (fst (uuid scripted (remote s))) VUndef) (Ok resp)] /\
    VUndef = field resp "streamUrl" /\
    stream (snd (Stream.start VUndef s))
    = mkStream (Some (fst (uuid scripted (remote s)))) VUndef true.
Proof.
  intros s. split; [reflexivity | split; [reflexivity | split; [reflexivity |]]].
  apply (stream_start_request scripted s (snd (Stream.start VUndef s)) VUndef VUndef);
    reflexivity.
Defined.

Lemma get_prop_nullish (v : JsVal) (k : string) :
  get_prop v k =
  if nullish v
  then Throw (error TypeError ("Cannot read properties of " +:+ to_str v))
  else Ok (field v k).
Proof. unfold field. destruct v; reflexivity. Qed.

(** X4: [getStatus] answers [{ isStreaming: false }] by itself, without
    a request, when the manager is idle or tracks no id.  Otherwise it
    asks for the status of the tracked stream and returns the four
    fields of the answer, [active] under the name [isStreaming]; a
    failed request, or an answer that is [null] or [undefined], is a
    [StreamError].  The manager's own flag, url and id stay as they were
    whatever the answer says. *)
Theorem stream_getStatus_spec (E : Environment) (s : Sys (E := E)) :
  let req :=
    ApiClient GET
      ("/stream/" +:+ to_str (opt_str (streamId (stream s))) +:+ "/status") VUndef in
  if Stream.no_stream (stream s) then
    Stream.getStatus s = (Ok (VObj [("isStreaming", VBool false)]), s)
  else
    stream (snd (send req s)) = stream s /\
    match fst (send req s) with
    | Ok status =>
        if nullish status then
          exists cause,
            Stream.getStatus s =
            (Throw (error StreamError ("Failed to get stream status: " +:+ cause)),
             snd (send req s))
        else
          Stream.getStatus s =
          (Ok (VObj [("isStreaming", field status "active");
                     ("viewers", field status "viewers");
                     ("startTime", field status "startTime");
                     ("quality", field status "quality")]),
           snd (send req s))
    | Throw e =>
        Stream.getStatus s =
        (Throw (error StreamError ("Failed to get stream status: " +:+ message e)),
         snd (send req s))
    end.
Proof.
  intros req. unfold Stream.getStatus, try_catch, bind, gets, apiClient, lift, ret.
  destruct (Stream.no_stream (stream s)); [reflexivity |].
  split; [apply send_stream |]. fold req.
  destruct (send req s) as [[status | e] s1]; cbn [fst snd]; [| reflexivity].
  rewrite !get_prop_nullish.
  destruct (nullish status); [eexists |]; reflexivity.
Qed.

(** X5: [updateSettings] on a manager that is idle or tracks no id
    raises a [StreamError] without making a request.  Otherwise it PUTs
    the options (an empty object when they are left out) to the tracked
    stream and returns [true] for any answer; a failed request is a
    [StreamError].  Nothing of the manager changes: the settings are not
    kept on this side. *)
Theorem stream_updateSettings_spec (E : Environment) (s : Sys (E := E))
  (options : JsVal) :
  let req :=
    ApiClient PUT ("/stream/" +:+ to_str (opt_str (streamId (stream s))))
      (Stream.or_default options (VObj [])) in
  if Stream.no_stream (stream s) then
    Stream.updateSettings options s =
    (Throw (error StreamError
              "Failed to update stream settings: No active stream to update"), s)
  else
    stream (snd (send req s)) = stream s /\
    Stream.updateSettings options s =
    (match fst (send req s) with
     | Ok _ => Ok true
     | Throw e =>
         Throw (error StreamError
                  ("Failed to update stream settings: " +:+ message e))
     end, snd (send req s)).
Proof.
  intros req. unfold Stream.updateSettings, try_catch, bind, gets, apiClient, ret.
  destruct (Stream.no_stream (stream s)); [reflexivity |].
  split; [apply send_stream |]. fold req.
  destruct (send req s) as [[a | e] s1]; reflexivity.
Qed.

(** X6: [stop] after a successful [start] asks for the teardown of the
    stream under the id that [start] drew; when that request succeeds
    the manager is idle again, its url is [null], and it still tracks
    that id. *)
Theorem stream_stop_after_start (E : Environment) (s s1 : Sys (E := E))
  (options url : JsVal) :
  isStreaming (stream s) = false ->
  Stream.start options s = (Ok url, s1) ->
  let id := fst (uuid E (remote s)) in
  let req := ApiClient DELETE ("/stream/" +:+ id) VUndef in
  trace (snd (Stream.stop s1)) = trace s1 ++ [Call req (fst (send req s1))] /\
  (forall a, fst (send req s1) = Ok a ->
     fst (Stream.stop s1) = Ok true /\
     stream (snd (Stream.stop s1)) = mkStream (Some id) VNull false).
Proof.
  intros Hidle Hstart id req.
  assert (Hs1 : stream s1 = mkStream (Some id) url true).
  { rewrite (start_idle s options Hidle) in Hstart.
    destruct (get_prop _ "quality") as [q | e]; [| discriminate].
    pose proof (send_stream (start_request s id options) (drawn s)) as Hstream.
    fold id in Hstart.
    destruct (send _ (drawn s)) as [[resp | e] s0]; [| discriminate].
    destruct (get_prop resp "streamUrl") as [u | e]; [| discriminate].
    injection Hstart as <- <-. cbn in *. now rewrite Hstream. }
  pose proof (send_stream req s1) as Hstream.
  pose proof (send_trace req s1) as Htrace.
  unfold Stream.stop, try_catch, bind, gets, modify, ret.
  rewrite Hs1. cbn [isStreaming negb streamId opt_str to_str]. fold req.
  destruct (send req s1) as [[a | e] s2]; cbn [fst snd] in *.
  - split; [exact Htrace |]. intros _ _. split; [reflexivity |].
    cbn. now rewrite Hstream, Hs1.
  - split; [exact Htrace |]. intros a [=].
Qed.

Lemma stream_stop_after_start_witness :
  let s :=
    fresh (E := scripted)
      [(Ok (VObj [("streamUrl", VStr "wss://x")]), 5%N); (Ok VUndef, 2%N)] in
  requests (trace (snd (Stream.stop (snd (Stream.start VUndef s)))))
  = [start_request s "1b9d6bcd-bbfd-4b2d-9b5d-ab8dfbbd4bed" VUndef;
     ApiClient DELETE "/stream/1b9d6bcd-bbfd-4b2d-9b5d-ab8dfbbd4bed" VUndef] /\
  fst (Stream.stop (snd (Stream.start VUndef s))) = Ok true /\
  stream (snd (Stream.stop (snd (Stream.start VUndef s))))
  = mkStream (Some "1b9d6bcd-bbfd-4b2d-9b5d-ab8dfbbd4bed") VNull false.
Proof.
  intros s. split; [reflexivity |].
  exact (proj2 (stream_stop_after_start scripted s (snd (Stream.start VUndef s))
                  VUndef (VStr "wss://x") eq_refl eq_refl)
           VUndef eq_refl).
Defined.

(** X7: once [stop] has returned, [getStatus] answers
    [{ isStreaming: false }] without asking the remote side. *)
Theorem stream_getStatus_after_stop (E : Environment) (s s1 : Sys (E := E))
  (b : bool) :
  Stream.stop s = (Ok b, s1) ->
  Stream.getStatus s1 = (Ok (VObj [("isStreaming", VBool false)]), s1).
Proof.
  intros Hstop.
  assert (Hidle : isStreaming (stream s1) = false).
  { revert Hstop. unfold Stream.stop, try_catch, bind, gets, modify, ret.
    destruct (isStreaming (stream s)) eqn:Hon; cbn [negb].
    - destruct (send _ s) as [[a | e] s2]; [| discriminate].
      now intros [= _ <-].
    - now intros [= _ <-]. }
  unfold Stream.getStatus, try_catch, bind, gets, ret, Stream.no_stream.
  now rewrite Hidle.
Qed.

Lemma stream_getStatus_after_stop_witness :
  let s :=
    set_stream (mkStream (Some "id") (VStr "wss://x") true)
      (fresh (E := scripted) [(Ok VUndef, 2%N)]) in
  Stream.getStatus (snd (Stream.stop s))
  = (Ok (VObj [("isStreaming", VBool false)]), snd (Stream.stop s)).
Proof.
  intros s. apply (stream_getStatus_after_stop scripted s _ true). reflexivity.
Defined.

(** ** Recordings: [start], [saveRecording], [deleteRecording], [getStatus] *)

Section RecordingSteps.
Context {E : Environment}.
Implicit Types s : Sys (E := E).

Lemma recording_start_idle s (options : Recording.Options) :
  isRecording (record s) = false ->
  Recording.start options s =
  match send (start_command options (fst (uuid E (remote s)))) (tracked s) with
  | (Ok _, s1) =>
      (Ok (Some (fst (uuid E (remote s)))),
       Recording.set_recordingStartTime (Some (now s1))
         (Recording.set_isRecording true s1))
  | (Throw _, s1) => (Throw not_a_constructor, s1)
  end.
Proof.
  intros Hidle.
  unfold Recording.start, try_catch, bind, gets, modify, executeShellCommand,
    Date_now.
  cbv beta. rewrite Hidle, uuidv4_state. fold (tracked s).
  replace (recordingId (record (tracked s)))
    with (Some (fst (uuid E (remote s)))) by reflexivity.
  fold (start_command options (fst (uuid E (remote s)))).
  pose proof (send_record (start_command options (fst (uuid E (remote s))))
                (tracked s)) as Hrecord.
  destruct (send _ (tracked s)) as [[out | e] s1]; [| reflexivity].
  cbn [snd] in Hrecord. cbn. now rewrite Hrecord.
Qed.

Lemma recording_start_busy s (options : Recording.Options) :
  isRecording (record s) = true ->
  Recording.start options s = (Ok (recordingId (record s)), s).
Proof.
  intros Hon. unfold Recording.start, try_catch, bind, gets. now rewrite Hon.
Qed.

End RecordingSteps.

(** X8: [start] of a recording is idempotent once it has succeeded: a
    further call, with whatever options, returns the same id, runs no
    second [screenrecord] and changes nothing. *)
Theorem recording_start_twice (E : Environment) (s s1 : Sys (E := E))
  (options options' : Recording.Options) (id : option string) :
  Recording.start options s = (Ok id, s1) ->
  Recording.start options' s1 = (Ok id, s1).
Proof.
  destruct (isRecording (record s)) eqn:Hon.
  - rewrite (recording_start_busy s options Hon). intros [= <- <-].
    now apply recording_start_busy.
  - rewrite (recording_start_idle s options Hon).
    pose proof (send_record (start_command options (fst (uuid E (remote s))))
                  (tracked s)) as Hrecord.
    destruct (send _ (tracked s)) as [[out | e] s0]; [| discriminate].
    cbn [snd] in Hrecord. intros [= <- <-].
    rewrite recording_start_busy; [| reflexivity].
    cbn. now rewrite Hrecord.
Qed.

Lemma recording_start_twice_witness :
  let s := fresh (E := scripted) [(Ok (VStr EmptyString), 40%N)] in
  Recording.start Recording.default_options
    (snd (Recording.start Recording.default_options s))
  = (Ok (Some "1b9d6bcd-bbfd-4b2d-9b5d-ab8dfbbd4bed"),
     snd (Recording.start Recording.default_options s)).
Proof.
  intros s.
  apply (recording_start_twice scripted s _ Recording.default_options).
  reflexivity.
Defined.

(** X9: a successful [start] on an idle manager has run one command,
    the [screenrecord] of the options into the file named after the id
    it has just drawn, and returns that id.  The manager tracks the id,
    is recording, and takes the time at which the command returned as
    the start of the recording. *)
Theorem recording_start_success (E : Environment) (s s1 : Sys (E := E))
  (options : Recording.Options) (id : option string) :
  isRecording (record s) = false ->
  Recording.start options s = (Ok id, s1) ->
  let fresh_id := fst (uuid E (remote s)) in
  id = Some fresh_id /\
  requests (trace s1) = requests (trace s) ++ [start_command options fresh_id] /\
  record s1 = mkRecord (Some fresh_id) true (Some (now s1)).
Proof.
  intros Hidle. rewrite (recording_start_idle s options Hidle).
  pose proof (send_record (start_command options (fst (uuid E (remote s))))
                (tracked s)) as Hrecord.
  pose proof (send_trace (start_command options (fst (uuid E (remote s))))
                (tracked s)) as Htrace.
  destruct (send _ (tracked s)) as [[out | e] s0]; [| discriminate].
  cbn [fst snd] in Hrecord, Htrace. intros [= <- <-] fresh_id.
  split; [reflexivity |]. split.
  - cbn. rewrite Htrace, requests_app. reflexivity.
  - cbn. now rewrite Hrecord.
Qed.

Lemma recording_start_success_witness :
  let s := fresh (E := scripted) [(Ok (VStr EmptyString), 40%N)] in
  start_command Recording.default_options "1b9d6bcd-bbfd-4b2d-9b5d-ab8dfbbd4bed"
  = ShellCommand
      "screenrecord --size 1280x720 --bit-rate 8M --audio-source=mic --time-limit 180 /sdcard/recording_1b9d6bcd-bbfd-4b2d-9b5d-ab8dfbbd4bed.mp4" /\
  record (snd (Recording.start Recording.default_options s))
  = mkRecord (Some "1b9d6bcd-bbfd-4b2d-9b5d-ab8dfbbd4bed") true (Some 40).
Proof.
  intros s. split; [reflexivity |].
  exact (proj2 (proj2 (recording_start_success scripted s _
                         Recording.default_options _ eq_refl eq_refl))).
Defined.



(** X11: [deleteRecording] of a recording that is not the one in
    progress removes the file named after the id with [rm -f].  When
    the command succeeds it returns [true], and the manager forgets the
    tracked id if that is the one deleted and keeps it otherwise; a
    recording in progress goes on.  When the command fails it raises
    (the [TypeError] again) and the manager keeps what it tracked. *)
Theorem deleteRecording_inactive (E : Environment) (s : Sys (E := E))
  (arg : option string) :
  let id := match arg with Some i => Some i | None => recordingId (record s) end in
  let req := ShellCommand ("rm -f " +:+ Recording.recording_path id) in
  Recording.falsy_id id = false ->
  isRecording (record s) && bool_decide (id = recordingId (record s)) = false ->
  match send req s with
  | (Ok _, s1) =>
      Recording.deleteRecording arg s =
      (Ok true,
       if bool_decide (id = recordingId (record s))
       then Recording.set_recordingId None s1 else s1) /\
      isRecording (record s1) = isRecording (record s)
  | (Throw _, s1) =>
      Recording.deleteRecording arg s = (Throw not_a_constructor, s1) /\
      record s1 = record s
  end.
Proof.
  intros id req Hid Hother.
  unfold Recording.deleteRecording, Files.deleteFile, try_catch, bind, gets,
    modify, ret, executeShellCommand.
  cbv beta. fold id. rewrite Hid, Hother. cbn [ret]. fold req.
  pose proof (send_record req s) as Hrecord.
  destruct (send req s) as [[out | e] s1]; cbn [snd] in Hrecord.
  - rewrite Hrecord. split; [| reflexivity].
    destruct (bool_decide (id = recordingId (record s))); reflexivity.
  - split; [reflexivity | exact Hrecord].
Qed.

Lemma deleteRecording_inactive_witness :
  let s :=
    set_record (mkRecord (Some "r-2") true (Some 0))
      (fresh (E := scripted) [(Ok (VStr EmptyString), 4%N)]) in
  requests (trace (snd (Recording.deleteRecording (Some "r-1") s)))
  = [ShellCommand "rm -f /sdcard/recording_r-1.mp4"] /\
  fst (Recording.deleteRecording (Some "r-1") s) = Ok true /\
  record (snd (Recording.deleteRecording (Some "r-1") s)) = record s.
Proof.
  intros s. split; [reflexivity |].
  destruct (deleteRecording_inactive scripted s (Some "r-1") eq_refl eq_refl)
    as [-> _].
  split; reflexivity.
Defined.

(** X12: [getStatus] of the record manager only reads: the state is as
    before.  After a successful [start], and for as long as the manager
    is not touched, it reports the recording with its id and the whole
    seconds of the clock since the start; after a successful [stop] it
    reports no recording and no duration, with the id of the recording
    that was stopped. *)
Theorem recording_getStatus_lifecycle (E : Environment) (s s1 s2 : Sys (E := E)) :
  snd (Recording.getStatus s) = s /\
  (forall options id,
     isRecording (record s) = false ->
     Recording.start options s = (Ok id, s1) ->
     record s2 = record s1 ->
     fst (Recording.getStatus s2) =
     Ok (VObj [("isRecording", VBool true); ("recordingId", opt_str id);
               ("duration", VNum ((now s2 - now s1) / 1000))])) /\
  (forall path,
     Recording.stop s = (Ok path, s1) ->
     path = Recording.recording_path (recordingId (record s)) /\
     fst (Recording.getStatus s1) =
     Ok (VObj [("isRecording", VBool false);
               ("recordingId",
                if Recording.falsy_id (recordingId (record s)) then VNull
                else opt_str (recordingId (record s)))])).
Proof.
  split; [| split].
  - unfold Recording.getStatus, bind, gets, ret, Date_now.
    destruct (negb _ && _); [reflexivity |].
    destruct (isRecording (record s)); [| reflexivity].
    destruct (recordingStartTime (record s)); reflexivity.
  - intros options id Hidle Hstart Hsame.
    rewrite (recording_start_idle s options Hidle) in Hstart.
    pose proof (send_record (start_command options (fst (uuid E (remote s))))
                  (tracked s)) as Hrecord.
    destruct (send _ (tracked s)) as [[out | e] s0]; [| discriminate].
    injection Hstart as <- <-. cbn [snd] in Hrecord.
    unfold Recording.getStatus, bind, gets, ret, Date_now. cbv beta.
    rewrite Hsame. cbn. rewrite Hrecord. reflexivity.
  - intros path. unfold Recording.stop, try_catch, bind, gets, modify,
      executeShellCommand. cbv beta.
    destruct (isRecording (record s)); [| discriminate]. cbn [negb ret].
    pose proof (send_record (ShellCommand "pkill -INT screenrecord") s) as Hr1.
    destruct (send (ShellCommand "pkill -INT screenrecord") s) as [[out | e] s3];
      cbn [snd] in Hr1; [| discriminate].
    destruct (sleep_state 2000 s3) as [rem [lag Hsl]]. rewrite Hsl. cbn [snd].
    set (s4 := Recording.set_isRecording false _).
    assert (H4 : record s4 = mkRecord (recordingId (record s)) false
                               (recordingStartTime (record s)))
      by (unfold s4; cbn; now rewrite Hr1).
    rewrite H4. cbn [recordingId].
    pose proof (fileExists_spec
                  (Recording.recording_path (recordingId (record s))) s4) as Hf.
    pose proof (send_record
                  (ShellCommand (Files.test_command
                     (Recording.recording_path (recordingId (record s))))) s4) as Hr5.
    destruct (send _ s4) as [a s5]. cbn [snd] in Hr5.
    destruct Hf as [r [-> _]].
    destruct r as [[|] | e]; cbn [ret negb]; try discriminate.
    intros [= <- <-]. split; [reflexivity |].
    unfold Recording.getStatus, bind, gets, ret. cbv beta.
    rewrite Hr5, H4. cbn [isRecording recordingId negb andb].
    destruct (Recording.falsy_id _); reflexivity.
Qed.

Lemma recording_getStatus_lifecycle_witness :
  let s := fresh (E := scripted) [(Ok (VStr EmptyString), 40%N)] in
  let s1 := snd (Recording.start Recording.default_options s) in
  let s2 := snd (Sandbox.wait 2500 s1) in
  fst (Recording.getStatus s2)
  = Ok (VObj [("isRecording", VBool true);
              ("recordingId", VStr "1b9d6bcd-bbfd-4b2d-9b5d-ab8dfbbd4bed");
              ("duration", VNum 2)]).
Proof.
  intros s s1 s2.
  exact (proj1 (proj2 (recording_getStatus_lifecycle scripted s s1 s2))
           Recording.default_options _ eq_refl eq_refl eq_refl).
Defined.

(** ** Apps: [install], [uninstall], [forceStop], [clearData], [launch] *)

Section AppSteps.
Context {E : Environment}.
Implicit Types s : Sys (E := E).

(** [isInstalled], step by step: one command, and what is read out of
    its answer. *)
Lemma isInstalled_step (pkg : string) s :
  exists r,
    Apps.isInstalled pkg s = (r, snd (send (list_packages pkg) s)) /\
    match listed pkg (fst (send (list_packages pkg) s)) with
    | Some b => r = Ok b
    | None => exists msg, r = Throw (error AppError msg)
    end.
Proof.
  unfold Apps.isInstalled, try_catch, bind, executeShellCommand, lift, listed.
  fold (list_packages pkg).
  destruct (send (list_packages pkg) s) as [[out | e] s1]; cbn [fst snd].
  - destruct (js_includes out _) as [b | e]; eexists; split; eauto.
  - eexists; split; eauto.
Qed.

(** The inverse reading: a result of [isInstalled] is what the answer to
    its command says. *)
Lemma isInstalled_returns (pkg : string) s s1 (b : bool) :
  Apps.isInstalled pkg s = (Ok b, s1) ->
  s1 = snd (send (list_packages pkg) s) /\
  exists out,
    fst (send (list_packages pkg) s) = Ok out /\
    js_includes out ("package:" +:+ pkg) = Ok b.
Proof.
  unfold Apps.isInstalled, try_catch, bind, executeShellCommand, lift.
  fold (list_packages pkg).
  destruct (send (list_packages pkg) s) as [[out | e] s0]; [| discriminate].
  destruct (js_includes out _) as [b' | e] eqn:Hb; [| discriminate].
  intros [= <- <-]. eauto.
Qed.

End AppSteps.

(** X13: the result of [uninstall] is the negation of what the last
    package listing it has looked at says.  When the first listing does
    not mention the package, that is the only command it runs and the
    result is [true]; [pm uninstall] runs only after a listing that
    mentions the package, and is followed by a second listing. *)
Theorem uninstall_returns (E : Environment) (s s1 : Sys (E := E))
  (pkg : string) (b : bool) :
  Apps.uninstall pkg s = (Ok b, s1) ->
  exists evs out,
    trace s1 = trace s ++ evs ++ [Call (list_packages pkg) (Ok out)] /\
    js_includes out ("package:" +:+ pkg) = Ok (negb b) /\
    (evs = [] \/
     exists out0 a,
       evs = [Call (list_packages pkg) (Ok out0); Call (pm_uninstall pkg) (Ok a)] /\
       js_includes out0 ("package:" +:+ pkg) = Ok true).
Proof.
  unfold Apps.uninstall, try_catch, bind, ret, executeShellCommand.
  fold (pm_uninstall pkg).
  destruct (Apps.isInstalled pkg s) as [[installed | e] s2] eqn:Hfirst;
    [| discriminate].
  apply isInstalled_returns in Hfirst as [-> [out0 [Hout0 Hin0]]].
  pose proof (send_trace (list_packages pkg) s) as Ht0. rewrite Hout0 in Ht0.
  destruct installed; cbn [negb].
  - pose proof (send_trace (pm_uninstall pkg)
                  (snd (send (list_packages pkg) s))) as Ht1.
    destruct (send (pm_uninstall pkg) _) as [[a | e] s3]; [| discriminate].
    cbn [fst snd] in Ht1.
    destruct (Apps.isInstalled pkg s3) as [[still | e] s4] eqn:Hlast;
      [| discriminate].
    apply isInstalled_returns in Hlast as [-> [out [Hout Hin]]].
    pose proof (send_trace (list_packages pkg) s3) as Ht2. rewrite Hout in Ht2.
    intros [= <- <-].
    exists [Call (list_packages pkg) (Ok out0); Call (pm_uninstall pkg) (Ok a)], out.
    rewrite negb_involutive. split; [| split; [exact Hin | right; eauto]].
    rewrite Ht2, Ht1, Ht0, <- !app_assoc. reflexivity.
  - intros [= <- <-]. exists [], out0. split; [exact Ht0 |]. auto.
Qed.

Lemma uninstall_returns_witness :
  let absent := fresh (E := scripted) [(Ok (VStr EmptyString), 30%N)] in
  let stuck :=
    fresh (E := scripted)
      [(Ok (VStr "package:com.foo"), 30%N); (Ok (VStr "Failure"), 90%N);
       (Ok (VStr "package:com.foo"), 30%N)] in
  Apps.uninstall "com.foo" absent = (Ok true, snd (Apps.uninstall "com.foo" absent)) /\
  requests (trace (snd (Apps.uninstall "com.foo" absent))) = [list_packages "com.foo"] /\
  fst (Apps.uninstall "com.foo" stuck) = Ok false /\
  exists evs out,
    trace (snd (Apps.uninstall "com.foo" stuck))
    = trace stuck ++ evs ++ [Call (list_packages "com.foo") (Ok out)] /\
    js_includes out "package:com.foo" = Ok true.
Proof.
  intros absent stuck. split; [reflexivity | split; [reflexivity | split; [reflexivity |]]].
  destruct (uninstall_returns scripted stuck _ "com.foo" false eq_refl)
    as [evs [out [Ht [Hin _]]]].
  exists evs, out. split; assumption.
Defined.

(** X14: the result of [install] is what the last package listing it
    has looked at says.  It first runs [pm install-existing] and looks
    at a listing; if that mentions the package it looks once more and is
    done.  Only if not does it open the store page of the package and
    wait 15000 ms before the last listing; a package still missing then
    makes the result [false], not an error. *)
Theorem install_returns (E : Environment) (s s1 : Sys (E := E))
  (pkg : string) (b : bool) :
  Apps.install pkg s = (Ok b, s1) ->
  exists a0 out0 installed evs out,
    trace s1 =
      trace s ++ [Call (install_existing pkg) (Ok a0);
                  Call (list_packages pkg) (Ok out0)]
      ++ evs ++ [Call (list_packages pkg) (Ok out)] /\
    js_includes out0 ("package:" +:+ pkg) = Ok installed /\
    js_includes out ("package:" +:+ pkg) = Ok b /\
    if installed then evs = []
    else exists a, evs = [Call (open_store pkg) (Ok a); Slept 15000].
Proof.
  unfold Apps.install, try_catch, bind, ret, executeShellCommand.
  fold (install_existing pkg) (open_store pkg).
  pose proof (send_trace (install_existing pkg) s) as Ht0.
  destruct (send (install_existing pkg) s) as [[a0 | e] s2]; [| discriminate].
  cbn [fst snd] in Ht0.
  destruct (Apps.isInstalled pkg s2) as [[installed | e] s3] eqn:Hfirst;
    [| discriminate].
  apply isInstalled_returns in Hfirst as [-> [out0 [Hout0 Hin0]]].
  pose proof (send_trace (list_packages pkg) s2) as Ht1. rewrite Hout0 in Ht1.
  destruct installed; cbn [negb].
  - destruct (Apps.isInstalled pkg _) as [[b' | e] s4] eqn:Hlast; [| discriminate].
    apply isInstalled_returns in Hlast as [-> [out [Hout Hin]]].
    pose proof (send_trace (list_packages pkg)
                  (snd (send (list_packages pkg) s2))) as Ht2.
    rewrite Hout in Ht2. intros [= <- <-].
    exists a0, out0, true, [], out. split; [| auto].
    rewrite Ht2, Ht1, Ht0, <- !app_assoc. reflexivity.
  - pose proof (send_trace (open_store pkg)
                  (snd (send (list_packages pkg) s2))) as Ht2.
    destruct (send (open_store pkg) _) as [[a | e] s4]; [| discriminate].
    cbn [fst snd] in Ht2.
    destruct (sleep_state 15000 s4) as [rem [lag Hsleep]]. rewrite Hsleep.
    set (s5 := set_world rem _ _ s4).
    destruct (Apps.isInstalled pkg s5) as [[b' | e] s6] eqn:Hlast; [| discriminate].
    apply isInstalled_returns in Hlast as [-> [out [Hout Hin]]].
    pose proof (send_trace (list_packages pkg) s5) as Ht3. rewrite Hout in Ht3.
    intros [= <- <-].
    exists a0, out0, false, [Call (open_store pkg) (Ok a); Slept 15000], out.
    split; [| eauto].
    rewrite Ht3. unfold s5. cbn [trace set_world].
    rewrite Ht2, Ht1, Ht0, <- !app_assoc. reflexivity.
Qed.

Lemma install_returns_witness :
  let store :=
    fresh (E := scripted)
      [(Ok (VStr "Failure"), 50%N); (Ok (VStr EmptyString), 30%N);
       (Ok (VStr "Starting: Intent"), 70%N); (Ok (VStr EmptyString), 30%N)] in
  fst (Apps.install "com.foo" store) = Ok false /\
  now (snd (Apps.install "com.foo" store)) = 15180 /\
  requests (trace (snd (Apps.install "com.foo" store)))
  = [install_existing "com.foo"; list_packages "com.foo"; open_store "com.foo";
     list_packages "com.foo"] /\
  exists a0 out0 installed evs out,
    trace (snd (Apps.install "com.foo" store)) =
      trace store ++ [Call (install_existing "com.foo") (Ok a0);
                      Call (list_packages "com.foo") (Ok out0)]
      ++ evs ++ [Call (list_packages "com.foo") (Ok out)] /\
    js_includes out0 ("package:" +:+ "com.foo") = Ok installed /\
    js_includes out ("package:" +:+ "com.foo") = Ok false /\
    if installed then evs = []
    else exists a, evs = [Call (open_store "com.foo") (Ok a); Slept 15000].
Proof.
  intros store.
  split; [reflexivity | split; [reflexivity | split; [reflexivity |]]].
  exact (install_returns scripted store _ "com.foo" false eq_refl).
Defined.

(** X15: [forceStop], [clearData], [createDirectory] and [deleteFile]
    each run one shell command and return [true] whenever it returns,
    whatever it printed; they raise, an [AppError] or a [FileError],
    only when the command itself fails. *)
Theorem shell_operations_run_blindly (E : Environment) (pkg path : string) :
  runs_blindly (E := E) (Apps.forceStop pkg) ("am force-stop " +:+ pkg) AppError
    (fun cause => "Failed to force stop app " +:+ pkg +:+ ": " +:+ cause) /\
  runs_blindly (E := E) (Apps.clearData pkg) ("pm clear " +:+ pkg) AppError
    (fun cause => "Failed to clear data for app " +:+ pkg +:+ ": " +:+ cause) /\
  runs_blindly (E := E) (Files.createDirectory path) ("mkdir -p " +:+ path) FileError
    (fun cause => "Failed to create directory " +:+ path +:+ ": " +:+ cause) /\
  runs_blindly (E := E) (Files.deleteFile path) ("rm -f " +:+ path) FileError
    (fun cause => "Failed to delete file " +:+ path +:+ ": " +:+ cause).
Proof.
  repeat split; intros s;
    unfold Apps.forceStop, Apps.clearData, Files.createDirectory, Files.deleteFile,
      try_catch, bind, ret, executeShellCommand;
    destruct (send _ s) as [[out | e] s1]; reflexivity.
Qed.

(** ** The activity pattern, line by line *)

Lemma sole_word_at_space (c : ascii) (s : string) :
  is_space c = true -> sole_word_at (String c s) = sole_word_at s.
Proof. intros Hc. unfold sole_word_at. cbn [trim_start]. now rewrite Hc. Qed.

Lemma search_line_start (s : string) :
  search true s =
  match sole_word_at s with
  | Some w => Some w
  | None => search false s
  end.
Proof. destruct s; cbn [search]; rewrite match_here_spec; reflexivity. Qed.

Lemma lines_cons (s : string) : exists l ls, lines s = l :: ls.
Proof.
  induction s as [| c s [l [ls IH]]]; cbn [lines]; [eauto |].
  destruct (is_line_terminator c); [eauto |]. rewrite IH. eauto.
Qed.

(** A word ends before the line does. *)
Lemma span_word_line (s : string) :
  forall l ls, lines s = l :: ls ->
  exists r ls',
    lines (snd (span_word s)) = r :: ls' /\
    span_word l = (fst (span_word s), r).
Proof.
  induction s as [| c s IH]; intros l ls.
  - intros [= <- <-]. cbn. eauto.
  - cbn [lines span_word]. destruct (is_space c) eqn:Hspace.
    + cbn [fst snd lines]. destruct (is_line_terminator c) eqn:Hterm.
      * intros [= <- <-]. cbn. eauto.
      * destruct (lines_cons s) as [l0 [ls0 Hs]]. rewrite Hs.
        intros [= <- <-]. cbn [span_word]. rewrite Hspace. eauto.
    + rewrite (not_space_not_line_terminator c Hspace).
      destruct (lines_cons s) as [l0 [ls0 Hs]]. rewrite Hs.
      intros [= <- <-]. destruct (IH l0 ls0 Hs) as [r [ls' [Hr Hspan]]].
      destruct (span_word s) as [w rest]. cbn [fst snd] in *.
      cbn [span_word]. rewrite Hspace, Hspan. eauto.
Qed.

Lemma line_ends_line (s : string) :
  forall l ls, lines s = l :: ls -> line_ends l = line_ends s.
Proof.
  induction s as [| c s IH]; intros l ls.
  - now intros [= <- <-].
  - cbn [lines line_ends]. destruct (is_line_terminator c) eqn:Hterm.
    + now intros [= <- <-].
    + destruct (lines_cons s) as [l0 [ls0 Hs]]. rewrite Hs.
      intros [= <- <-]. cbn [line_ends]. rewrite Hterm.
      now rewrite (IH l0 ls0 Hs).
Qed.

(** At a character that is no white space, the pattern sees no further
    than the line. *)
Lemma sole_word_at_line (c : ascii) (s l : string) (ls : list string) :
  is_space c = false ->
  lines (String c s) = l :: ls ->
  sole_word_at (String c s) = sole_word_at l.
Proof.
  intros Hspace Hl.
  destruct (span_word_line (String c s) l ls Hl) as [r [ls' [Hr Hspan]]].
  assert (Hhead : exists l', l = String c l').
  { revert Hl. cbn [lines]. rewrite (not_space_not_line_terminator c Hspace).
    destruct (lines s); intros [= <- <-]; eauto. }
  destruct Hhead as [l' ->].
  unfold sole_word_at. cbn [trim_start]. rewrite Hspace, Hspan.
  destruct (span_word (String c s)) as [w rest]. cbn [fst snd] in *.
  destruct w; [reflexivity |]. now rewrite (line_ends_line rest r ls' Hr).
Qed.

Lemma search_lines (s : string) :
  forall line_start,
    search line_start s =
    first_sole_word (if line_start : bool then lines s else tl (lines s)).
Proof.
  induction s as [| c s IH]; intros line_start.
  - destruct line_start; reflexivity.
  - assert (Hskip : search false (String c s)
                    = first_sole_word (tl (lines (String c s)))).
    { cbn [search lines]. destruct (is_line_terminator c).
      - apply (IH true).
      - rewrite (IH false). destruct (lines_cons s) as [l [ls ->]]. reflexivity. }
    destruct line_start; [| exact Hskip].
    rewrite search_line_start, Hskip.
    destruct (is_space c) eqn:Hspace.
    + rewrite (sole_word_at_space c s Hspace).
      cbn [lines]. destruct (is_line_terminator c).
      * cbn [tl first_sole_word].
        change (sole_word_at EmptyString) with (@None string).
        rewrite <- (IH true).
        destruct (sole_word_at s) eqn:Hsole; [| reflexivity].
        now rewrite search_line_start, Hsole.
      * destruct (lines_cons s) as [l [ls Hs]]. rewrite Hs.
        cbn [tl first_sole_word]. rewrite (sole_word_at_space c l Hspace).
        pose proof (IH true) as Htrue. pose proof (IH false) as Hfalse.
        cbv beta iota in Htrue, Hfalse. rewrite Hs in Htrue, Hfalse.
        cbn [tl first_sole_word] in Htrue, Hfalse.
        rewrite <- Htrue, <- Hfalse. symmetry. apply search_line_start.
    + destruct (lines_cons (String c s)) as [l [ls Hl]]. rewrite Hl.
      cbn [tl first_sole_word].
      now rewrite (sole_word_at_line c s l ls Hspace Hl).
Qed.

Lemma first_sole_word_nonempty (ls : list string) :
  first_sole_word ls <> Some EmptyString.
Proof.
  induction ls as [| l ls IH]; [discriminate |].
  cbn [first_sole_word]. unfold sole_word_at at 1.
  destruct (span_word (trim_start l)) as [[| c w] rest]; [exact IH |].
  destruct (line_ends rest); [discriminate | exact IH].
Qed.

(** X16: the pattern [/^\s*([^\s]+)\s*$/m] of [launch] picks the word of
    the first line of the output that consists of one word, white space
    around it or not; it finds nothing when no line does.  What it
    picks is never empty. *)
Theorem match_single_token_lines (output : string) :
  match_single_token output = first_sole_word (lines output) /\
  match_single_token output <> Some EmptyString.
Proof.
  assert (H : match_single_token output = first_sole_word (lines output))
    by apply (search_lines output true).
  split; [exact H |]. rewrite H. apply first_sole_word_nonempty.
Qed.

(** X17: [launch] of an installed package, when the output of the
    activity query has a line that consists of one word: it starts the
    activity named by the first such line and returns [true] if that
    command returns; if it fails, [launch] raises an [AppError] that
    quotes the cause. *)
Theorem launch_starts_activity (E : Environment) (s s1 : Sys (E := E))
  (pkg out activity : string) :
  Apps.isInstalled pkg s = (Ok true, s1) ->
  let query := ShellCommand ("cmd package resolve-activity --brief " +:+ pkg) in
  fst (send query s1) = Ok (VStr out) ->
  first_sole_word (lines out) = Some activity ->
  let start := ShellCommand ("am start -n " +:+ activity) in
  Apps.launch pkg s =
  (match fst (send start (snd (send query s1))) with
   | Ok _ => Ok true
   | Throw e =>
       Throw (error AppError
                ("Failed to launch app " +:+ pkg +:+ ": " +:+ message e))
   end,
   snd (send start (snd (send query s1)))).
Proof.
  intros Hinstalled query Hout Hline start.
  unfold Apps.launch, try_catch, bind. rewrite Hinstalled. cbn [negb ret].
  unfold executeShellCommand. fold query.
  destruct (send query s1) as [a s2]. cbn [fst snd] in *. subst a.
  cbn [js_match_single_token lift].
  change (match_single_token out) with (search true out).
  rewrite (search_lines out true), Hline.
  destruct (String.eqb activity EmptyString) eqn:Hempty.
  - apply String.eqb_eq in Hempty. subst activity.
    now destruct (first_sole_word_nonempty (lines out)).
  - fold start. destruct (send start s2) as [[a | e] s3]; reflexivity.
Qed.

Lemma launch_starts_activity_witness :
  let s :=
    fresh (E := scripted)
      [(Ok (VStr "package:com.spotify.music"), 35%N);
       (Ok (VStr ("priority=0 preferredOrder=0 match=0x108000" +:+ newline
                  +:+ "com.spotify.music/.MainActivity" +:+ newline)), 20%N);
       (Ok (VStr "Starting: Intent"), 60%N)] in
  Apps.launch "com.spotify.music" s
  = (Ok true, snd (Apps.launch "com.spotify.music" s)) /\
  requests (trace (snd (Apps.launch "com.spotify.music" s)))
  = [list_packages "com.spotify.music";
     ShellCommand "cmd package resolve-activity --brief com.spotify.music";
     ShellCommand "am start -n com.spotify.music/.MainActivity"].
Proof.
  intros s. split; [| reflexivity].
  rewrite (launch_starts_activity scripted s
             (snd (Apps.isInstalled "com.spotify.music" s))
             "com.spotify.music"
             ("priority=0 preferredOrder=0 match=0x108000" +:+ newline
              +:+ "com.spotify.music/.MainActivity" +:+ newline)
             "com.spotify.music/.MainActivity" eq_refl eq_refl eq_refl).
  reflexivity.
Defined.

(** ** Device files: [listFiles] *)

(** [split(/\s+/)] and the words of a line. *)
Lemma starts_with_space_split (s : string) :
  starts_with_space s = true ->
  exists pieces, split_spaces s = EmptyString :: pieces.
Proof.
  induction s as [| c s IH]; [discriminate |].
  cbn [starts_with_space split_spaces]. intros ->.
  destruct (starts_with_space s); eauto.
Qed.

Lemma split_spaces_cons (s : string) : exists p ps, split_spaces s = p :: ps.
Proof.
  induction s as [| c s [p [ps IH]]]; cbn [split_spaces]; [eauto |].
  rewrite IH. destruct (is_space c); [destruct (starts_with_space s) |]; eauto.
Qed.

Lemma split_spaces_words_from (s : string) :
  (starts_with_space s = true ->
   split_spaces s
   = EmptyString :: words s ++ (if ends_with_space s then [EmptyString] else [])) /\
  (starts_with_space s = false -> s <> EmptyString ->
   split_spaces s
   = words s ++ (if ends_with_space s then [EmptyString] else [])) /\
  (forall word c,
     match split_spaces s with
     | p :: ps => ((word +:+ String c EmptyString) +:+ p) :: ps
     | [] => []
     end
     = words_from s (word +:+ String c EmptyString)
       ++ (if ends_with_space s then [EmptyString] else [])).
Proof.
  assert (Hne : forall word c, exists c' w', word +:+ String c EmptyString = String c' w').
  { intros [| c' w'] c; cbn; eauto. }
  induction s as [| c s (IHspace & IHstart & IHword)].
  - split; [discriminate |]. split; [congruence |]. intros word c0. cbn.
    destruct (Hne word c0) as [c' [w' ->]]. now rewrite append_empty_r.
  - assert (Hend : s <> EmptyString ->
                   ends_with_space (String c s) = ends_with_space s).
    { destruct s; [congruence | reflexivity]. }
    assert (Hrest : is_space c = true ->
              split_spaces (String c s)
              = EmptyString :: words s
                ++ (if ends_with_space (String c s) then [EmptyString] else [])).
    { intros Hspace. cbn [split_spaces]. rewrite Hspace.
      destruct (starts_with_space s) eqn:Hs.
      - rewrite (IHspace eq_refl), Hend by (now destruct s). reflexivity.
      - destruct s as [| c1 s1].
        + cbn. now rewrite Hspace.
        + rewrite Hend by discriminate. rewrite (IHstart eq_refl) by discriminate.
          reflexivity. }
    split; [| split].
    + cbn [starts_with_space]. intros Hspace. rewrite (Hrest Hspace).
      unfold words. cbn [words_from]. now rewrite Hspace.
    + cbn [starts_with_space]. intros Hspace _.
      cbn [split_spaces]. rewrite Hspace.
      specialize (IHword EmptyString c).
      unfold words. cbn [words_from]. rewrite Hspace.
      destruct (split_spaces_cons s) as [p [ps Hp]]. rewrite Hp in *.
      change ((EmptyString +:+ String c EmptyString) +:+ p) with (String c p) in IHword.
      rewrite IHword. destruct s as [| c1 s1]; [| reflexivity].
      cbn. now rewrite Hspace.
    + intros word c0. destruct (is_space c) eqn:Hspace.
      * rewrite (Hrest eq_refl). cbn [words_from]. rewrite Hspace.
        destruct (Hne word c0) as [c' [w' ->]]. now rewrite append_empty_r.
      * cbn [split_spaces words_from]. rewrite Hspace.
        specialize (IHword (word +:+ String c0 EmptyString) c).
        destruct (split_spaces_cons s) as [p [ps Hp]]. rewrite Hp in *.
        rewrite append_assoc in IHword.
        change (String c EmptyString +:+ p) with (String c p) in IHword.
        rewrite IHword.
        destruct s as [| c1 s1]; [| reflexivity].
        cbn. now rewrite Hspace.
Qed.

(** X18: the fields [listFiles] makes of a line that starts with its
    first word: the first, third and fourth word are the permissions,
    the owner and the group, the fifth is read as the size, the next
    three make the date, and the words after them, joined by single
    spaces, the name.  So a run of white space inside a name comes back
    as one space, and white space at the end of the line (a carriage
    return, for one) as a space at the end of the name. *)
Theorem parse_line_fields (line p l o g sz d1 d2 d3 : string) (nm : list string) :
  starts_with_space line = false ->
  words line = p :: l :: o :: g :: sz :: d1 :: d2 :: d3 :: nm ->
  Files.parse_line line =
  Files.mkEntry (VStr p) (VStr o) (VStr g) (parseInt (VStr sz))
    (d1 +:+ " " +:+ d2 +:+ " " +:+ d3)
    (join_space (nm ++ if ends_with_space line then [EmptyString] else [])).
Proof.
  intros Hstart Hwords.
  assert (Hline : line <> EmptyString) by (intros ->; discriminate).
  destruct (split_spaces_words_from line) as (_ & Hsplit & _).
  unfold Files.parse_line. rewrite (Hsplit Hstart Hline), Hwords. reflexivity.
Qed.

Lemma parse_line_fields_witness :
  let cr := String (ascii_of_byte x0d) EmptyString in
  let line := "-rw-rw----  1 root sdcard_rw 1024 Jan 15 10:30 my   file.txt" +:+ cr in
  Files.parse_line line
  = Files.mkEntry (VStr "-rw-rw----") (VStr "root") (VStr "sdcard_rw") (Some (Finite 1024))
      "Jan 15 10:30" "my file.txt ".
Proof.
  intros cr line.
  rewrite (parse_line_fields line "-rw-rw----" "1" "root" "sdcard_rw" "1024"
             "Jan" "15" "10:30" ["my"; "file.txt"] eq_refl eq_refl).
  reflexivity.
Defined.

Lemma append_cons (c : ascii) (a b : string) :
  String c a +:+ b = String c (a +:+ b).
Proof. reflexivity. Qed.

Lemma digits_prefix_uint (d : Decimal.uint) (rest : string) :
  starts_with_digit rest = false ->
  digits_prefix (NilEmpty.string_of_uint d +:+ rest) = NilEmpty.string_of_uint d.
Proof.
  intros Hrest.
  induction d; cbn [NilEmpty.string_of_uint]; rewrite ?append_cons;
    cbn [digits_prefix]; try (change (is_digit _) with true; cbv iota; now f_equal).
  change (EmptyString +:+ rest) with rest.
  destruct rest as [| c rest]; [reflexivity |].
  cbn [starts_with_digit] in Hrest. cbn [digits_prefix]. now rewrite Hrest.
Qed.

Lemma parseInt_unsigned (d : Decimal.uint) (rest : string) :
  d <> Decimal.Nil ->
  starts_with_digit rest = false ->
  parseInt (VStr (NilEmpty.string_of_uint d +:+ rest)) = Some (to_double (Z.of_uint d)) /\
  parseInt (VStr (String "-" (NilEmpty.string_of_uint d) +:+ rest))
  = Some (to_double (- Z.of_uint d)).
Proof.
  intros Hd Hrest.
  pose proof (digits_prefix_uint d rest Hrest) as Hdigits.
  pose proof (NilEmpty.usu d) as Husu.
  unfold parseInt. cbn [to_str]. rewrite append_cons.
  destruct d; [contradiction | ..]; cbn [NilEmpty.string_of_uint] in *;
    rewrite append_cons in *; cbn [trim_start];
    repeat match goal with
      | |- context [is_space ?a] =>
          let v := eval vm_compute in (is_space a) in
          change (is_space a) with v; cbv iota
      | |- context [Ascii.eqb ?a ?b] =>
          let v := eval vm_compute in (Ascii.eqb a b) in
          change (Ascii.eqb a b) with v; cbv iota
      end;
    cbv beta; rewrite Hdigits; unfold NilZero.uint_of_string; rewrite Husu;
    split; reflexivity.
Qed.

Lemma parseInt_numeral (n : Z) (rest : string) :
  starts_with_digit rest = false ->
  parseInt (VStr (Z_to_string n +:+ rest)) = Some (to_double n).
Proof.
  intros Hrest. unfold Z_to_string.
  destruct n as [| p | p]; cbn [Z.to_int NilZero.string_of_int].
  - apply (parseInt_unsigned (Decimal.D0 Decimal.Nil) rest); [discriminate | exact Hrest].
  - pose proof (DecimalPos.Unsigned.to_uint_nonnil p) as Hnonnil.
    destruct (parseInt_unsigned (Pos.to_uint p) rest Hnonnil Hrest) as [Hparse _].
    unfold NilZero.string_of_uint.
    destruct (Pos.to_uint p) eqn:Hd; [contradiction | ..]; rewrite Hparse;
      unfold Z.of_uint; rewrite <- Hd, DecimalPos.Unsigned.of_to; reflexivity.
  - pose proof (DecimalPos.Unsigned.to_uint_nonnil p) as Hnonnil.
    destruct (parseInt_unsigned (Pos.to_uint p) rest Hnonnil Hrest) as [_ Hparse].
    unfold NilZero.string_of_uint.
    destruct (Pos.to_uint p) eqn:Hd; [contradiction | ..]; rewrite Hparse;
      unfold Z.of_uint; rewrite <- Hd, DecimalPos.Unsigned.of_to; reflexivity.
Qed.

(** A natural number up to [2 ^ 53] is a double. *)
Lemma nearest_double_exact (n : Z) :
  0 <= n <= 2 ^ 53 -> nearest_double n = Finite n.
Proof.
  intros Hn. unfold nearest_double.
  destruct (n <? 2 ^ 53) eqn:Hlt; [reflexivity |].
  apply Z.ltb_ge in Hlt. assert (n = 2 ^ 53) as -> by lia.
  vm_compute. reflexivity.
Qed.

(** From [2 ^ 53] on, the double is a multiple of the unit in the last
    place, and within half a unit of the number. *)
Lemma nearest_double_near (n m : Z) :
  2 ^ 53 <= n ->
  nearest_double n = Finite m ->
  let e := Z.log2 n - 52 in
  (2 ^ e | m) /\ 2 * Z.abs (m - n) <= 2 ^ e.
Proof.
  intros Hn. unfold nearest_double.
  destruct (n <? 2 ^ 53) eqn:Hlt; [apply Z.ltb_lt in Hlt; lia |].
  cbv zeta.
  assert (Hlog : 53 <= Z.log2 n).
  { change 53 with (Z.log2 (2 ^ 53)). now apply Z.log2_le_mono. }
  set (e := Z.log2 n - 52).
  assert (He : 1 <= e) by (unfold e; lia).
  assert (Hhalf : 2 ^ e = 2 * 2 ^ (e - 1)).
  { rewrite <- Z.pow_succ_r by lia. f_equal. lia. }
  assert (Hpos : 0 < 2 ^ (e - 1)) by (apply Z.pow_pos_nonneg; lia).
  pose proof (Z.div_mod n (2 ^ e) ltac:(lia)) as Hdiv.
  pose proof (Z.mod_pos_bound n (2 ^ e) ltac:(lia)) as Hmod.
  set (q := n / 2 ^ e) in *. set (r := n mod 2 ^ e) in *.
  set (round_down := (r <? 2 ^ (e - 1)) || ((r =? 2 ^ (e - 1)) && Z.even q)).
  assert (Hdown : round_down = true -> r <= 2 ^ (e - 1)).
  { unfold round_down. intros H. apply orb_true_iff in H as [H | H].
    - apply Z.ltb_lt in H. lia.
    - apply andb_true_iff in H as [H _]. apply Z.eqb_eq in H. lia. }
  assert (Hup : round_down = false -> 2 ^ (e - 1) <= r).
  { unfold round_down. intros H. apply orb_false_iff in H as [H _].
    apply Z.ltb_ge in H. lia. }
  destruct round_down.
  - destruct (2 ^ 1024 <=? q * 2 ^ e); [discriminate |].
    intros [= <-]. split; [now exists q |].
    specialize (Hdown eq_refl). lia.
  - destruct (2 ^ 1024 <=? (q + 1) * 2 ^ e); [discriminate |].
    intros [= <-]. split; [now exists (q + 1) |].
    specialize (Hup eq_refl). lia.
Qed.

(** X19: [parseInt] reads the decimal numeral of an integer, negative
    ones included, whatever follows the numeral, as long as that does
    not start with a digit, as the double nearest to the integer.  Up
    to [2 ^ 53] either side of zero that is the integer itself.  Beyond,
    a finite result is a multiple of the unit in the last place of the
    integer and within half a unit of it. *)
Theorem parseInt_decimal (n : Z) (rest : string) :
  starts_with_digit rest = false ->
  parseInt (VStr (Z_to_string n +:+ rest)) = Some (to_double n) /\
  (Z.abs n <= 2 ^ 53 ->
   parseInt (VStr (Z_to_string n +:+ rest)) = Some (Finite n)) /\
  (2 ^ 53 <= Z.abs n ->
   forall m,
     parseInt (VStr (Z_to_string n +:+ rest)) = Some (Finite m) ->
     let e := Z.log2 (Z.abs n) - 52 in
     (2 ^ e | m) /\ 2 * Z.abs (m - n) <= 2 ^ e).
Proof.
  intros Hrest. rewrite (parseInt_numeral n rest Hrest).
  split; [reflexivity |]. split.
  - intros Hsmall. unfold to_double.
    rewrite nearest_double_exact by lia. f_equal. f_equal. lia.
  - intros Hlarge m. unfold to_double.
    destruct (nearest_double (Z.abs n)) as [m0 |] eqn:Hnear; [| discriminate].
    intros [= <-].
    destruct (nearest_double_near (Z.abs n) m0 Hlarge Hnear) as [Hdivide Hclose].
    cbv zeta. split.
    + now apply Z.divide_mul_r.
    + assert (Z.abs (Z.sgn n * m0 - n) = Z.abs (m0 - Z.abs n)) as -> by lia.
      exact Hclose.
Qed.

Lemma parseInt_decimal_witness :
  parseInt (VStr (Z_to_string 4096 +:+ "K")) = Some (Finite 4096) /\
  parseInt (VStr (Z_to_string (-7) +:+ EmptyString)) = Some (Finite (-7)) /\
  parseInt (VStr (Z_to_string (2 ^ 53 + 1) +:+ EmptyString)) = Some (to_double (2 ^ 53 + 1)).
Proof.
  split; [| split].
  - apply (parseInt_decimal 4096 "K"); [reflexivity | vm_compute; discriminate].
  - apply (parseInt_decimal (-7) EmptyString); [reflexivity | vm_compute; discriminate].
  - apply (parseInt_decimal (2 ^ 53 + 1) EmptyString); reflexivity.
Defined.

(** Past [2 ^ 53] not every integer is read back: a tie goes to the even
    neighbour, and a numeral of 310 digits is read as [Infinity]. *)
Example parseInt_rounds :
  parseInt (VStr "9007199254740993") = Some (Finite 9007199254740992) /\
  parseInt (VStr "9007199254740995") = Some (Finite 9007199254740996) /\
  parseInt (VStr "-9007199254740993 bytes") = Some (Finite (-9007199254740992)) /\
  parseInt (VStr (Z_to_string (10 ^ 309))) = Some (Infinite false).
Proof. vm_compute. repeat split; reflexivity. Qed.

(** X20: a line of at most four words gets [NaN] as its size from
    [listFiles], not an error. *)
Theorem parse_line_short (line : string) :
  starts_with_space line = false ->
  (length (words line) <= 4)%nat ->
  Files.size (Files.parse_line line) = None.
Proof.
  intros Hstart Hshort. unfold Files.parse_line. cbn [Files.size].
  destruct line as [| c line']; [reflexivity |].
  destruct (split_spaces_words_from (String c line')) as (_ & Hsplit & _).
  rewrite (Hsplit Hstart) by discriminate.
  destruct (words (String c line')) as [| w1 [| w2 [| w3 [| w4 [| w5 ws]]]]];
    try (cbn in Hshort; lia);
    destruct (ends_with_space (String c line')); reflexivity.
Qed.

Lemma parse_line_short_witness :
  Files.size (Files.parse_line "total 24") = None /\
  Files.parse_line "total 24"
  = Files.mkEntry (VStr "total") VUndef VUndef None
      "undefined undefined undefined" EmptyString.
Proof.
  split; [| reflexivity].
  apply parse_line_short; [reflexivity | vm_compute; lia].
Defined.

Lemma split_on_line (l rest : string) :
  has_char (ascii_of_byte x0a) l = false ->
  split_on (ascii_of_byte x0a) (l +:+ newline +:+ rest)
  = l :: split_on (ascii_of_byte x0a) rest.
Proof.
  induction l as [| c l IH]; intros Hl.
  - reflexivity.
  - cbn [has_char] in Hl. apply orb_false_elim in Hl as [Hc Hl].
    rewrite append_cons. cbn [split_on]. now rewrite Hc, (IH Hl).
Qed.

Lemma nonblank_lines_unlines (ls : list string) :
  forallb is_row ls = true -> Files.nonblank_lines (unlines ls) = ls.
Proof.
  unfold Files.nonblank_lines.
  induction ls as [| l ls IH]; [reflexivity |].
  cbn [forallb unlines]. unfold is_row at 1.
  intros [[Hblank Hline%negb_true_iff]%andb_prop Hrest]%andb_prop.
  rewrite (split_on_line l _ Hline). cbn [List.filter].
  now rewrite Hblank, (IH Hrest).
Qed.

(** X21: a listing made of a first line and of rows, each ended by a
    newline, none of them blank: [listFiles] returns one entry for each
    row, made of its fields, in the order of the listing.  The first
    line is left out whatever it says, so a listing of one line, with or
    without the word total, gives no entry.  A command that fails is a
    [FileError]. *)
Theorem listFiles_rows (E : Environment) (s : Sys (E := E))
  (path header : string) (rows : list string) :
  let req := ShellCommand ("ls -la " +:+ path) in
  (forallb is_row (header :: rows) = true ->
   fst (send req s) = Ok (VStr (unlines (header :: rows))) ->
   Files.listFiles path s = (Ok (map Files.parse_line rows), snd (send req s))) /\
  (forall e,
     fst (send req s) = Throw e ->
     Files.listFiles path s =
     (Throw (error FileError
               ("Failed to list files in " +:+ path +:+ ": " +:+ message e)),
      snd (send req s))).
Proof.
  intros req. unfold Files.listFiles, try_catch, bind, executeShellCommand, lift, ret.
  fold req. destruct (send req s) as [a s1]. cbn [fst snd].
  split.
  - intros Hrows ->. cbn [Files.js_nonblank_lines].
    now rewrite (nonblank_lines_unlines _ Hrows).
  - intros e ->. reflexivity.
Qed.

Lemma listFiles_rows_witness :
  let row := "-rw-rw---- 1 root sdcard_rw 1024 Jan 15 10:30 notes.txt" in
  let one_file := fresh (E := scripted) [(Ok (VStr (unlines [row])), 12%N)] in
  let directory :=
    fresh (E := scripted) [(Ok (VStr (unlines ["total 8"; row])), 12%N)] in
  fst (Files.listFiles "/sdcard/notes.txt" one_file) = Ok [] /\
  fst (Files.listFiles "/sdcard" directory)
  = Ok [Files.mkEntry (VStr "-rw-rw----") (VStr "root") (VStr "sdcard_rw")
          (Some (Finite 1024)) "Jan 15 10:30" "notes.txt"].
Proof.
  intros row one_file directory. split.
  - rewrite (proj1 (listFiles_rows scripted one_file "/sdcard/notes.txt" row [])
               eq_refl eq_refl).
    reflexivity.
  - rewrite (proj1 (listFiles_rows scripted directory "/sdcard" "total 8" [row])
               eq_refl eq_refl).
    reflexivity.
Defined.

(** ** File transfer: what it leaves behind *)




(** On a full disk: the pull raises, and what was written of the file is
    what the local path holds; where the directory was still to be made,
    the file is not touched. *)
Example pullFile_disk_full :
  let answer := Ok (VObj [("content", VStr (base64_encode (string_to_bytes "new")))]) in
  let s :=
    set_local {[ "out/a.bin" := string_to_bytes "old" ]} {[ "out" ]}
      (fresh (E := full_disk) [(answer, 7%N)]) in
  let bare := fresh (E := full_disk) [(answer, 7%N)] in
  fst (Files.pullFile "/sdcard/a.bin" "out/a.bin" s)
  = Throw (error FileError
             "Failed to pull file /sdcard/a.bin to out/a.bin: ENOSPC: no space left on device, write") /\
  files (snd (Files.pullFile "/sdcard/a.bin" "out/a.bin" s)) !! "out/a.bin"
  = Some (string_to_bytes "ne") /\
  fst (Files.pullFile "/sdcard/a.bin" "out/a.bin" bare)
  = Throw (error FileError
             "Failed to pull file /sdcard/a.bin to out/a.bin: ENOSPC: no space left on device, write") /\
  files (snd (Files.pullFile "/sdcard/a.bin" "out/a.bin" bare)) = ∅.
Proof. vm_compute. repeat split; reflexivity. Qed.

(** X23: [pushFile] never changes the local file system, and it makes a
    request only for a local path that holds a file: for a path where
    there is nothing, or a directory, it raises a [FileError] and the
    state is what it was. *)
Theorem pushFile_local_untouched (E : Environment) (s : Sys (E := E))
  (localPath remotePath : string) :
  files (snd (Files.pushFile localPath remotePath s)) = files s /\
  dirs (snd (Files.pushFile localPath remotePath s)) = dirs s /\
  (files s !! localPath = None ->
   snd (Files.pushFile localPath remotePath s) = s /\
   exists cause,
     fst (Files.pushFile localPath remotePath s) =
     Throw (error FileError
              ("Failed to push file " +:+ localPath +:+ " to " +:+ remotePath
               +:+ ": " +:+ cause))).
Proof.
  destruct (files s !! localPath) as [bs |] eqn:Hfile.
  - rewrite (pushFile_present localPath remotePath bs s Hfile).
    set (req := push_request s remotePath bs).
    pose proof (send_files req s) as Hfiles. pose proof (send_dirs req s) as Hdirs.
    destruct (send req s) as [[a | e] s1]; cbn [snd] in *;
      (split; [exact Hfiles | split; [exact Hdirs | discriminate]]).
  - destruct (decide (localPath ∈ dirs s)) as [Hdir | Hdir].
    + assert (Hpush : Files.pushFile localPath remotePath s =
                (Throw (error FileError
                   ("Failed to push file " +:+ localPath +:+ " to " +:+ remotePath
                    +:+ ": EISDIR: illegal operation on a directory, read")), s)).
      { unfold Files.pushFile, fs_existsSync, fs_readFileSync. unfold_monad.
        cbv beta. rewrite Hfile.
        rewrite (bool_decide_eq_true_2 (localPath ∈ dirs s)) by assumption.
        rewrite orb_true_r. cbn [negb]. cbv beta iota. rewrite Hfile.
        rewrite (bool_decide_eq_true_2 (localPath ∈ dirs s)) by assumption.
        reflexivity. }
      rewrite Hpush. cbn [fst snd]. eauto 6.
    + rewrite (pushFile_absent localPath remotePath s Hfile Hdir).
      cbn [fst snd]. eauto 6.
Qed.

(** ** The sandbox: constructor, [create], [close] *)

(** X24: what the constructor does, case by case.  The key is the
    [api_key] option if it is given and not empty, the environment
    variable otherwise.  Without a key, or with an empty one, it raises
    an [ApiKeyError], whatever the other options: [webrtc] is not looked
    at.  With a key and [webrtc] it raises a [TypeError], since the
    stream manager has no method [enableWebrtc].  With a key and without
    [webrtc] it makes a sandbox without a device id, with the options
    as given and with idle managers.  So it succeeds only without
    [webrtc] and with a key that is not empty. *)
Theorem constructor_outcome (env_key : option string)
  (o : Sandbox.ConstructorOptions) :
  let key := Sandbox.key_or_env (Sandbox.opt_api_key o) env_key in
  (forall k, Sandbox.opt_api_key o = Some k -> k <> EmptyString -> key = Some k) /\
  (Sandbox.opt_api_key o = None \/ Sandbox.opt_api_key o = Some EmptyString ->
   key = env_key) /\
  Sandbox.new_AndroidSandbox env_key o =
  match key with
  | None | Some EmptyString =>
      Throw (error ApiKeyError
               "No API key provided. Set AIRTAP_API_KEY environment variable or pass api_key parameter.")
  | Some k =>
      if Sandbox.opt_webrtc o
      then Throw (error TypeError "this.stream.enableWebrtc is not a function")
      else Ok (Sandbox.construct k (Sandbox.opt_resolution o) (Sandbox.opt_dpi o)
                 (Sandbox.opt_memory_mb o),
               mkStream None VNull false, mkRecord None false None)
  end /\
  match Sandbox.new_AndroidSandbox env_key o with
  | Ok (sb, st, rc) =>
      Sandbox.opt_webrtc o = false /\
      key = Some (api_key sb) /\
      api_key sb <> EmptyString /\
      sb = Sandbox.construct (api_key sb) (Sandbox.opt_resolution o)
             (Sandbox.opt_dpi o) (Sandbox.opt_memory_mb o) /\
      st = mkStream None VNull false /\
      rc = mkRecord None false None
  | Throw e =>
      (name e = ApiKeyError /\ (key = None \/ key = Some EmptyString)) \/
      (e = error TypeError "this.stream.enableWebrtc is not a function" /\
       Sandbox.opt_webrtc o = true /\
       exists k, key = Some k /\ k <> EmptyString)
  end.
Proof.
  intros key. split; [| split; [| split]].
  - intros k Hk Hne. unfold key, Sandbox.key_or_env. rewrite Hk. cbn.
    destruct k; [contradiction | reflexivity].
  - unfold key, Sandbox.key_or_env. intros [-> | ->]; reflexivity.
  - unfold Sandbox.new_AndroidSandbox. fold key.
    destruct key as [[| c k] |]; cbn [opt_str truthy negb String.eqb];
      try reflexivity.
    destruct (Sandbox.opt_webrtc o); reflexivity.
  - unfold Sandbox.new_AndroidSandbox. fold key.
    destruct key as [[| c k] |]; cbn [opt_str truthy negb String.eqb].
    + left. auto.
    + destruct (Sandbox.opt_webrtc o); cbn.
      * right. repeat split. eexists. split; [reflexivity | discriminate].
      * repeat split. discriminate.
    + left. auto.
Qed.

Lemma constructor_outcome_witness :
  let missing := "No API key provided. Set AIRTAP_API_KEY environment variable or pass api_key parameter." in
  let with_webrtc key := Sandbox.mkConstructorOptions (1280, 720) 160 true 2048 key in
  let plain key := Sandbox.mkConstructorOptions (1280, 720) 160 false 2048 key in
  Sandbox.new_AndroidSandbox None (with_webrtc None)
  = Throw (error ApiKeyError missing) /\
  Sandbox.new_AndroidSandbox (Some EmptyString) (with_webrtc (Some EmptyString))
  = Throw (error ApiKeyError missing) /\
  Sandbox.new_AndroidSandbox (Some "env-key") (with_webrtc None)
  = Throw (error TypeError "this.stream.enableWebrtc is not a function") /\
  Sandbox.new_AndroidSandbox (Some "env-key") (plain (Some "own-key"))
  = Ok (Sandbox.construct "own-key" (1280, 720) 160 2048,
        mkStream None VNull false, mkRecord None false None).
Proof.
  cbv zeta. split; [| split; [| split]].
  - exact (proj1 (proj2 (proj2
      (constructor_outcome None
         (Sandbox.mkConstructorOptions (1280, 720) 160 true 2048 None))))).
  - exact (proj1 (proj2 (proj2
      (constructor_outcome (Some EmptyString)
         (Sandbox.mkConstructorOptions (1280, 720) 160 true 2048 (Some EmptyString)))))).
  - exact (proj1 (proj2 (proj2
      (constructor_outcome (Some "env-key")
         (Sandbox.mkConstructorOptions (1280, 720) 160 true 2048 None))))).
  - exact (proj1 (proj2 (proj2
      (constructor_outcome (Some "env-key")
         (Sandbox.mkConstructorOptions (1280, 720) 160 false 2048 (Some "own-key")))))).
Defined.

Lemma constructor_shape (env_key : option string) (o : Sandbox.ConstructorOptions) :
  match Sandbox.new_AndroidSandbox env_key o with
  | Ok (sb, st, rc) =>
      _device_id sb = VNull /\ st = mkStream None VNull false /\
      rc = mkRecord None false None
  | Throw _ => True
  end.
Proof.
  unfold Sandbox.new_AndroidSandbox.
  destruct (negb _); [destruct (new_error _ _); exact I |].
  destruct (if Sandbox.opt_webrtc o then _ else _); [repeat split | exact I].
Qed.

Section SandboxSteps.
Context {E : Environment}.
Implicit Types s : Sys (E := E).

(** [_initializeDevice], by the answer to its request. *)
Lemma initializeDevice_step s :
  let s0 := set_world (snd (uuid E (remote s))) (now s) (trace s) s in
  let req := Sandbox.provision_request s (fst (uuid E (remote s))) in
  let answer := fst (send req s0) in
  if created answer
  then Sandbox._initializeDevice s =
       (Ok (answered_device_id answer),
        Sandbox.set_device_id (answered_device_id answer) (snd (send req s0)))
  else exists msg,
      Sandbox._initializeDevice s =
      (Throw (error ConnectionError msg), snd (send req s0)).
Proof.
  unfold Sandbox._initializeDevice, bind, gets, try_catch.
  rewrite uuidv4_state. cbv zeta.
  set (s0 := set_world _ (now s) (trace s) s).
  change (Sandbox.provision_request s0 (fst (uuid E (remote s))))
    with (Sandbox.provision_request s (fst (uuid E (remote s)))).
  set (req := Sandbox.provision_request s _).
  pose proof (provision_spec req s0) as P.
  destruct (send req s0) as [answer s1]. cbn [fst snd].
  destruct (created answer).
  - rewrite P. reflexivity.
  - destruct P as [e ->].
    destruct (provision_failed_spec e s1) as [msg ->]. eauto.
Qed.

Lemma created_truthy (answer : Res JsVal) :
  created answer = true -> truthy (answered_device_id answer) = true.
Proof.
  unfold created. destruct answer as [resp | e]; [| discriminate].
  now intros [_ H]%andb_prop.
Qed.

End SandboxSteps.

(** X25: [create] makes no request unless the constructor succeeds: with
    [webrtc], or without a key, it raises what the constructor raises
    and the state is untouched.  When it returns, the constructor has
    succeeded, one request has been made, the provisioning of a device
    with the options given, and the sandbox holds the device id of the
    answer, which is not empty; the managers are idle. *)
Theorem create_outcome (E : Environment) (s s1 : Sys (E := E))
  (env_key : option string) (o : Sandbox.ConstructorOptions) (r : Res unit) :
  Sandbox.create env_key o s = (r, s1) ->
  match Sandbox.new_AndroidSandbox env_key o with
  | Throw e => r = Throw e /\ s1 = s
  | Ok objects =>
      let s0 := constructed objects s in
      let req := Sandbox.provision_request s0 (fst (uuid E (remote s))) in
      exists answer,
        trace s1 = trace s ++ [Call req answer] /\
        stream s1 = mkStream None VNull false /\
        record s1 = mkRecord None false None /\
        match r with
        | Ok _ =>
            created answer = true /\
            _device_id (sandbox s1) = answered_device_id answer /\
            truthy (_device_id (sandbox s1)) = true
        | Throw e =>
            created answer = false /\ name e = ConnectionError /\
            _device_id (sandbox s1) = VNull
        end
  end.
Proof.
  unfold Sandbox.create.
  pose proof (constructor_shape env_key o) as Hshape.
  destruct (Sandbox.new_AndroidSandbox env_key o) as [[[sb st] rc] | e].
  2:{ now intros [= <- <-]. }
  destruct Hshape as (Hsb & -> & ->).
  unfold bind at 1, modify. fold (constructed (sb, mkStream None VNull false,
                                               mkRecord None false None) s).
  set (s0 := constructed _ s). cbv zeta.
  pose proof (initializeDevice_step s0) as Hinit. cbv zeta in Hinit.
  change (uuid E (remote s0)) with (uuid E (remote s)) in Hinit.
  set (req := Sandbox.provision_request s0 _) in *.
  set (sent := set_world _ (now s0) (trace s0) s0) in *.
  pose proof (send_trace req sent) as Htrace.
  pose proof (send_stream req sent) as Hstream.
  pose proof (send_record req sent) as Hrecord.
  pose proof (send_sandbox req sent) as Hsandbox.
  unfold bind.
  destruct (created (fst (send req sent))) eqn:Hcreated.
  - rewrite Hinit. intros [= <- <-]. exists (fst (send req sent)).
    cbn. rewrite Htrace, Hstream, Hrecord.
    repeat split; auto using created_truthy.
  - destruct Hinit as [msg ->]. intros [= <- <-]. exists (fst (send req sent)).
    rewrite Htrace, Hstream, Hrecord, Hsandbox.
    repeat split; auto.
Qed.

Lemma create_outcome_witness :
  let s :=
    fresh (E := scripted) [(Ok (http 201 (VObj [("device_id", VStr "dev-1")])), 900%N)] in
  let with_webrtc :=
    Sandbox.mkConstructorOptions (1080, 1920) 320 true 2048 (Some "key") in
  let without :=
    Sandbox.mkConstructorOptions (1080, 1920) 320 false 2048 (Some "key") in
  Sandbox.create None with_webrtc s
  = (Throw (error TypeError "this.stream.enableWebrtc is not a function"), s) /\
  fst (Sandbox.create None without s) = Ok tt /\
  _device_id (sandbox (snd (Sandbox.create None without s))) = VStr "dev-1".
Proof.
  intros s with_webrtc without. split; [| split; [reflexivity |]].
  - destruct (create_outcome scripted s _ None with_webrtc _
                (surjective_pairing (Sandbox.create None with_webrtc s)))
      as [H1 H2].
    rewrite (surjective_pairing (Sandbox.create None with_webrtc s)).
    f_equal; assumption.
  - destruct (create_outcome scripted s _ None without _ eq_refl)
      as (answer & _ & _ & _ & _ & H & _).
    reflexivity.
Defined.

(** X26: [close] never raises and always forgets the device id,
    whatever the answer.  It makes one request, the release of the
    device whose id the sandbox holds: so a second [close] asks for the
    release of the device [null].  It prints nothing when the answer
    has status 200 or 204, and one line on the console otherwise. *)
Theorem close_spec (E : Environment) (s : Sys (E := E)) :
  let answer := fst (send (release_request s) s) in
  exists logs,
    Sandbox.close s =
    (Ok tt,
     Sandbox.set_device_id VNull
       (set_world (remote (snd (send (release_request s) s)))
          (now (snd (send (release_request s) s)))
          (trace s ++ Call (release_request s) answer :: logs) s)) /\
    (if released answer then logs = []
     else exists l msg, logs = [Console l msg]) /\
    release_request (snd (Sandbox.close s)) =
    Axios POST "https://api.airtap.ai/v1/devices/null/release" (VObj [])
      (Sandbox.config (Sandbox.json_headers s) 30000).
Proof.
  intros answer. unfold answer, released.
  unfold Sandbox.close, try_catch, bind, gets, lift, modify, ret, console.
  cbv beta. fold (release_request s).
  destruct (send_state (release_request s) s) as [rem [took Hstate]].
  destruct (send (release_request s) s) as [[resp | e] s1]; cbn [fst snd] in *.
  - rewrite get_prop_nullish. unfold field.
    destruct (nullish resp) eqn:Hnull.
    + exists [Console Error
                ("Error releasing device: Cannot read properties of " +:+ to_str resp)].
      subst s1. destruct resp; try discriminate; cbn; rewrite <- app_assoc; eauto.
    + destruct (get_prop resp "status") as [status | e] eqn:Hstatus;
        [| destruct resp; discriminate].
      destruct (strict_eq status (VNum 200)) eqn:H200; cbn [negb andb orb].
      * exists []. subst s1. cbn. eauto.
      * destruct (strict_eq status (VNum 204)) eqn:H204; cbn [negb].
        -- exists []. subst s1. cbn. eauto.
        -- eexists [Console Warn _]. subst s1. cbn. rewrite <- app_assoc. eauto.
  - eexists [Console Error _]. subst s1. cbn. rewrite <- app_assoc. eauto.
Qed.

(** ** Waiting for an app, for any timeout *)

Lemma requests_answers (evs : list Event) :
  answers evs = [] -> requests evs = [].
Proof.
  induction evs as [| [r a | ms | l msg] evs IH]; cbn; auto; discriminate.
Qed.

(** X27: [waitForApp] with any timeout returns a boolean and never
    raises, given one round more than the timeout has room for at 500
    ms each.  With a timeout of zero or less it returns [false] at once:
    no request, no delay, the state as it was.  With a positive timeout
    it polls at least once, and at most once for every 500 ms of the
    timeout begun: at most ten times for the default of 5000 ms.  Its
    trace is a sequence of rounds: a poll, sent while the clock is
    before the deadline; if the poll reports the package, nothing more;
    if not, a delay of 500 ms and then the next round.  It returns
    [true] exactly when a poll reported the package, and [false] only
    once the clock has reached the deadline. *)
Theorem waitForApp_bounds (E : Environment) (s : Sys (E := E)) (pkg : string)
  (timeout_ms : Z) (fuel : nat) :
  timeout_ms <= 500 * Z.of_nat fuel ->
  exists b evs s',
    Sandbox.waitForApp (S fuel) pkg timeout_ms s = (Ok (Some b), s') /\
    trace s' = trace s ++ evs /\
    (timeout_ms <= 0 -> requests evs = [] /\ b = false) /\
    (0 < timeout_ms ->
     (1 <= length (answers evs))%nat /\
     500 * Z.of_nat (length (answers evs)) < timeout_ms + 500) /\
    cadence 500 evs = true /\
    b = existsb (reports pkg) (answers evs) /\
    rounds pkg evs = true /\
    sent_before (now s + timeout_ms) s evs = true /\
    s' = replay s evs /\
    (b = false -> now s + timeout_ms <= now s') /\
    (timeout_ms <= 0 -> evs = [] /\ s' = s).
Proof.
  intros Hfuel.
  unfold Sandbox.waitForApp, bind, gets, Date_now. cbv beta.
  destruct (waitForApp_loop_spec (Sandbox.device_url s "/current_app")
              (Sandbox.accept_headers s) pkg (now s + timeout_ms) fuel s)
    as (b & evs & s' & Hrun & Htrace & _ & Hcadence & Hcount & Hnone & Hb & _
        & Hreplay & Hrounds & Hsent & Hlate);
    [lia |].
  exists b, evs, s'. split; [exact Hrun |]. split; [exact Htrace |].
  split; [| split; [| split; [exact Hcadence | split; [exact Hb |]]]].
  - intros Hle. assert (Hevs : evs = []) by (apply Hnone; lia).
    split; now rewrite ?Hb, Hevs.
  - intros Hpos. destruct Hcount as [H1 H2]; [lia |]. split; [exact H1 | lia].
  - repeat split; auto.
    + apply Hnone; lia.
    + rewrite Hreplay, Hnone by lia. reflexivity.
Qed.

Lemma waitForApp_bounds_witness :
  let elsewhere := Ok (http 200 (VObj [("package_name", VStr "com.android.launcher")])) in
  let s := fresh (E := scripted) [(elsewhere, 80%N)] in
  Sandbox.waitForApp 1 "pkg.x" 0 s = (Ok (Some false), s) /\
  exists b evs s',
    Sandbox.waitForApp 11 "pkg.x" 5000 s = (Ok (Some b), s') /\
    trace s' = trace s ++ evs /\
    (1 <= length (answers evs) <= 10)%nat /\
    rounds "pkg.x" evs = true /\
    sent_before (now s + 5000) s evs = true /\
    (b = false -> now s + 5000 <= now s').
Proof.
  intros elsewhere s. split; [reflexivity |].
  destruct (waitForApp_bounds scripted s "pkg.x" 5000 10 ltac:(lia))
    as (b & evs & s' & Hrun & Htrace & _ & Hcount & _ & _ & Hrounds & Hsent & _ & Hlate & _).
  exists b, evs, s'. split; [exact Hrun |]. split; [exact Htrace |].
  destruct Hcount as [H1 H2]; [lia |]. repeat split; auto; lia.
Defined.

(** ** A screenshot that succeeds *)

(** X28: [screenshot], when the answer has status 200 and carries the
    image in base64 under [image_data], returns the bytes of the image:
    the decoding undoes the encoding.  It makes that one request and
    prints nothing, even if the answer has an [image_url] too.  When the
    answer has status 200 and neither field, it returns [undefined], not
    an empty buffer. *)
Theorem screenshot_inline (E : Environment) (s : Sys (E := E))
  (result : list (string * JsVal)) :
  fst (send (screenshot_request s) s) = Ok (http 200 (VObj result)) ->
  (forall bs,
     assoc "image_data" result = VStr (base64_encode bs) ->
     bs <> [] ->
     Sandbox.screenshot s = (Ok (Some bs), snd (send (screenshot_request s) s))) /\
  (truthy (assoc "image_data" result) = false ->
   truthy (assoc "image_url" result) = false ->
   Sandbox.screenshot s = (Ok None, snd (send (screenshot_request s) s))).
Proof.
  intros Hanswer.
  unfold Sandbox.screenshot, try_catch, bind, gets, lift, ret. cbv beta.
  fold (screenshot_request s).
  destruct (send (screenshot_request s) s) as [a s1]. cbn [fst snd] in *. subst a.
  cbn [http get_prop assoc String.eqb Ascii.eqb Bool.eqb strict_eq Z.eqb Pos.eqb].
  split.
  - intros bs -> Hne. cbn [truthy Buffer_from_base64].
    rewrite base64_roundtrip.
    destruct (String.eqb (base64_encode bs) EmptyString) eqn:Hempty; [| reflexivity].
    apply String.eqb_eq in Hempty.
    apply (f_equal base64_decode) in Hempty. rewrite base64_roundtrip in Hempty.
    now subst bs.
  - intros -> ->. reflexivity.
Qed.

Lemma screenshot_inline_witness :
  let png := string_to_bytes "PNG" in
  let s :=
    fresh (E := scripted)
      [(Ok (http 200 (VObj [("image_data", VStr (base64_encode png));
                            ("image_url", VStr "https://cdn/x.png")])), 300%N)] in
  let empty := fresh (E := scripted) [(Ok (http 200 (VObj [])), 300%N)] in
  fst (Sandbox.screenshot s) = Ok (Some png) /\
  requests (trace (snd (Sandbox.screenshot s))) = [screenshot_request s] /\
  fst (Sandbox.screenshot empty) = Ok None.
Proof.
  intros png s empty. split; [| split; [reflexivity |]].
  - rewrite (proj1 (screenshot_inline scripted s _ eq_refl) png eq_refl);
      [reflexivity | discriminate].
  - rewrite (proj2 (screenshot_inline scripted empty [] eq_refl) eq_refl eq_refl).
    reflexivity.
Defined.

(** ** The API client *)

(** X29: each of the four methods of the client makes one request with
    the base url and the headers of the client, the bearer token among
    them, and returns the [data] of the response; an argument left out
    is an empty object.  But [exceptions.js] exports no [ApiError]: when
    the request fails, what a method raises is the [TypeError] of
    [new ApiError(...)], the same for every cause. *)
Theorem client_methods (E : Environment) (c : Api.ApiClient)
  (endpoint : string) (arg : JsVal) :
  require exceptions "ApiError" = None /\
  through_client (E := E) (Api.get c endpoint arg)
    (Axios GET endpoint VUndef
       (VObj (Api.defaults c ++ [("params", Api.or_object arg)]))) /\
  through_client (E := E) (Api.post c endpoint arg)
    (Axios POST endpoint (Api.or_object arg) (VObj (Api.defaults c))) /\
  through_client (E := E) (Api.put c endpoint arg)
    (Axios PUT endpoint (Api.or_object arg) (VObj (Api.defaults c))) /\
  through_client (E := E) (Api.delete c endpoint)
    (Axios DELETE endpoint VUndef (VObj (Api.defaults c))) /\
  Api.or_object VUndef = VObj [] /\
  assoc "Authorization" (match assoc "headers" (Api.defaults c) with
                         | VObj headers => headers
                         | _ => []
                         end)
  = VStr ("Bearer " +:+ Api.apiKey c).
Proof.
  split; [reflexivity |].
  repeat split; intros s;
    unfold Api.get, Api.post, Api.put, Api.delete, try_catch, bind, lift;
    destruct (send _ s) as [[resp | e] s1]; cbn [fst snd];
    try reflexivity;
    rewrite get_prop_nullish; destruct (nullish resp); reflexivity.
Qed.

(** ** [trim] and the words of a text *)

Lemma span_word_app (s : string) :
  s = fst (span_word s) +:+ snd (span_word s).
Proof.
  induction s as [| c s IH]; [reflexivity |].
  cbn [span_word]. destruct (is_space c); [reflexivity |].
  destruct (span_word s) as [w r]. cbn [fst snd] in *.
  rewrite append_cons. now f_equal.
Qed.

Lemma span_word_free (s : string) : space_free (fst (span_word s)) = true.
Proof.
  induction s as [| c s IH]; [reflexivity |].
  cbn [span_word]. destruct (is_space c) eqn:Hspace; [reflexivity |].
  destruct (span_word s) as [w r]. cbn [fst snd space_free] in *.
  now rewrite Hspace, IH.
Qed.

Lemma span_word_rest (s : string) :
  snd (span_word s) = EmptyString \/ starts_with_space (snd (span_word s)) = true.
Proof.
  induction s as [| c s IH]; [now left |].
  cbn [span_word]. destruct (is_space c) eqn:Hspace; [now right |].
  destruct (span_word s) as [w r]. exact IH.
Qed.

Lemma words_from_span (s : string) :
  forall word,
    words_from s word
    = words_from (snd (span_word s)) (word +:+ fst (span_word s)).
Proof.
  induction s as [| c s IH]; intros word.
  - cbn. now rewrite append_empty_r.
  - cbn [span_word words_from]. destruct (is_space c) eqn:Hspace.
    + cbn [fst snd words_from]. now rewrite Hspace, append_empty_r.
    + rewrite IH. destruct (span_word s) as [w r]. cbn [fst snd].
      rewrite append_assoc. reflexivity.
Qed.

Lemma words_from_rest (r word : string) :
  r = EmptyString \/ starts_with_space r = true ->
  word <> EmptyString ->
  words_from r word = word :: words_from r EmptyString.
Proof.
  intros [-> | Hr] Hword.
  - cbn. destruct word; [contradiction | reflexivity].
  - destruct r as [| c r]; [discriminate |]. cbn in Hr. cbn [words_from].
    rewrite Hr. destruct word; [contradiction | reflexivity].
Qed.

Lemma words_trim_start (s : string) : words s = words (trim_start s).
Proof.
  unfold words. induction s as [| c s IH]; [reflexivity |].
  cbn [trim_start words_from]. destruct (is_space c) eqn:Hspace; [exact IH |].
  cbn [words_from]. now rewrite Hspace.
Qed.

Lemma words_nil (r : string) :
  r = EmptyString \/ starts_with_space r = true ->
  (words r = [] <-> trim_start r = EmptyString).
Proof.
  intros Hr. rewrite words_trim_start.
  destruct (trim_start r) as [| c t] eqn:Ht; [split; reflexivity |].
  split; [| discriminate]. unfold words. intros Hnil. exfalso.
  assert (Hc : is_space c = false).
  { clear Hr Hnil. revert Ht. induction r as [| c' r IH]; [discriminate |].
    cbn [trim_start]. destruct (is_space c') eqn:Hspace; [exact IH |].
    now intros [= <- _]. }
  rewrite words_from_span in Hnil. cbn [span_word] in Hnil. rewrite Hc in Hnil.
  destruct (span_word t) as [w r'] eqn:Hspan. cbn [fst snd] in Hnil.
  pose proof (span_word_rest t) as Hrest. rewrite Hspan in Hrest. cbn [snd] in Hrest.
  rewrite words_from_rest in Hnil; [discriminate | exact Hrest | discriminate].
Qed.

Lemma trim_end_blank (r : string) :
  trim_end r = EmptyString <-> trim_start r = EmptyString.
Proof.
  induction r as [| c r IH]; [split; reflexivity |].
  cbn [trim_end trim_start]. destruct (is_space c) eqn:Hspace.
  - rewrite <- IH. destruct (trim_end r); split; (reflexivity || discriminate).
  - destruct (trim_end r); split; discriminate.
Qed.

Lemma trim_end_app (a b : string) :
  trim_end (a +:+ b)
  = match trim_end b with
    | EmptyString => trim_end a
    | t => a +:+ t
    end.
Proof.
  induction a as [| c a IH].
  - change (EmptyString +:+ b) with b. destruct (trim_end b); reflexivity.
  - rewrite append_cons. cbn [trim_end]. rewrite IH.
    destruct (trim_end b) as [| c' t]; [reflexivity |].
    destruct a; reflexivity.
Qed.

Lemma trim_end_free (w : string) : space_free w = true -> trim_end w = w.
Proof.
  induction w as [| c w IH]; [reflexivity |].
  cbn [space_free trim_end]. intros [Hc%negb_true_iff Hw]%andb_prop.
  rewrite (IH Hw), Hc. destruct w; reflexivity.
Qed.

Lemma space_free_app (a b : string) :
  space_free (a +:+ b) = space_free a && space_free b.
Proof.
  induction a as [| c a IH]; [reflexivity |].
  rewrite append_cons. cbn [space_free]. now rewrite IH, andb_assoc.
Qed.

(** [trim] gives a word exactly when that word is the only one. *)
Lemma trim_only_word (s w : string) :
  space_free w = true -> w <> EmptyString ->
  (trim s = w <-> words s = [w]).
Proof.
  intros Hfree Hne. unfold trim. rewrite words_trim_start.
  set (t := trim_start s).
  assert (Ht : t = EmptyString \/ starts_with_space t = false).
  { unfold t. clear. induction s as [| c s IH]; [now left |].
    cbn [trim_start]. destruct (is_space c) eqn:Hspace; [exact IH |].
    right. cbn. exact Hspace. }
  clearbody t. unfold words.
  rewrite (words_from_span t EmptyString).
  rewrite (span_word_app t) at 1.
  pose proof (span_word_free t) as Hw. pose proof (span_word_rest t) as Hr.
  assert (Hhead : fst (span_word t) = EmptyString -> t = EmptyString).
  { destruct Ht as [-> | Ht]; [reflexivity |].
    destruct t as [| c t]; [reflexivity |]. cbn in Ht. cbn [span_word].
    rewrite Ht. destruct (span_word t). cbn. discriminate. }
  destruct (span_word t) as [w' r] eqn:Hspan. cbn [fst snd] in *.
  change (EmptyString +:+ w') with w'.
  destruct w' as [| c w'].
  - rewrite (Hhead eq_refl) in Hspan. injection Hspan as <-.
    change (EmptyString +:+ EmptyString) with EmptyString. cbn.
    split; [intros H; now destruct Hne | discriminate].
  - rewrite words_from_rest by (assumption || discriminate).
    rewrite trim_end_app.
    destruct (trim_end r) as [| c' tr] eqn:Htrim.
    + rewrite (trim_end_free _ Hw).
      apply trim_end_blank in Htrim. apply (words_nil r Hr) in Htrim.
      unfold words in Htrim. rewrite Htrim. split; congruence.
    + split.
      * intros <-. exfalso.
        rewrite space_free_app in Hfree. apply andb_prop in Hfree as [_ Hfree].
        assert (Hspace : is_space c' = true).
        { destruct Hr as [-> | Hr]; [discriminate |].
          destruct r as [| c0 r]; [discriminate |]. cbn in Hr.
          revert Htrim. cbn [trim_end]. rewrite Hr.
          destruct (trim_end r); [discriminate |]. now intros [= <- _]. }
        cbn [space_free] in Hfree. now rewrite Hspace in Hfree.
      * intros [= _ Hnil]. exfalso.
        assert (Hblank : trim_start r = EmptyString)
          by (apply (words_nil r Hr); exact Hnil).
        apply trim_end_blank in Hblank. congruence.
Qed.

(** X30: [fileExists] returns [true] exactly when the only word the
    test command printed is [exists], whatever the white space and the
    line ends around it; for the output [not exists], and for an empty
    output, it returns [false]. *)
Theorem fileExists_answers (E : Environment) (s : Sys (E := E))
  (path out : string) :
  fst (send (ShellCommand (Files.test_command path)) s) = Ok (VStr out) ->
  Files.fileExists path s =
  (Ok (bool_decide (words out = ["exists"])),
   snd (send (ShellCommand (Files.test_command path)) s)).
Proof.
  intros Hout.
  unfold Files.fileExists, try_catch, bind, executeShellCommand, lift, ret.
  destruct (send _ s) as [a s1]. cbn [fst snd] in *. subst a.
  cbn [js_trim]. do 2 f_equal.
  destruct (String.eqb (trim out) "exists") eqn:Heq.
  - apply String.eqb_eq in Heq.
    apply (trim_only_word out "exists") in Heq; [| reflexivity | discriminate].
    now rewrite bool_decide_eq_true_2.
  - apply String.eqb_neq in Heq. rewrite bool_decide_eq_false_2; [reflexivity |].
    intros Hwords. apply Heq.
    apply (trim_only_word out "exists"); [reflexivity | discriminate | exact Hwords].
Qed.

Lemma fileExists_answers_witness :
  let cr := String (ascii_of_byte x0d) EmptyString in
  let there := fresh (E := scripted) [(Ok (VStr ("exists" +:+ cr +:+ newline)), 25%N)] in
  let missing := fresh (E := scripted) [(Ok (VStr ("not exists" +:+ newline)), 25%N)] in
  fst (Files.fileExists "/sdcard/a" there) = Ok true /\
  fst (Files.fileExists "/sdcard/a" missing) = Ok false.
Proof.
  intros cr there missing. split.
  - rewrite (fileExists_answers scripted there "/sdcard/a" _ eq_refl). reflexivity.
  - rewrite (fileExists_answers scripted missing "/sdcard/a" _ eq_refl). reflexivity.
Defined.
